(** * A shallow embedding of the lighteval result-aggregation scripts

    The development follows three scripts of the repository:
    - [examples/process_evaluation_results.py] (module [ProcessResults]),
    - [examples/extract_evaluation_results.py] (module [ExtractResults]),
    - [examples/combine_detail_results.py] (module [CombineDetails]).

    Python values are modelled as follows.
    - [str] is [string]; [split], [rsplit], [startswith], [endswith] and the
      [in] test on strings are the functions of module [PyStr].
    - [dict] and [collections.defaultdict] are insertion-ordered association
      lists with an optional default value ([pydict]); a lookup that misses
      raises [KeyError] on a [dict] and yields the default on a
      [defaultdict].
    - exceptions are the [Raise] branch of the [result] type.
    - numbers that the scripts treat as floats live in a type [F] with the
      operations of the class [PyFloat]; the class has an exact instance
      (rationals, [Q]) and an IEEE 754 binary64 instance (the primitive
      floats), which is what CPython computes with.  Item counts are [Z]. *)

From Stdlib Require Import List String Ascii Bool ZArith QArith Floats Lia.
From Stdlib Require Import Sorted Lqa.
Import ListNotations.

Open Scope string_scope.
Open Scope list_scope.
Open Scope Z_scope.

(** ** Exceptions *)

Inductive exn : Type :=
| KeyError (key : string)
| ZeroDivisionError
| StopIteration
| IndexError
| NotADirectoryError (path : string)
| OSError (path : string).

Inductive result (A : Type) : Type :=
| Ok (a : A)
| Raise (e : exn).

Arguments Ok {A} a.
Arguments Raise {A} e.

Definition bind {A B : Type} (r : result A) (k : A -> result B) : result B :=
  match r with
  | Ok a => k a
  | Raise e => Raise e
  end.

Notation "x <- r ;; k" := (bind r (fun x => k))
  (at level 61, r at next level, right associativity).
Notation "' p <- r ;; k" := (bind r (fun x => match x with p => k end))
  (at level 61, p pattern, r at next level, right associativity).

(** A [for] loop whose body may raise: the accumulator is threaded from left
    to right and the first exception ends the loop. *)
Fixpoint for_each {A B : Type} (body : B -> A -> result B) (l : list A) (b : B)
  : result B :=
  match l with
  | [] => Ok b
  | a :: l' => b' <- body b a ;; for_each body l' b'
  end.

(** ** Numbers *)

Class PyFloat (F : Type) : Type := {
  of_int : Z -> F;          (* the conversion done by mixed int/float arithmetic *)
  fadd : F -> F -> F;
  fmul : F -> F -> F;
  fdiv : F -> F -> F;
  fleb : F -> F -> bool;    (* [<=] *)
}.

(** Exact arithmetic. *)
#[export] Instance Q_PyFloat : PyFloat Q := {
  of_int := inject_Z;
  fadd := Qplus;
  fmul := Qmult;
  fdiv := Qdiv;
  fleb := Qle_bool;
}.

(** IEEE 754 binary64.  The conversion of an integer is its correctly
    rounded value (to nearest, ties to even), as Python converts an [int]
    that meets a [float].  An integer too large for a binary64 number gives
    an infinity here, where Python raises [OverflowError]: such an integer
    has more than 300 digits. *)
Definition float_of_Z (z : Z) : float :=
  SF2Prim (binary_normalize prec emax z 0 false).

#[export] Instance binary64_PyFloat : PyFloat float := {
  of_int := float_of_Z;
  fadd := PrimFloat.add;
  fmul := PrimFloat.mul;
  fdiv := PrimFloat.div;
  fleb := PrimFloat.leb;
}.

(** [x / n] for an integer divisor [n]: Python raises on a zero divisor. *)
Definition truediv {F : Type} `{PyFloat F} (x : F) (n : Z) : result F :=
  if n =? 0 then Raise ZeroDivisionError else Ok (fdiv x (of_int n)).

(** ** Strings *)

Module PyStr.

(** [s.split(sep)] for a one-character separator. *)
Fixpoint split (sep : ascii) (s : string) : list string :=
  match s with
  | EmptyString => [EmptyString]
  | String c s' =>
      if Ascii.eqb c sep then EmptyString :: split sep s'
      else match split sep s' with
           | [] => [String c EmptyString]
           | w :: ws => String c w :: ws
           end
  end.

(** [sep.join(parts)]. *)
Fixpoint join (sep : string) (parts : list string) : string :=
  match parts with
  | [] => EmptyString
  | [w] => w
  | w :: ws => w ++ sep ++ join sep ws
  end.

(** [s.rsplit(sep, 1)]: at most one cut, at the last separator. *)
Definition rsplit1 (sep : ascii) (s : string) : list string :=
  match rev (split sep s) with
  | [] | [_] => [s]
  | w :: ws => [join (String sep EmptyString) (rev ws); w]
  end.

(** [l[i]] for [i >= 0] and [l[-1]]. *)
Definition index {A : Type} (l : list A) (i : nat) : result A :=
  match nth_error l i with
  | Some a => Ok a
  | None => Raise IndexError
  end.

Definition index_last {A : Type} (l : list A) : result A :=
  match rev l with
  | a :: _ => Ok a
  | [] => Raise IndexError
  end.

Definition startswith (s p : string) : bool := String.prefix p s.

(** [s[n:]]. *)
Fixpoint slice_from (n : nat) (s : string) : string :=
  match n, s with
  | O, _ => s
  | S n', String _ s' => slice_from n' s'
  | S _, EmptyString => EmptyString
  end.

Definition endswith (s p : string) : bool :=
  let n := String.length s in
  let m := String.length p in
  (m <=? n)%nat && String.eqb (slice_from (n - m) s) p.

(** [sub in s]. *)
Fixpoint str_in (sub s : string) : bool :=
  String.prefix sub s ||
  match s with
  | EmptyString => false
  | String _ s' => str_in sub s'
  end.

(** [s.replace(a, b)] for one-character [a] and [b]. *)
Fixpoint replace (a b : ascii) (s : string) : string :=
  match s with
  | EmptyString => EmptyString
  | String c s' => String (if Ascii.eqb c a then b else c) (replace a b s')
  end.

(** [os.path.join(a, b)] on a POSIX system. *)
Definition path_join (a b : string) : string :=
  if startswith b "/" then b
  else if String.eqb a "" || endswith a "/" then a ++ b
  else a ++ "/" ++ b.

End PyStr.

(** ** Dictionaries *)

Section PyDict.

Context {V : Type}.

(** [items] is the content in insertion order; [default_factory] is [None]
    for a [dict] and [Some v] for a [defaultdict] whose factory returns
    [v]. *)
Record pydict : Type := mkdict {
  items : list (string * V);
  default_factory : option V;
}.

Definition empty_dict : pydict := mkdict [] None.
Definition empty_defaultdict (v : V) : pydict := mkdict [] (Some v).

Fixpoint assoc (k : string) (l : list (string * V)) : option V :=
  match l with
  | [] => None
  | (k', v) :: l' => if String.eqb k k' then Some v else assoc k l'
  end.

(** [d[k] = v] on the content: an existing key keeps its place. *)
Fixpoint assoc_set (k : string) (v : V) (l : list (string * V))
  : list (string * V) :=
  match l with
  | [] => [(k, v)]
  | (k', v') :: l' =>
      if String.eqb k k' then (k, v) :: l' else (k', v') :: assoc_set k v l'
  end.

Definition keys (d : pydict) : list string := map fst (items d).
Definition values (d : pydict) : list V := map snd (items d).
Definition len (d : pydict) : Z := Z.of_nat (List.length (items d)).

(** [d.get(k)] without a default: never raises, never inserts. *)
Definition get (d : pydict) (k : string) : option V := assoc k (items d).

(** [k in d]. *)
Definition contains (d : pydict) (k : string) : bool :=
  match get d k with Some _ => true | None => false end.

(** [d[k] = v]. *)
Definition setitem (d : pydict) (k : string) (v : V) : pydict :=
  mkdict (assoc_set k v (items d)) (default_factory d).

(** [d[k]]: the value, and the dictionary afterwards.  A [defaultdict]
    stores the default under a missing key before returning it. *)
Definition getitem (d : pydict) (k : string) : result (V * pydict) :=
  match get d k with
  | Some v => Ok (v, d)
  | None =>
      match default_factory d with
      | Some v => Ok (v, setitem d k v)
      | None => Raise (KeyError k)
      end
  end.

(** The value of [d[k]] alone. *)
Definition subscript (d : pydict) (k : string) : result V :=
  '(v, _) <- getitem d k ;; Ok v.

End PyDict.

Arguments pydict V : clear implicits.

(** ** Files and standard output

    The scripts write files and print reports.  A [world] holds the files
    written so far and the reports printed so far; an [io] computation
    transforms the world and either returns or raises.  What was written
    before an exception stays written.  Whether a directory can be created
    and whether a file can be opened for writing is decided by the operating
    system: the two oracles of an [os_env]. *)

Inductive message : Type :=
| ErrorProcessingFile (path : string) (e : exn)
| ErrorParsingFilename (filename : string) (e : exn)
| NoParquetFilesFound.

Record os_env : Type := mk_os_env {
  makedirs_ok : string -> bool;
  open_ok : string -> bool;
}.

Section IO.

Context {D : Type}.

Record world : Type := mkworld {
  files : list (string * D);
  stdout : list message;
}.

Definition io (A : Type) : Type := world -> world * result A.

Definition io_ret {A : Type} (a : A) : io A := fun w => (w, Ok a).

Definition io_raise {A : Type} (e : exn) : io A := fun w => (w, Raise e).

Definition io_bind {A B : Type} (c : io A) (k : A -> io B) : io B :=
  fun w =>
    match c w with
    | (w', Ok a) => k a w'
    | (w', Raise e) => (w', Raise e)
    end.

Definition io_lift {A : Type} (r : result A) : io A := fun w => (w, r).

(** [try: body except Exception as e: handler(e)]. *)
Definition try_except (body : io unit) (handler : exn -> io unit) : io unit :=
  fun w =>
    match body w with
    | (w', Ok tt) => (w', Ok tt)
    | (w', Raise e) => handler e w'
    end.

Definition print (m : message) : io unit :=
  fun w => (mkworld (files w) (stdout w ++ [m]), Ok tt).

(** [os.makedirs(path, exist_ok=True)]. *)
Definition makedirs (env : os_env) (path : string) : io unit :=
  fun w => if makedirs_ok env path then (w, Ok tt) else (w, Raise (OSError path)).

(** Opening [path] for writing and storing [data] in it. *)
Definition write_file (env : os_env) (path : string) (data : D) : io unit :=
  fun w =>
    if open_ok env path
    then (mkworld (assoc_set path data (files w)) (stdout w), Ok tt)
    else (w, Raise (OSError path)).

Fixpoint io_for_each {A : Type} (body : A -> io unit) (l : list A) : io unit :=
  match l with
  | [] => io_ret tt
  | a :: l' => io_bind (body a) (fun _ => io_for_each body l')
  end.

(** A loop that updates a local object [b] as it goes. *)
Fixpoint io_fold {A B : Type} (body : B -> A -> io B) (l : list A) (b : B) : io B :=
  match l with
  | [] => io_ret b
  | a :: l' => io_bind (body b a) (fun b' => io_fold body l' b')
  end.

End IO.

Arguments world D : clear implicits.
Arguments io D A : clear implicits.

Notation "x <~ c ;; k" := (io_bind c (fun x => k))
  (at level 61, c at next level, right associativity).
Notation "c ;;; k" := (io_bind c (fun _ => k))
  (at level 61, right associativity).

(** * [examples/process_evaluation_results.py] *)

Module ProcessResults.

(** ** pandas: [groupby], [sum], [mean]

    [DataFrame.groupby(column)] yields one group per distinct value of the
    column, in increasing order of that value; a group holds the rows with
    that value, in their original order. *)

Fixpoint insert_sorted (k : string) (l : list string) : list string :=
  match l with
  | [] => [k]
  | k' :: l' => if String.leb k k' then k :: l else k' :: insert_sorted k l'
  end.

Definition sorted_keys (l : list string) : list string :=
  fold_right insert_sorted [] (nodup string_dec l).

Definition groupby {A : Type} (key : A -> string) (rows : list A)
  : list (string * list A) :=
  map (fun k => (k, filter (fun r => String.eqb (key r) k) rows))
      (sorted_keys (map key rows)).

Section WithFloat.

Context {F : Type} `{PyFloat F}.

(** [Series.sum()] and [Series.mean()].  Both skip the missing values (NaN,
    the numbers that are not [<=] themselves): pandas puts 0 in their place
    before it adds, and [mean] divides by the number of values that are not
    missing.  The numbers are added as numpy adds the elements of an array
    (pairwise summation):
    - fewer than 8 numbers from left to right, starting from 0;
    - up to 128 numbers on 8 running sums, one per position modulo 8, over
      the full groups of 8; the 8 sums are then added in pairs, and the
      numbers after the last full group are added one by one;
    - more than 128 numbers in two parts that are summed separately, the
      first part being the half of the length rounded down to a multiple
      of 8.
    In exact arithmetic this is the sum, whatever the order. *)
Definition notna (x : F) : bool := fleb x x.

Definition fillna (l : list F) : list F :=
  map (fun x => if notna x then x else of_int 0) l.

Definition lanes : Type := (F * F * F * F * F * F * F * F)%type.

Fixpoint add_lanes (r : lanes) (a : list F) : lanes * list F :=
  match a with
  | x0 :: x1 :: x2 :: x3 :: x4 :: x5 :: x6 :: x7 :: a' =>
      let '(r0, r1, r2, r3, r4, r5, r6, r7) := r in
      add_lanes (fadd r0 x0, fadd r1 x1, fadd r2 x2, fadd r3 x3,
                 fadd r4 x4, fadd r5 x5, fadd r6 x6, fadd r7 x7) a'
  | _ => (r, a)
  end.

Definition block_sum (a : list F) : F :=
  match a with
  | x0 :: x1 :: x2 :: x3 :: x4 :: x5 :: x6 :: x7 :: a' =>
      let '((r0, r1, r2, r3, r4, r5, r6, r7), rest) :=
        add_lanes (x0, x1, x2, x3, x4, x5, x6, x7) a' in
      fold_left fadd rest
        (fadd (fadd (fadd r0 r1) (fadd r2 r3)) (fadd (fadd r4 r5) (fadd r6 r7)))
  | _ => fold_left fadd a (of_int 0)
  end.

(** [depth] bounds the number of nested halvings; the length of the list is
    always enough. *)
Fixpoint pairwise_sum (depth : nat) (a : list F) : F :=
  match depth with
  | S depth' =>
      if (128 <? List.length a)%nat then
        let n2 := (List.length a / 2 - (List.length a / 2) mod 8)%nat in
        fadd (pairwise_sum depth' (firstn n2 a)) (pairwise_sum depth' (skipn n2 a))
      else block_sum a
  | O => block_sum a
  end.

Definition series_sum (l : list F) : F :=
  pairwise_sum (List.length l) (fillna l).

Definition series_mean (l : list F) : F :=
  fdiv (series_sum l) (of_int (Z.of_nat (List.length (filter notna l)))).

(** One row of the flattened dataset: the columns the script reads. *)
Record record : Type := mkrecord {
  specifics_id : string;
  model_name : string;
  metrics_acc_norm : F;
}.

(** ** [get_all_correct_ids] *)

(** The body of the loop over the groups (lines 38-43). *)
Definition question_step (st : list string * pydict F) (g : string * list record)
  : result (list string * pydict F) :=
  let '(all_correct_ids, correct_answer_ratio) := st in
  let '(group_id, group_df) := g in
  let total_correct_answer := series_sum (map metrics_acc_norm group_df) in
  let total_questions := Z.of_nat (List.length group_df) in
  ratio <- (if 0 <? total_questions
            then truediv total_correct_answer total_questions
            else Ok (of_int 0)) ;;
  let correct_answer_ratio := setitem correct_answer_ratio group_id ratio in
  if fleb (of_int total_questions) total_correct_answer
  then Ok (all_correct_ids ++ [group_id], correct_answer_ratio)
  else Ok (all_correct_ids, correct_answer_ratio).

Definition question_loop (grouped : list (string * list record))
  : result (list string * pydict F) :=
  for_each question_step grouped ([], empty_defaultdict (of_int 0)).

(** The dataset is the argument: loading it is outside the model. *)
Definition get_all_correct_ids (dataset : list record)
  : result (list record * list string * pydict F) :=
  '(all_correct_ids, correct_answer_ratio) <-
      question_loop (groupby specifics_id dataset) ;;
  Ok (dataset, all_correct_ids, correct_answer_ratio).

(** ** [calculate_models_accuracy] *)

Definition retained (dataset_flatten : list record) (filtered_ids : option (list string))
  : list record :=
  match filtered_ids with
  | Some ids =>
      filter (fun x => negb (existsb (String.eqb (specifics_id x)) ids))
             dataset_flatten
  | None => dataset_flatten
  end.

Definition calculate_models_accuracy
    (dataset_flatten : list record) (filtered_ids : option (list string))
  : pydict F :=
  let dataset := retained dataset_flatten filtered_ids in
  fold_left
    (fun scores '(group_id, group_df) =>
       setitem scores group_id (series_mean (map metrics_acc_norm group_df)))
    (groupby model_name dataset)
    (empty_defaultdict (of_int 0)).

(** ** [compute_macro_micro_averages] *)

(** The inner loop over the subsets (lines 77-82). *)
Definition weight_step (dataset_totals : pydict Z) (model_name : string)
    (acc : F * Z) (kv : string * pydict F) : result (F * Z) :=
  let '(total_score, total_count) := acc in
  let '(subset, scores) := kv in
  if contains scores model_name then
    score <- subscript scores model_name ;;
    count <- subscript dataset_totals subset ;;
    Ok (fadd total_score (fmul score (of_int count)), total_count + count)
  else Ok acc.

(** [sum(scores[model_name] for scores in evaluation_results.values())],
    added from left to right starting from the integer 0.  (CPython 3.12
    and later add built-in floats with a compensated sum; the two agree in
    exact arithmetic, on a single term and whenever the partial sums are
    representable, and scores that come from pandas are added as here.) *)
Definition sum_scores (evaluation_results : pydict (pydict F)) (model_name : string)
  : result F :=
  for_each (fun s scores => v <- subscript scores model_name ;; Ok (fadd s v))
           (values evaluation_results) (of_int 0).

(** The body of the loop over the models (lines 74-86). *)
Definition model_step (evaluation_results : pydict (pydict F))
    (dataset_totals : pydict Z)
    (out : pydict F * pydict F) (model_name : string)
  : result (pydict F * pydict F) :=
  let '(macro_averages, micro_averages) := out in
  '(total_score, total_count) <-
      for_each (weight_step dataset_totals model_name)
               (items evaluation_results) (of_int 0, 0) ;;
  if 0 <? total_count then
    macro <- truediv total_score total_count ;;
    let macro_averages := setitem macro_averages model_name macro in
    s <- sum_scores evaluation_results model_name ;;
    micro <- truediv s (len evaluation_results) ;;
    Ok (macro_averages, setitem micro_averages model_name micro)
  else Ok out.

(** A lookup through a [defaultdict] stores the default under the missing
    key.  The returned averages do not depend on these insertions (a model
    name is looked up only while it is the current key of the first
    mapping, and a stored default weight equals the default), so the
    mappings are read as values here. *)
Definition compute_macro_micro_averages
    (evaluation_results : pydict (pydict F)) (dataset_totals : pydict Z)
  : result (pydict F * pydict F) :=
  match keys evaluation_results with
  | [] => Raise StopIteration
  | first :: _ =>
      first_scores <- subscript evaluation_results first ;;
      for_each (model_step evaluation_results dataset_totals)
               (keys first_scores) (empty_dict, empty_dict)
  end.

End WithFloat.

Arguments record F : clear implicits.

(** ** [save_results]

    [D] is the type of the JSON-serialisable values; the file keeps the
    value that was dumped into it. *)
Definition save_results {D : Type} (env : os_env)
    (output_dir : string) (results : pydict D) : io D unit :=
  makedirs env output_dir ;;;
  io_for_each
    (fun '(filename, data) =>
       let filepath := PyStr.path_join output_dir (filename ++ ".json")%string in
       write_file env filepath data)
    (items results).

(** ** [get_dataset_subsets]

    The argument is what [HfFileSystem().ls(repo_path)] returns: one entry
    per file or folder, with its ['name'] and its ['type']. *)
Record ls_entry : Type := mk_ls_entry {
  entry_name : string;
  entry_type : string;
}.

Definition get_dataset_subsets (listing : list ls_entry) : result (list string) :=
  for_each
    (fun subsets data =>
       if String.eqb (entry_type data) "directory"
          && negb (String.eqb (entry_name data) "evaluation_results")
       then
         subset <- PyStr.index_last (PyStr.split "/" (entry_name data)) ;;
         Ok (subsets ++ [subset])
       else Ok subsets)
    listing [].

(** ** [compute_macro_micro_averages], with what it leaves in its arguments

    A lookup [d[k]] through a [defaultdict] stores the default under a
    missing key, so the call changes the mappings it is given.  The
    definitions below are the same loops as above and also return the two
    arguments as they are after the call.  (The keys of the first mapping
    are those at the start of the loop: the loop looks up, in that mapping,
    only keys that it already has.) *)

Section InPlace.

Context {F : Type} `{PyFloat F}.

(** Lines 77-82, with the weights after the lookups. *)
Definition weight_step_in_place (model_name : string)
    (acc : F * Z * pydict Z) (kv : string * pydict F) : result (F * Z * pydict Z) :=
  let '(total_score, total_count, dataset_totals) := acc in
  let '(subset, scores) := kv in
  if contains scores model_name then
    '(score, _) <- getitem scores model_name ;;
    '(count, dataset_totals) <- getitem dataset_totals subset ;;
    Ok (fadd total_score (fmul score (of_int count)),
        total_count + count, dataset_totals)
  else Ok acc.

(** One term of the sum of line 86, with the mapping after the lookup. *)
Definition sum_step_in_place (model_name : string)
    (acc : F * list (string * pydict F)) (kv : string * pydict F)
  : result (F * list (string * pydict F)) :=
  let '(s, looked_up) := acc in
  let '(subset, scores) := kv in
  '(v, scores) <- getitem scores model_name ;;
  Ok (fadd s v, looked_up ++ [(subset, scores)]).

(** Lines 74-86. *)
Definition model_step_in_place
    (st : pydict (pydict F) * pydict Z * pydict F * pydict F) (model_name : string)
  : result (pydict (pydict F) * pydict Z * pydict F * pydict F) :=
  let '(evaluation_results, dataset_totals, macro_averages, micro_averages) := st in
  '(total_score, total_count, dataset_totals) <-
      for_each (weight_step_in_place model_name)
               (items evaluation_results) (of_int 0, 0, dataset_totals) ;;
  if 0 <? total_count then
    macro <- truediv total_score total_count ;;
    let macro_averages := setitem macro_averages model_name macro in
    '(s, looked_up) <-
        for_each (sum_step_in_place model_name)
                 (items evaluation_results) (of_int 0, []) ;;
    let evaluation_results :=
      mkdict looked_up (default_factory evaluation_results) in
    micro <- truediv s (len evaluation_results) ;;
    Ok (evaluation_results, dataset_totals,
        macro_averages, setitem micro_averages model_name micro)
  else Ok (evaluation_results, dataset_totals, macro_averages, micro_averages).

(** The averages, then the two arguments after the call. *)
Definition compute_macro_micro_averages_in_place
    (evaluation_results : pydict (pydict F)) (dataset_totals : pydict Z)
  : result (pydict F * pydict F * pydict (pydict F) * pydict Z) :=
  match keys evaluation_results with
  | [] => Raise StopIteration
  | first :: _ =>
      first_scores <- subscript evaluation_results first ;;
      '(evaluation_results, dataset_totals, macro_averages, micro_averages) <-
          for_each model_step_in_place (keys first_scores)
                   (evaluation_results, dataset_totals, empty_dict, empty_dict) ;;
      Ok (macro_averages, micro_averages, evaluation_results, dataset_totals)
  end.

End InPlace.

(** ** [setup_environment], [upload_to_hub], [main]

    The script asks the Hugging Face hub for listings and datasets, sets an
    environment variable, prints progress lines, writes files and uploads
    them.  What the hub answers is given by the oracles of a [hub]; a
    [session] holds what the script has done so far, and a [run] transforms
    the session and either returns or raises. *)

(** The namespace that [argparse] returns. *)
Module args.

Record t : Type := mk {
  hf_home : option string;
  repo_path : string;
  dataset_path : string;
  output_dir : string;
  upload_to_hub : bool;
  repo_id : string;
}.

End args.

(** The keyword arguments of [HfApi().upload_folder]. *)
Record upload : Type := mk_upload {
  folder_path : string;
  path_in_repo : string;
  upload_repo_id : string;
  repo_type : string;
  commit_message : string;
}.

(** The lines printed by [main] and by [calculate_models_accuracy]. *)
Inductive line : Type :=
| FoundSubsets (n : Z) (subsets : list string)
| ProcessingSubset (subset : string)
| TotalQuestionBeforeFilter (n : Z)
| TotalQuestionAfterFilter (n : Z)
| ResultsSavedTo (output_dir : string)
| ResultsUploadedTo (repo_id : string).

Section Main.

Context {F : Type} `{PyFloat F}.

(** The values dumped as JSON: mappings of mappings of numbers, mappings of
    lists of question IDs, mappings of counts. *)
Inductive report : Type :=
| Scores (d : pydict (pydict F))
| Ids (d : pydict (list string))
| Totals (d : pydict Z).

Record hub : Type := mk_hub {
  hub_ls : string -> result (list ls_entry);
  hub_load_dataset : string -> string -> result (list (record F));
  hub_upload_folder : upload -> result unit;
}.

Record session : Type := mk_session {
  environ : pydict string;
  disk : world report;
  printed : list line;
  uploaded : list upload;
}.

Definition run (A : Type) : Type := session -> session * result A.

Definition run_ret {A : Type} (a : A) : run A := fun s => (s, Ok a).

Definition run_bind {A B : Type} (c : run A) (k : A -> run B) : run B :=
  fun s =>
    match c s with
    | (s', Ok a) => k a s'
    | (s', Raise e) => (s', Raise e)
    end.

Definition run_lift {A : Type} (r : result A) : run A := fun s => (s, r).

Definition on_disk {A : Type} (c : io report A) : run A :=
  fun s =>
    let '(w, r) := c (disk s) in
    (mk_session (environ s) w (printed s) (uploaded s), r).

Definition print_line (l : line) : run unit :=
  fun s => (mk_session (environ s) (disk s) (printed s ++ [l]) (uploaded s), Ok tt).

Fixpoint run_fold {A B : Type} (body : B -> A -> run B) (l : list A) (b : B) : run B :=
  match l with
  | [] => run_ret b
  | a :: l' => run_bind (body b a) (fun b' => run_fold body l' b')
  end.

(** [if hf_home:] holds for a string that is not empty. *)
Definition setup_environment (hf_home : option string) : run unit :=
  fun s =>
    match hf_home with
    | Some (String _ _ as hf_home) =>
        (mk_session (setitem (environ s) "HF_HOME" hf_home)
                    (disk s) (printed s) (uploaded s), Ok tt)
    | _ => (s, Ok tt)
    end.

Definition upload_to_hub (h : hub) (folder_path repo_id path_in_repo : string)
  : run unit :=
  fun s =>
    let u := mk_upload folder_path path_in_repo repo_id "dataset"
                       "Upload evaluation results for CyberSec MCQA" in
    match hub_upload_folder h u with
    | Ok tt => (mk_session (environ s) (disk s) (printed s) (uploaded s ++ [u]), Ok tt)
    | Raise e => (s, Raise e)
    end.

(** [get_dataset_subsets(repo_path)], asking the hub for the listing. *)
Definition get_dataset_subsets_of (h : hub) (repo_path : string)
  : run (list string) :=
  run_bind (run_lift (hub_ls h repo_path)) (fun listing =>
  run_lift (get_dataset_subsets listing)).

(** [get_all_correct_ids(dataset_path, data_files_pattern)], asking the hub
    for the dataset. *)
Definition get_all_correct_ids_of (h : hub) (dataset_path data_files_pattern : string)
  : run (list (record F) * list string * pydict F) :=
  run_bind
    (run_lift (hub_load_dataset h dataset_path
                 (data_files_pattern ++ "/*.parquet")%string))
    (fun dataset => run_lift (get_all_correct_ids dataset)).

(** [calculate_models_accuracy], with the two lines it prints when it is
    given question IDs to leave out. *)
Definition calculate_models_accuracy_printing
    (dataset_flatten : list (record F)) (filtered_ids : option (list string))
  : run (pydict F) :=
  run_bind
    (match filtered_ids with
     | Some _ =>
         run_bind
           (print_line (TotalQuestionBeforeFilter
                          (Z.of_nat (List.length dataset_flatten))))
           (fun _ =>
              print_line (TotalQuestionAfterFilter
                            (Z.of_nat (List.length
                                         (retained dataset_flatten filtered_ids)))))
     | None => run_ret tt
     end)
    (fun _ => run_ret (calculate_models_accuracy dataset_flatten filtered_ids)).

(** The result containers of [main] (lines 119-124). *)
Record containers : Type := mk_containers {
  all_evaluation_results : pydict (pydict F);
  all_evaluation_results_filtered : pydict (pydict F);
  all_correct_ids : pydict (list string);
  all_correct_ratios : pydict (pydict F);
  dataset_total : pydict Z;
  dataset_total_filtered : pydict Z;
}.

Definition empty_containers : containers :=
  mk_containers empty_dict empty_dict empty_dict empty_dict
                (empty_defaultdict 0) (empty_defaultdict 0).

(** The body of the loop over the subsets (lines 127-143). *)
Definition subset_step (h : hub) (a : args.t) (c : containers) (subset : string)
  : run containers :=
  run_bind (print_line (ProcessingSubset subset)) (fun _ =>
  run_bind (get_all_correct_ids_of h (args.dataset_path a) subset)
    (fun '(dataset, ids, ratios) =>
  let all_correct_ids := setitem (all_correct_ids c) subset ids in
  let all_correct_ratios := setitem (all_correct_ratios c) subset ratios in
  run_bind (calculate_models_accuracy_printing dataset None) (fun scores =>
  let all_evaluation_results := setitem (all_evaluation_results c) subset scores in
  run_bind (calculate_models_accuracy_printing dataset (Some ids))
    (fun scores_filtered =>
  let all_evaluation_results_filtered :=
    setitem (all_evaluation_results_filtered c) subset scores_filtered in
  let dataset_total := setitem (dataset_total c) subset (len ratios) in
  let dataset_total_filtered :=
    setitem (dataset_total_filtered c) subset (Z.of_nat (List.length ids)) in
  run_ret (mk_containers all_evaluation_results all_evaluation_results_filtered
                         all_correct_ids all_correct_ratios
                         dataset_total dataset_total_filtered))))).

(** The dictionary handed to [save_results] (lines 160-167), from the
    containers as the two combinations leave them. *)
Definition results_of (c : containers) : result (pydict report) :=
  '(macro_avg, micro_avg, all_evaluation_results, dataset_total) <-
      compute_macro_micro_averages_in_place
        (all_evaluation_results c) (dataset_total c) ;;
  '(macro_avg_filtered, micro_avg_filtered,
    all_evaluation_results_filtered, dataset_total_filtered) <-
      compute_macro_micro_averages_in_place
        (all_evaluation_results_filtered c) (dataset_total_filtered c) ;;
  let all_evaluation_results :=
    setitem (setitem all_evaluation_results "macro_averages" macro_avg)
            "micro_averages" micro_avg in
  let all_evaluation_results_filtered :=
    setitem (setitem all_evaluation_results_filtered
                     "macro_averages" macro_avg_filtered)
            "micro_averages" micro_avg_filtered in
  Ok (mkdict
        [("all_evaluation_results", Scores all_evaluation_results);
         ("all_evaluation_results_filtered", Scores all_evaluation_results_filtered);
         ("all_correct_ids", Ids (all_correct_ids c));
         ("all_correct_ratios", Scores (all_correct_ratios c));
         ("dataset_total", Totals dataset_total);
         ("dataset_total_filtered", Totals dataset_total_filtered)]
        None).

Definition main (h : hub) (env : os_env) (a : args.t) : run unit :=
  run_bind (setup_environment (args.hf_home a)) (fun _ =>
  run_bind (get_dataset_subsets_of h (args.repo_path a)) (fun subsets =>
  run_bind (print_line (FoundSubsets (Z.of_nat (List.length subsets)) subsets))
    (fun _ =>
  run_bind (run_fold (subset_step h a) subsets empty_containers) (fun c =>
  run_bind (run_lift (results_of c)) (fun results =>
  run_bind (on_disk (save_results env (args.output_dir a) results)) (fun _ =>
  run_bind (print_line (ResultsSavedTo (args.output_dir a))) (fun _ =>
  if args.upload_to_hub a then
    run_bind (upload_to_hub h (args.output_dir a) (args.repo_id a)
                            "evaluation_results") (fun _ =>
    print_line (ResultsUploadedTo (args.repo_id a)))
  else run_ret tt))))))).

End Main.

Arguments report F : clear implicits.
Arguments hub F : clear implicits.
Arguments session F : clear implicits.
Arguments containers F : clear implicits.

End ProcessResults.


(** * [examples/extract_evaluation_results.py] *)

Module ExtractResults.

Section WithFloat.

Context {F : Type} `{PyFloat F}.

(** The parts of the parsed JSON document that the script reads, for a
    file of the shape that the harness writes: [config_general], [results],
    [config_tasks] and their entries are objects, a model name is a string,
    an [acc_norm] a number and a document count an integer.  (On a file
    that is not JSON, or whose values have other shapes, the script raises
    or returns other values; such files are outside this model.)
    - [config_general_model_name]: [data["config_general"]["model_name"]],
      [None] when either key is missing;
    - [results]: the items of [data["results"]] (empty when the key is
      missing), each task key with [task_result.get("acc_norm")];
    - [config_tasks]: the items of [data["config_tasks"]], each key with
      [task_config.get("effective_num_docs")]. *)
Record document : Type := mkdocument {
  config_general_model_name : option string;
  results : list (string * option F);
  config_tasks : list (string * option Z);
}.

Record extraction : Type := mkextraction {
  model_name : string;
  evaluation_results : pydict F;
  macro_accuracy : F;
}.

Inductive output : Type :=
| FileNotFound
| Extracted (e : extraction).

(** Lines 34-37: [task_key.split(":")[1].split("|")[0]], or the key itself
    on [IndexError]. *)
Definition clean_task_name (task_key : string) : string :=
  match (part <- PyStr.index (PyStr.split ":" task_key) 1 ;;
         PyStr.index (PyStr.split "|" part) 0) with
  | Ok name => name
  | Raise _ => task_key
  end.

(** [data.get("config_tasks", {}).get(task_config_key, {}).get("effective_num_docs")]. *)
Definition num_docs_of (config_tasks : list (string * option Z)) (task_config_key : string)
  : option Z :=
  match assoc task_config_key config_tasks with
  | Some (Some n) => Some n
  | _ => None
  end.

(** The body of the loop over the tasks (lines 30-50). *)
Definition task_step (config_tasks : list (string * option Z))
    (st : pydict F * F * Z) (task : string * option F)
  : result (pydict F * F * Z) :=
  let '(results, total_weighted_acc, total_docs) := st in
  let '(task_key, acc_norm) := task in
  if PyStr.str_in "_average" task_key || String.eqb task_key "all" then Ok st
  else
    let clean := clean_task_name task_key in
    match acc_norm with
    | None => Ok st
    | Some acc_norm =>
        let results := setitem results clean acc_norm in
        task_config_key <- PyStr.index (PyStr.rsplit1 "|" task_key) 0 ;;
        match num_docs_of config_tasks task_config_key with
        | Some num_docs =>
            Ok (results,
                fadd total_weighted_acc (fmul acc_norm (of_int num_docs)),
                total_docs + num_docs)
        | None => Ok (results, total_weighted_acc, total_docs)
        end
    end.

(** [file] is [None] when the path does not exist, and the parsed document
    otherwise. *)
Definition extract_results (file : option document) : result output :=
  match file with
  | None => Ok FileNotFound
  | Some data =>
      let model_name :=
        match config_general_model_name data with
        | Some n => n
        | None => "N/A"
        end in
      '(results, total_weighted_acc, total_docs) <-
          for_each (task_step (config_tasks data)) (results data)
                   (empty_dict, of_int 0, 0) ;;
      macro_accuracy <- (if 0 <? total_docs
                         then truediv total_weighted_acc total_docs
                         else Ok (of_int 0)) ;;
      Ok (Extracted (mkextraction model_name results macro_accuracy))
  end.

End WithFloat.

Arguments document F : clear implicits.
Arguments extraction F : clear implicits.
Arguments output F : clear implicits.

(** ** The command-line block (lines 76-114)

    [json_files] is what the walk over the folder finds: each path with the
    parsed document of the file ([None] if the path has ceased to exist when
    it is read). *)

Section CsvBlock.

Context {F : Type} `{PyFloat F}.

Inductive csv_value : Type :=
| CsvStr (s : string)
| CsvNum (x : F).

(** [os.path.basename(path)]. *)
Definition basename (file_path : string) : result string :=
  PyStr.index_last (PyStr.split "/" file_path).

(** Lines 89-95: the extracted documents, each with its file name, and the
    evaluation names seen so far. *)
Definition collect_step (st : list (string * extraction F) * list string)
    (file : string * option (document F))
  : result (list (string * extraction F) * list string) :=
  let '(all_results, all_eval_keys) := st in
  let '(file_path, content) := file in
  extracted_data <- extract_results content ;;
  match extracted_data with
  | FileNotFound => Ok st
  | Extracted e =>
      file_name <- basename file_path ;;
      Ok (all_results ++ [(file_name, e)],
          all_eval_keys ++ keys (evaluation_results e))
  end.

(** Lines 106-111: the row of one extracted document. *)
Definition csv_row (result : string * extraction F) : pydict csv_value :=
  let '(file_name, e) := result in
  let row :=
    mkdict [("file_name", CsvStr file_name);
            ("model_name", CsvStr (model_name e));
            ("macro_accuracy", CsvNum (macro_accuracy e))] None in
  fold_left (fun row kv => setitem row (fst kv) (CsvNum (snd kv)))
            (items (evaluation_results e)) row.

(** [csv.DictWriter.writerow]: a key outside the field names is refused
    ([None] stands for the [ValueError]); a field without a value is left
    empty. *)
Definition writerow (fieldnames : list string) (row : pydict csv_value)
  : option (list (option csv_value)) :=
  if forallb (fun k => existsb (String.eqb k) fieldnames) (keys row)
  then Some (map (get row) fieldnames)
  else None.

Fixpoint writerows (fieldnames : list string) (rows : list (pydict csv_value))
  : option (list (list (option csv_value))) :=
  match rows with
  | [] => Some []
  | row :: rows' =>
      match writerow fieldnames row, writerows fieldnames rows' with
      | Some line, Some lines => Some (line :: lines)
      | _, _ => None
      end
  end.

(** The header and the lines of the CSV file; an empty result when no JSON
    file was found (the block then exits before opening the file). *)
Definition combine_to_csv (json_files : list (string * option (document F)))
  : result (option (list string * option (list (list (option csv_value))))) :=
  match json_files with
  | [] => Ok None
  | _ :: _ =>
      '(all_results, all_eval_keys) <- for_each collect_step json_files ([], []) ;;
      let sorted_eval_keys := ProcessResults.sorted_keys all_eval_keys in
      let fieldnames :=
        ["file_name"; "model_name"; "macro_accuracy"] ++ sorted_eval_keys in
      Ok (Some (fieldnames, writerows fieldnames (map csv_row all_results)))
  end.

End CsvBlock.

Arguments csv_value F : clear implicits.

End ExtractResults.

(** * [examples/combine_detail_results.py] *)

Module CombineDetails.

Section WithCells.

(** [C] is the type of the cells that the result files come with. *)
Context {C : Type}.

Inductive cell : Type :=
| Str (s : string)
| Raw (c : C).

(** A [DataFrame]: named columns of [nrows] cells each. *)
Record dataframe : Type := mkframe {
  nrows : nat;
  columns : list (string * list cell);
}.

(** [df[name] = v] for a scalar [v]: the column is filled with [v]. *)
Definition set_column (df : dataframe) (name : string) (v : cell) : dataframe :=
  mkframe (nrows df) (assoc_set name (repeat v (nrows df)) (columns df)).

(** The cell of row [i] in column [name]. *)
Definition cell_at (df : dataframe) (name : string) (i : nat) : option cell :=
  match assoc name (columns df) with
  | Some col => nth_error col i
  | None => None
  end.

(** The entry stored for one result file (lines 134-138). *)
Record file_info : Type := mkinfo {
  path : string;
  model_name : string;
  evaluation_time : string;
}.

(** What the script reads from the file system. *)
Record input_fs : Type := mk_input_fs {
  listdir : string -> result (list string);
  isdir : string -> bool;
  read_parquet : string -> result dataframe;
}.

Variable fs : input_fs.
Variable env : os_env.

(** [pd.read_parquet(path)]: a file written earlier in the run is read
    back as written. *)
Definition read_file (p : string) : io dataframe dataframe :=
  fun w =>
    match assoc p (files w) with
    | Some df => (w, Ok df)
    | None => (w, read_parquet fs p)
    end.

(** ** [process_evaluation_directory] *)

(** Lines 122-131: the evaluation name of a file name. *)
Definition eval_name_of_filename (filename : string) : result string :=
  let parts := PyStr.split "|" filename in
  if (2 <=? List.length parts)%nat then
    part <- PyStr.index parts 1 ;;
    PyStr.index (PyStr.split "|" part) 0
  else
    eval_name_part <- PyStr.index (PyStr.split "_" filename) 0 ;;
    if PyStr.startswith eval_name_part "details_"
    then Ok (PyStr.slice_from (String.length "details_") eval_name_part)
    else Ok eval_name_part.

(** [files_by_eval[eval_name].append(info)] on a [defaultdict(list)]. *)
Definition append_info (files_by_eval : pydict (list file_info))
    (eval_name : string) (info : file_info)
  : result (pydict (list file_info)) :=
  '(l, d) <- getitem files_by_eval eval_name ;;
  Ok (setitem d eval_name (l ++ [info])).

(** The body of the loop over the file names (lines 117-140). *)
Definition register_file (eval_dir_path model_name eval_time : string)
    (files_by_eval : pydict (list file_info)) (filename : string)
  : io dataframe (pydict (list file_info)) :=
  if PyStr.endswith filename ".parquet" then
    let file_path := PyStr.path_join eval_dir_path filename in
    match (eval_name <- eval_name_of_filename filename ;;
           append_info files_by_eval eval_name
                       (mkinfo file_path model_name eval_time)) with
    | Ok files_by_eval' => io_ret files_by_eval'
    | Raise e => print (ErrorParsingFilename filename e) ;;; io_ret files_by_eval
    end
  else io_ret files_by_eval.

Definition process_evaluation_directory
    (eval_dir_path model_name eval_time : string)
    (files_by_eval : pydict (list file_info))
  : io dataframe (pydict (list file_info)) :=
  filenames <~ io_lift (listdir fs eval_dir_path) ;;
  io_fold (register_file eval_dir_path model_name eval_time)
          filenames files_by_eval.

(** ** [combine_results_memory_efficient]: the scan (lines 27-65) *)

(** Lines 33-47: is the first-level entry an organisation folder? *)
Definition is_model_org (path1 : string) : result bool :=
  sub_entries <- listdir fs path1 ;;
  match sub_entries with
  | [] => Ok false
  | first :: _ =>
      let first_sub_path := PyStr.path_join path1 first in
      if isdir fs first_sub_path then
        match listdir fs first_sub_path with
        | Ok sub_sub_entries =>
            Ok (negb (existsb (fun f => PyStr.endswith f ".parquet") sub_sub_entries))
        | Raise (NotADirectoryError _) => Ok false
        | Raise e => Raise e
        end
      else Ok false
  end.

(** The loop over the run folders of one model (lines 56-59 and 62-65). *)
Definition scan_model (model_path model_name : string)
    (files_by_eval : pydict (list file_info))
  : io dataframe (pydict (list file_info)) :=
  eval_times <~ io_lift (listdir fs model_path) ;;
  io_fold
    (fun files_by_eval eval_time =>
       let run_path := PyStr.path_join model_path eval_time in
       if isdir fs run_path
       then process_evaluation_directory run_path model_name eval_time files_by_eval
       else io_ret files_by_eval)
    eval_times files_by_eval.

(** The body of the loop over the first-level entries (lines 28-65). *)
Definition scan_entry (folder_path : string)
    (files_by_eval : pydict (list file_info)) (entry : string)
  : io dataframe (pydict (list file_info)) :=
  let path1 := PyStr.path_join folder_path entry in
  if negb (isdir fs path1) then io_ret files_by_eval
  else
    org <~ io_lift (is_model_org path1) ;;
    if (org : bool) then
      let model_org := entry in
      model_names <~ io_lift (listdir fs path1) ;;
      io_fold
        (fun files_by_eval model_name_str =>
           let path2 := PyStr.path_join path1 model_name_str in
           if negb (isdir fs path2) then io_ret files_by_eval
           else
             let full_model_name := (model_org ++ "_" ++ model_name_str)%string in
             scan_model path2 full_model_name files_by_eval)
        model_names files_by_eval
    else
      scan_model path1 entry files_by_eval.

(** ** [combine_results_memory_efficient]: the second pass (lines 79-108) *)

(** Lines 96-98. *)
Definition timestamp_of (evaluation_time : string) : result string :=
  if PyStr.str_in "_" evaluation_time
  then PyStr.index_last (PyStr.split "_" evaluation_time)
  else Ok evaluation_time.

(** The body of the loop over the files of one evaluation (lines 90-108). *)
Definition organize_file (eval_name eval_dir : string) (info : file_info) : io dataframe unit :=
  try_except
    (df <~ read_file (path info) ;;
     let df := set_column df "model_name" (Str (model_name info)) in
     let df := set_column df "eval_name" (Str eval_name) in
     timestamp <~ io_lift (timestamp_of (evaluation_time info)) ;;
     let df := set_column df "timestamp" (Str timestamp) in
     let output_filename := (model_name info ++ ".parquet")%string in
     let output_path := PyStr.path_join eval_dir output_filename in
     write_file env output_path df)
    (fun e => print (ErrorProcessingFile (path info) e)).

(** The body of the loop over the evaluations (lines 80-108). *)
Definition organize_eval (output_dir : string)
    (item : string * list file_info) : io dataframe unit :=
  let '(eval_name, file_infos) := item in
  match file_infos with
  | [] => io_ret tt
  | _ :: _ =>
      let safe_eval_name := PyStr.replace ":" "_" (PyStr.replace "|" "_" eval_name) in
      let eval_dir := PyStr.path_join output_dir safe_eval_name in
      makedirs env eval_dir ;;;
      io_for_each (organize_file eval_name eval_dir) file_infos
  end.

(** Progress messages are not part of the model; [stdout] keeps the error
    reports and the notice of an empty scan. *)
Definition combine_results_memory_efficient (folder_path output_dir : string)
  : io dataframe unit :=
  makedirs env output_dir ;;;
  entries <~ io_lift (listdir fs folder_path) ;;
  files_by_eval <~ io_fold (scan_entry folder_path) entries (empty_defaultdict []) ;;
  match items files_by_eval with
  | [] => print NoParquetFilesFound
  | _ :: _ => io_for_each (organize_eval output_dir) (items files_by_eval)
  end.

End WithCells.

Arguments cell C : clear implicits.
Arguments dataframe C : clear implicits.
Arguments input_fs C : clear implicits.

End CombineDetails.

(** * The quantities of the specification

    Definitions that follow the words of the specification; the theorems
    below compare them with what the scripts compute. *)

Module Spec.

Section WithFloat.

Context {F : Type} `{PyFloat F}.

(** [weight[s]]: the item count of a subset ([0] where none is given). *)
Definition weight (dataset_totals : pydict Z) (subset : string) : Z :=
  match subscript dataset_totals subset with
  | Ok w => w
  | Raise _ => 0
  end.

(** [accuracy[s][m]] ([0] where the model has no score). *)
Definition accuracy (scores : pydict F) (m : string) : F :=
  match get scores m with
  | Some a => a
  | None => of_int 0
  end.

(** Sums are read from left to right, starting from zero. *)
Definition sum_F (l : list F) : F := fold_left fadd l (of_int 0).
Definition sum_Z (l : list Z) : Z := fold_left Z.add l 0.

(** The subsets in which [m] has a score. *)
Definition scored (evaluation_results : pydict (pydict F)) (m : string)
  : list (string * pydict F) :=
  filter (fun kv => contains (snd kv) m) (items evaluation_results).

(** [Σ_s weight[s]] over the subsets where [m] has a score. *)
Definition total_weight (evaluation_results : pydict (pydict F))
    (dataset_totals : pydict Z) (m : string) : Z :=
  sum_Z (map (fun kv => weight dataset_totals (fst kv)) (scored evaluation_results m)).

(** [Σ_s (accuracy[s][m] * weight[s]) / Σ_s weight[s]] over the subsets
    where [m] has a score. *)
Definition macro_average (evaluation_results : pydict (pydict F))
    (dataset_totals : pydict Z) (m : string) : F :=
  fdiv (sum_F (map (fun kv => fmul (accuracy (snd kv) m)
                                   (of_int (weight dataset_totals (fst kv))))
                   (scored evaluation_results m)))
       (of_int (total_weight evaluation_results dataset_totals m)).

(** [mean_s(accuracy[s][m])] over all the subsets. *)
Definition micro_average (evaluation_results : pydict (pydict F)) (m : string) : F :=
  fdiv (sum_F (map (fun kv => accuracy (snd kv) m) (items evaluation_results)))
       (of_int (len evaluation_results)).

(** [m] has a score in every subset. *)
Definition scored_everywhere (evaluation_results : pydict (pydict F)) (m : string)
  : Prop :=
  forall subset scores,
    In (subset, scores) (items evaluation_results) -> contains scores m = true.

(** The first subset's mapping, whose keys drive the combination. *)
Definition first_scores (evaluation_results : pydict (pydict F)) : pydict F :=
  match items evaluation_results with
  | [] => empty_dict
  | (_, scores) :: _ => scores
  end.

End WithFloat.

(** [d[k]] is defined: [k] is a key, or [d] has a default. *)
Definition subscriptable {V : Type} (d : pydict V) (k : string) : Prop :=
  contains d k = true \/ default_factory d <> None.

End Spec.

(** * Auxiliary definitions

    Names for what the loops of the scripts compute, used to state the
    lemmas and theorems below. *)

Section CombinerAux.

Import ProcessResults.

Context {F : Type} `{PyFloat F}.

Implicit Types (er : pydict (pydict F)) (totals : pydict Z) (m : string).

(** What the loop body computes for one model, apart from where it stores
    the two averages. *)
Definition model_result er totals m : result (option (F * F)) :=
  '(total_score, total_count) <-
      for_each (weight_step totals m) (items er) (of_int 0, 0) ;;
  if 0 <? total_count then
    macro <- truediv total_score total_count ;;
    s <- sum_scores er m ;;
    micro <- truediv s (len er) ;;
    Ok (Some (macro, micro))
  else Ok None.

Definition store (out : pydict F * pydict F) m (r : option (F * F))
  : pydict F * pydict F :=
  match r with
  | Some (macro, micro) => (setitem (fst out) m macro, setitem (snd out) m micro)
  | None => out
  end.

(** The value that [scores[m]] yields when it is defined. *)
Definition looked_up (scores : pydict F) m : F :=
  match subscript scores m with
  | Ok v => v
  | Raise _ => of_int 0
  end.

(** The micro average as the script reads it: through [scores[m]]. *)
Definition micro_looked_up er m : F :=
  fdiv (Spec.sum_F (map (fun scores => looked_up scores m) (values er)))
       (of_int (len er)).

End CombinerAux.

Section QuestionAux.

Import ProcessResults.

Context {F : Type} `{PyFloat F}.

(** [correct_count], [total_count], [ratio] and the test for a universally
    correct question, per group. *)
Definition correct_count (group : list (record F)) : F :=
  series_sum (map metrics_acc_norm group).

Definition total_count (group : list (record F)) : Z :=
  Z.of_nat (List.length group).

Definition ratio (group : list (record F)) : F :=
  if 0 <? total_count group
  then fdiv (correct_count group) (of_int (total_count group))
  else of_int 0.

Definition universally_correct (group : list (record F)) : bool :=
  fleb (of_int (total_count group)) (correct_count group).

(** The records of one question and of one model. *)
Definition question_group (dataset : list (record F)) (id : string) : list (record F) :=
  filter (fun r => String.eqb (specifics_id r) id) dataset.

Definition model_group (dataset : list (record F)) (m : string) : list (record F) :=
  filter (fun r => String.eqb (model_name r) m) dataset.

End QuestionAux.

Section ExtractAux.

Import ExtractResults.

Context {F : Type} `{PyFloat F}.

(** The tasks that enter the weighted average: not skipped, with an
    [acc_norm] and with a document count; each with these two numbers. *)
Definition counted_task (config_tasks : list (string * option Z))
    (task : string * option F) : option (F * Z) :=
  let '(task_key, acc_norm) := task in
  if PyStr.str_in "_average" task_key || String.eqb task_key "all" then None
  else
    match acc_norm, PyStr.index (PyStr.rsplit1 "|" task_key) 0 with
    | Some a, Ok key =>
        match num_docs_of config_tasks key with
        | Some n => Some (a, n)
        | None => None
        end
    | _, _ => None
    end.

Fixpoint counted (config_tasks : list (string * option Z))
    (tasks : list (string * option F)) : list (F * Z) :=
  match tasks with
  | [] => []
  | task :: tasks' =>
      match counted_task config_tasks task with
      | Some x => x :: counted config_tasks tasks'
      | None => counted config_tasks tasks'
      end
  end.

(** [Σ(acc_norm_i * num_docs_i)] and [Σ(num_docs_i)]. *)
Definition weighted_acc (data : document F) : F :=
  fold_left fadd
    (map (fun x => fmul (fst x) (of_int (snd x)))
         (counted (config_tasks data) (results data)))
    (of_int 0).

Definition total_docs (data : document F) : Z :=
  fold_left Z.add (map snd (counted (config_tasks data) (results data))) 0.

End ExtractAux.

(** [occurs c s]: the character [c] is in [s]. *)
Fixpoint occurs (c : ascii) (s : string) : bool :=
  match s with
  | EmptyString => false
  | String c' s' => Ascii.eqb c' c || occurs c s'
  end.

Section SecondPassAux.

Import CombineDetails.

Context {C : Type}.

Variable fs : input_fs C.
Variable env : os_env.

Implicit Types (df : dataframe C) (w : world (dataframe C)) (info : file_info).

(** Where the frame of one result file is written. *)
Definition output_path (eval_dir : string) info : string :=
  PyStr.path_join eval_dir (model_name info ++ ".parquet")%string.

(** The frame that is written for one result file read as [df]. *)
Definition with_metadata (eval_name : string) info (ts : string) df : dataframe C :=
  set_column
    (set_column (set_column df "model_name" (Str (model_name info)))
                "eval_name" (Str eval_name))
    "timestamp" (Str ts).

(** Processing one result file fails with [e]: the file cannot be read, or
    the output file cannot be opened. *)
Definition processing_fails (eval_dir : string) info w (e : exn) : Prop :=
  snd (read_file fs (path info) w) = Raise e \/
  ((exists df, snd (read_file fs (path info) w) = Ok df) /\
   open_ok env (output_path eval_dir info) = false /\
   e = OSError (output_path eval_dir info)).

End SecondPassAux.

(** The file of one named result-set. *)
Definition artifact (output_dir filename : string) : string :=
  PyStr.path_join output_dir (filename ++ ".json")%string.

(** The files after the given result-sets have been written. *)
Definition written {D : Type} (output_dir : string) (sets : list (string * D))
    (fs : list (string * D)) : list (string * D) :=
  fold_left (fun fs kd => assoc_set (artifact output_dir (fst kd)) (snd kd) fs) sets fs.

(** The order in which [groupby] yields its groups. *)
Definition string_le (a b : string) : Prop := String.leb a b = true.

(** Every score that a mapping stores or defaults to lies between 0 and 1. *)
Definition unit_scores (scores : pydict Q) : Prop :=
  (forall k v, In (k, v) (items scores) -> (0 <= v <= 1)%Q) /\
  (forall v, default_factory scores = Some v -> (0 <= v <= 1)%Q).

Section ExtractAux2.

Import ExtractResults.

Context {F : Type} `{PyFloat F}.

(** A task that the loop of [extract_results] passes over: its key holds
    [_average] or is [all], or it has no [acc_norm]. *)
Definition passed_over (task : string * option F) : bool :=
  PyStr.str_in "_average" (fst task) || String.eqb (fst task) "all"
  || match snd task with Some _ => false | None => true end.

(** The document without the tasks that are passed over. *)
Definition without_passed_over (data : document F) : document F :=
  mkdocument (config_general_model_name data)
             (filter (fun task => negb (passed_over task)) (results data))
             (config_tasks data).

(** The walked files that still exist when they are read. *)
Definition existing (json_files : list (string * option (document F)))
  : list (string * option (document F)) :=
  filter (fun file => match snd file with Some _ => true | None => false end)
         json_files.

End ExtractAux2.

Section ExtractAux3.

Import ExtractResults.

Context {F : Type} `{PyFloat F}.

(** What a task adds to [evaluation_results]: its clean name and its
    [acc_norm], unless the loop passes over it. *)
Definition reported_task (task : string * option F) : option (string * F) :=
  if PyStr.str_in "_average" (fst task) || String.eqb (fst task) "all" then None
  else match snd task with
       | Some acc_norm => Some (clean_task_name (fst task), acc_norm)
       | None => None
       end.

Definition report_task (results : pydict F) (task : string * option F) : pydict F :=
  match reported_task task with
  | Some (name, acc_norm) => setitem results name acc_norm
  | None => results
  end.

End ExtractAux3.

Section ScanAux.

Import CombineDetails.

(** The files registered under an evaluation name (none when the name is
    no key). *)
Definition registered (files_by_eval : pydict (list file_info)) (eval_name : string)
  : list file_info :=
  match get files_by_eval eval_name with
  | Some file_infos => file_infos
  | None => []
  end.

(** [filename] is a result file whose evaluation name is [eval_name]. *)
Definition result_file_of (eval_name filename : string) : bool :=
  PyStr.endswith filename ".parquet"
  && match eval_name_of_filename filename with
     | Ok name => String.eqb name eval_name
     | Raise _ => false
     end.

(** The name of the folder of an evaluation (line 84). *)
Definition safe_eval_name (eval_name : string) : string :=
  PyStr.replace ":" "_" (PyStr.replace "|" "_" eval_name).

End ScanAux.

Section InPlaceAux.

Context {F : Type} `{PyFloat F}.

(** [scores'] is [scores] after the lookups [scores[m]] of the models [m]
    that [looked] selects: these lookups were defined and their values are
    stored; nothing else differs. *)
Definition after_lookups (looked : string -> bool) (scores scores' : pydict F)
  : Prop :=
  default_factory scores' = default_factory scores /\
  forall m,
    if looked m
    then exists v, subscript scores m = Ok v /\ get scores' m = Some v
    else get scores' m = get scores m.

(** The same, subset by subset. *)
Definition mappings_after (looked : string -> bool)
    (l l' : list (string * pydict F)) : Prop :=
  Forall2 (fun kv kv' => fst kv' = fst kv /\ after_lookups looked (snd kv) (snd kv'))
          l l'.

(** [totals'] yields the weights that [totals] yields. *)
Definition same_weights (totals totals' : pydict Z) : Prop :=
  default_factory totals' = default_factory totals /\
  forall subset, subscript totals' subset = subscript totals subset.

End InPlaceAux.

Section InPlaceAux2.

Context {F : Type} `{PyFloat F}.

(** The models whose lookups are stored once the models of [processed] have
    been handled: those with a positive total weight. *)
Definition stored_by (er : pydict (pydict F)) (totals : pydict Z)
    (processed : list string) (m : string) : bool :=
  existsb (String.eqb m) processed && (0 <? Spec.total_weight er totals m).

End InPlaceAux2.

Section MainAux.

Import ProcessResults.

Context {F : Type} `{PyFloat F}.

(** The result-sets that [main] saves. *)
Definition result_sets : list string :=
  ["all_evaluation_results"; "all_evaluation_results_filtered";
   "all_correct_ids"; "all_correct_ratios";
   "dataset_total"; "dataset_total_filtered"].

(** The upload that [main] asks for. *)
Definition upload_of (a : args.t) : upload :=
  mk_upload (args.output_dir a) "evaluation_results" (args.repo_id a) "dataset"
            "Upload evaluation results for CyberSec MCQA".

(** The number of distinct question IDs of a dataset. *)
Definition questions (dataset : list (record F)) : Z :=
  Z.of_nat (List.length (nodup string_dec (map specifics_id dataset))).

(** Every mapping is a [defaultdict] with distinct keys. *)
Definition defaultdicts (er : pydict (pydict F)) : Prop :=
  forall subset scores,
    In (subset, scores) (items er) ->
    default_factory scores = Some (of_int 0) /\ NoDup (keys scores).

(** What the loop over the subsets keeps of the containers. *)
Definition well_formed (c : containers F) : Prop :=
  defaultdicts (all_evaluation_results c) /\
  defaultdicts (all_evaluation_results_filtered c) /\
  default_factory (dataset_total c) = Some 0 /\
  default_factory (dataset_total_filtered c) = Some 0.

Definition started (c : containers F) : Prop :=
  items (all_evaluation_results c) <> [] /\
  items (all_evaluation_results_filtered c) <> [].

End MainAux.

(** The sum and the mean of rational numbers. *)
Definition exact_sum (l : list Q) : Q := fold_right Qplus 0%Q l.

Definition exact_mean (l : list Q) : Q :=
  (exact_sum l / inject_Z (Z.of_nat (List.length l)))%Q.

Section DiscoveryAux.

Import CombineDetails.

Context {C : Type}.

(** [info], registered under [eval_name], is a result file that the scan
    of [folder_path] finds: a [.parquet] file listed in a run folder, whose
    evaluation name is [eval_name]; the run folder is named
    [evaluation_time info] and lies in a model folder, which is either the
    entry [model_name info] of [folder_path], or the folder [model_name_str]
    of an organisation folder [model_org] of [folder_path], the model name
    then being [model_org_model_name_str]. *)
Definition discovered (fs : input_fs C) (folder_path eval_name : string)
    (info : file_info) : Prop :=
  exists model_path filenames filename,
    (model_path = PyStr.path_join folder_path (model_name info) \/
     exists model_org model_name_str,
       model_name info = (model_org ++ "_" ++ model_name_str)%string /\
       model_path =
         PyStr.path_join (PyStr.path_join folder_path model_org) model_name_str) /\
    listdir fs (PyStr.path_join model_path (evaluation_time info)) = Ok filenames /\
    In filename filenames /\
    PyStr.endswith filename ".parquet" = true /\
    eval_name_of_filename filename = Ok eval_name /\
    path info =
      PyStr.path_join (PyStr.path_join model_path (evaluation_time info)) filename.

(** [files_by_eval] is the [defaultdict(list)] of the scan, and every entry
    registered in it satisfies [P]. *)
Definition every_registered (P : string -> file_info -> Prop)
    (files_by_eval : pydict (list file_info)) : Prop :=
  default_factory files_by_eval = Some [] /\
  forall eval_name file_infos info,
    In (eval_name, file_infos) (items files_by_eval) -> In info file_infos ->
    P eval_name info.

(** Every row of [frame] holds the three metadata values. *)
Definition stamped (frame : dataframe C) (eval_name model timestamp : string) : Prop :=
  forall i, (i < nrows frame)%nat ->
    cell_at frame "timestamp" i = Some (Str timestamp) /\
    cell_at frame "model_name" i = Some (Str model) /\
    cell_at frame "eval_name" i = Some (Str eval_name).

(** [frame], at [p], is the frame of a discovered result file with its
    metadata. *)
Definition organized (fs : input_fs C) (folder_path output_dir p : string)
    (frame : dataframe C) : Prop :=
  exists eval_name info timestamp,
    discovered fs folder_path eval_name info /\
    timestamp_of (evaluation_time info) = Ok timestamp /\
    p = output_path (PyStr.path_join output_dir (safe_eval_name eval_name)) info /\
    stamped frame eval_name (model_name info) timestamp.

(** Every file of [w] was in [w0] already or is an organized frame. *)
Definition only_organized (fs : input_fs C) (folder_path output_dir : string)
    (w0 w : world (dataframe C)) : Prop :=
  forall p frame,
    assoc p (files w) = Some frame ->
    assoc p (files w0) = Some frame \/ organized fs folder_path output_dir p frame.

(** [w] has an organized frame at [p]. *)
Definition holds_organized (fs : input_fs C) (folder_path output_dir p : string)
    (w : world (dataframe C)) : Prop :=
  exists frame,
    assoc p (files w) = Some frame /\ organized fs folder_path output_dir p frame.

End DiscoveryAux.

(** * Inputs used as examples *)

Module Examples.

Import ProcessResults.

(** Model ["m"] has a score in subset ["A"] and none in subset ["B"]; the
    mappings are plain dictionaries, then [defaultdict(float)]. *)
Definition partial_dict : pydict (pydict float) :=
  mkdict [("A", mkdict [("m", 1%float)] None); ("B", mkdict [] None)] None.

Definition partial_defaultdict : pydict (pydict float) :=
  mkdict [("A", mkdict [("m", 1%float)] (Some 0%float));
          ("B", mkdict [] (Some 0%float))] None.

Definition unit_weights : pydict Z := mkdict [("A", 1); ("B", 1)] (Some 0).


Definition small_large_exact : pydict (pydict Q) :=
  mkdict [("small", mkdict [("m", 1%Q)] (Some 0%Q));
          ("large", mkdict [("m", 0%Q)] (Some 0%Q))] None.

Definition weights_10_1000 : pydict Z :=
  mkdict [("small", 10); ("large", 1000)] (Some 0).

(** One subset of three items in which ["m"] scores 0.1 (the binary64 number
    nearest to one tenth). *)
Definition one_tenth : float := 0x1.999999999999ap-4%float.

Definition single_subset : pydict (pydict float) :=
  mkdict [("S", mkdict [("m", one_tenth)] (Some 0%float))] None.

Definition single_subset_exact : pydict (pydict Q) :=
  mkdict [("S", mkdict [("m", 1 # 10)] (Some 0%Q))] None.

Definition weight_3 : pydict Z := mkdict [("S", 3)] (Some 0).

(** One subset of weight zero. *)
Definition weight_0 : pydict Z := mkdict [("S", 0)] (Some 0).

End Examples.

Section MoreExamples.

Import ProcessResults ExtractResults CombineDetails.

(** A document whose only task has no document count. *)
Definition uncounted_document : document float :=
  mkdocument (Some "model") [("suite|task:sub|0", Some 0.5%float)] [].

(** The records of the specification's scenario. *)
Definition scenario : list (record Q) :=
  [mkrecord "1" "x" 1%Q; mkrecord "1" "y" 1%Q;
   mkrecord "2" "x" 1%Q; mkrecord "2" "y" 0%Q].

(** Two result-sets, and a system on which the file of the first one cannot
    be opened. *)
Definition two_artifacts : pydict Z := mkdict [("a", 1); ("b", 2)] None.

Definition first_write_fails : os_env :=
  mk_os_env (fun _ => true) (fun p => negb (String.eqb p "out/a.json")).

(** A run folder with one unreadable and one readable result file. *)
Definition sample_frame : dataframe Z :=
  mkframe 2 [("specifics.id", [Raw 1; Raw 2])].

Definition sample_fs : input_fs Z :=
  mk_input_fs
    (fun _ => Ok [])
    (fun _ => true)
    (fun p => if String.eqb p "in/bad.parquet" then Raise (OSError p)
              else Ok sample_frame).

Definition permissive : os_env := mk_os_env (fun _ => true) (fun _ => true).

Definition bad_info : file_info := mkinfo "in/bad.parquet" "model_b" "2025-01-01T00-00-00".
Definition good_info : file_info :=
  mkinfo "in/good.parquet" "model_a" "run_2025-01-01T00-00-00".

(** The scenario in binary64. *)
Definition scenario_binary64 : list (record float) :=
  [mkrecord "1" "x" 1%float; mkrecord "1" "y" 1%float;
   mkrecord "2" "x" 1%float; mkrecord "2" "y" 0%float].

(** A results folder with a model folder and an organisation folder. *)
Definition sample_listing (p : string) : result (list string) :=
  if String.eqb p "root" then Ok ["model_a"; "org"; "readme.txt"]
  else if String.eqb p "root/model_a" then Ok ["run_2025"]
  else if String.eqb p "root/model_a/run_2025"
       then Ok ["details_community|task_a:sub|0_2025.parquet"; "notes.txt"]
  else if String.eqb p "root/org" then Ok ["model_b"]
  else if String.eqb p "root/org/model_b" then Ok ["2026"]
  else if String.eqb p "root/org/model_b/2026"
       then Ok ["details_community|task_a:sub|0_2026.parquet"; "task_b_2026.parquet"]
  else Raise (NotADirectoryError p).

Definition sample_tree : input_fs Z :=
  mk_input_fs
    sample_listing
    (fun p => match sample_listing p with Ok _ => true | Raise _ => false end)
    (fun p => if PyStr.str_in "task_b" p then Raise (OSError p) else Ok sample_frame).

(** A harness document with two tasks and the aggregate entry. *)
Definition sample_document : document Q :=
  mkdocument (Some "model")
             [("community|task:a|0", Some (1 # 2)%Q); ("all", Some 1%Q);
              ("community|task:b|0", Some 1%Q)]
             [("community|task:a", Some 10); ("community|task:b", Some 30)].

(** A second run of the model of [good_info]. *)
Definition later_info : file_info := mkinfo "in/later.parquet" "model_a" "2026".

(** A model folder whose first run folder is empty and whose second run
    folder holds a result file. *)
Definition hidden_listing (p : string) : result (list string) :=
  if String.eqb p "root" then Ok ["model"]
  else if String.eqb p "root/model" then Ok ["run1"; "run2"]
  else if String.eqb p "root/model/run1" then Ok []
  else if String.eqb p "root/model/run2" then Ok ["details_suite|task|0_2026.parquet"]
  else Raise (NotADirectoryError p).

Definition hidden_tree : input_fs Z :=
  mk_input_fs
    hidden_listing
    (fun p => match hidden_listing p with Ok _ => true | Raise _ => false end)
    (fun _ => Ok sample_frame).


(** [partial_defaultdict] once the default of ["B"] has been stored under
    ["m"]. *)
Definition stored_defaultdict : pydict (pydict float) :=
  mkdict [("A", mkdict [("m", 1%float)] (Some 0%float));
          ("B", mkdict [("m", 0%float)] (Some 0%float))] None.


(** A hub whose repository holds one subset, ["web"], with the rows of
    [scenario_binary64], and a hub whose repository holds a file only. *)
Definition one_subset_hub : hub float :=
  mk_hub (fun _ => Ok [mk_ls_entry "datasets/r/web" "directory";
                       mk_ls_entry "datasets/r/README.md" "file"])
         (fun _ _ => Ok scenario_binary64)
         (fun _ => Ok tt).

Definition no_subset_hub : hub float :=
  mk_hub (fun _ => Ok [mk_ls_entry "datasets/r/README.md" "file"])
         (fun _ p => Raise (OSError p))
         (fun _ => Ok tt).

Definition sample_args : args.t :=
  args.mk None "datasets/r/" "r" "out" true "r".

Definition fresh_session : session float :=
  mk_session empty_dict (mkworld [] []) [] [].





(** Ten records of one model, each with the binary64 number nearest to one
    tenth. *)
Definition ten_tenths : list (record float) :=
  map (fun id => mkrecord id "x" Examples.one_tenth)
      ["0"; "1"; "2"; "3"; "4"; "5"; "6"; "7"; "8"; "9"].



(** The frame written for a result file of [sample_tree], the entry of the
    first result file, and what the scan of [sample_tree] registers. *)
Definition run_frame (model timestamp : string) : dataframe Z :=
  mkframe 2 [("specifics.id", [Raw 1; Raw 2]);
             ("model_name", [Str model; Str model]);
             ("eval_name", [Str "task_a:sub"; Str "task_a:sub"]);
             ("timestamp", [Str timestamp; Str timestamp])].

Definition run_info : file_info :=
  mkinfo "root/model_a/run_2025/details_community|task_a:sub|0_2025.parquet"
         "model_a" "run_2025".

Definition scanned_tree : pydict (list file_info) :=
  mkdict
    [("task_a:sub",
      [run_info;
       mkinfo "root/org/model_b/2026/details_community|task_a:sub|0_2026.parquet"
              "org_model_b" "2026"]);
     ("task", [mkinfo "root/org/model_b/2026/task_b_2026.parquet" "org_model_b" "2026"])]
    (Some []).

End MoreExamples.

(** * Facts about the Python model *)

Section DictFacts.

Context {V : Type}.

Implicit Types (l : list (string * V)) (d : pydict V) (k : string) (v : V).

Lemma assoc_set_same l k v : assoc k (assoc_set k v l) = Some v.
Proof.
  induction l as [|[k' v'] l IH]; simpl.
  - now rewrite String.eqb_refl.
  - destruct (String.eqb k k') eqn:E; simpl.
    + now rewrite String.eqb_refl.
    + now rewrite E.
Qed.

Lemma assoc_set_other l k k' v :
  k' <> k -> assoc k' (assoc_set k v l) = assoc k' l.
Proof.
  intros Hne. induction l as [|[k0 v0] l IH]; simpl.
  - apply String.eqb_neq in Hne. now rewrite Hne.
  - destruct (String.eqb k k0) eqn:E; simpl.
    + apply String.eqb_eq in E. subst k0.
      apply String.eqb_neq in Hne. now rewrite Hne.
    + now rewrite IH.
Qed.

Lemma assoc_In l k v : assoc k l = Some v -> In (k, v) l.
Proof.
  induction l as [|[k' v'] l IH]; simpl; [discriminate|].
  destruct (String.eqb k k') eqn:E.
  - apply String.eqb_eq in E. intros [= ->]. subst. now left.
  - intros Hl. right. now apply IH.
Qed.

Lemma assoc_None l k : assoc k l = None <-> ~ In k (map fst l).
Proof.
  induction l as [|[k' v'] l IH]; simpl; [tauto|].
  destruct (String.eqb k k') eqn:E.
  - apply String.eqb_eq in E. subst. split; [discriminate|]. intros Hn. exfalso. tauto.
  - apply String.eqb_neq in E. rewrite IH. split; [|tauto].
    intros Hn [Heq|Hin]; [now subst|tauto].
Qed.

Lemma get_setitem_same d k v : get (setitem d k v) k = Some v.
Proof. apply assoc_set_same. Qed.

Lemma get_setitem_other d k k' v : k' <> k -> get (setitem d k v) k' = get d k'.
Proof. apply assoc_set_other. Qed.

Lemma get_setitem d k k' v :
  get (setitem d k v) k' = if String.eqb k' k then Some v else get d k'.
Proof.
  destruct (String.eqb k' k) eqn:E.
  - apply String.eqb_eq in E. subst. apply get_setitem_same.
  - apply String.eqb_neq in E. now apply get_setitem_other.
Qed.

Lemma default_factory_setitem d k v :
  default_factory (setitem d k v) = default_factory d.
Proof. reflexivity. Qed.

Lemma contains_keys d k : contains d k = true <-> In k (keys d).
Proof.
  unfold contains, get, keys. destruct (assoc k (items d)) eqn:E.
  - split; [intros _|reflexivity].
    apply assoc_In in E. now apply (in_map fst) in E.
  - split; [discriminate|]. intros Hin. now apply assoc_None in E.
Qed.

Lemma contains_false_get d k : contains d k = false <-> get d k = None.
Proof. unfold contains. destruct (get d k); split; congruence. Qed.

Lemma contains_true_get d k : contains d k = true <-> exists v, get d k = Some v.
Proof.
  unfold contains. destruct (get d k) as [v|]; split; try congruence.
  - intros _. now exists v.
  - intros [v Hv]. discriminate.
Qed.

Lemma subscript_get d k v : get d k = Some v -> subscript d k = Ok v.
Proof. unfold subscript, getitem. now intros ->. Qed.

Lemma subscript_default d k v :
  get d k = None -> default_factory d = Some v -> subscript d k = Ok v.
Proof. unfold subscript, getitem. now intros -> ->. Qed.

Lemma subscript_KeyError d k :
  get d k = None -> default_factory d = None -> subscript d k = Raise (KeyError k).
Proof. unfold subscript, getitem. now intros -> ->. Qed.

Lemma subscriptable_Ok d k : Spec.subscriptable d k -> exists v, subscript d k = Ok v.
Proof.
  intros [Hc|Hd].
  - apply contains_true_get in Hc as [v Hv]. exists v. now apply subscript_get.
  - destruct (get d k) as [v|] eqn:E.
    + exists v. now apply subscript_get.
    + destruct (default_factory d) as [v|] eqn:Ed; [|congruence].
      exists v. now apply subscript_default.
Qed.

Lemma subscript_not_ZeroDivisionError d k : subscript d k <> Raise ZeroDivisionError.
Proof.
  unfold subscript, getitem.
  destruct (get d k); [discriminate|].
  destruct (default_factory d); discriminate.
Qed.

End DictFacts.

Section LoopFacts.

Context {A B : Type}.

Lemma for_each_app (body : B -> A -> result B) l1 l2 b :
  for_each body (l1 ++ l2) b = (b' <- for_each body l1 b ;; for_each body l2 b').
Proof.
  revert b. induction l1 as [|a l1 IH]; intros b; simpl; [reflexivity|].
  destruct (body b a); simpl; [apply IH|reflexivity].
Qed.

(** A loop whose body never raises is a left fold. *)
Lemma for_each_pure (body : B -> A -> result B) (f : B -> A -> B) l b :
  (forall b a, In a l -> body b a = Ok (f b a)) ->
  for_each body l b = Ok (fold_left f l b).
Proof.
  revert b. induction l as [|a l IH]; intros b Hb; simpl; [reflexivity|].
  rewrite Hb by now left. simpl. apply IH. intros b' a' Hin. apply Hb. now right.
Qed.

(** An exception that no iteration raises is not raised by the loop. *)
Lemma for_each_never (body : B -> A -> result B) (e : exn) l b :
  (forall b a, In a l -> body b a <> Raise e) -> for_each body l b <> Raise e.
Proof.
  revert b. induction l as [|a l IH]; intros b Hb; simpl; [discriminate|].
  destruct (body b a) as [b'|e'] eqn:E; simpl.
  - apply IH. intros b0 a0 Hin. apply Hb. now right.
  - intros [= ->]. apply (Hb b a); [now left|assumption].
Qed.

End LoopFacts.

(** * Facts about [compute_macro_micro_averages] *)

Section CombinerFacts.

Import ProcessResults.

Context {F : Type} `{PyFloat F}.

Implicit Types (er : pydict (pydict F)) (totals : pydict Z) (m : string).

Lemma truediv_pos (x : F) (n : Z) : 0 < n -> truediv x n = Ok (fdiv x (of_int n)).
Proof.
  intros Hn. unfold truediv. destruct (Z.eqb_spec n 0); [lia|reflexivity].
Qed.

Lemma model_step_result er totals out m :
  model_step er totals out m = (r <- model_result er totals m ;; Ok (store out m r)).
Proof.
  destruct out as [ma mi]. unfold model_step, model_result.
  destruct (for_each _ _ _) as [[ts tc]|e]; simpl; [|reflexivity].
  destruct (0 <? tc); [|reflexivity].
  destruct (truediv ts tc); simpl; [|reflexivity].
  destruct (sum_scores er m); simpl; [|reflexivity].
  destruct (truediv _ (len er)); reflexivity.
Qed.

Lemma models_loop er totals ms out out' :
  for_each (model_step er totals) ms out = Ok out' ->
  forall m,
    (In m ms ->
     exists r, model_result er totals m = Ok r /\
       match r with
       | Some (macro, micro) =>
           get (fst out') m = Some macro /\ get (snd out') m = Some micro
       | None =>
           get (fst out') m = get (fst out) m /\ get (snd out') m = get (snd out) m
       end) /\
    (~ In m ms ->
     get (fst out') m = get (fst out) m /\ get (snd out') m = get (snd out) m).
Proof.
  revert out. induction ms as [|m0 ms IH]; intros out Hloop m.
  - simpl in Hloop. injection Hloop as <-. split; [intros []|auto].
  - simpl in Hloop. rewrite model_step_result in Hloop.
    destruct (model_result er totals m0) as [r0|] eqn:Er0; simpl in Hloop;
      [|discriminate].
    specialize (IH _ Hloop m) as [IHin IHout].
    assert (Hother : m <> m0 ->
              get (fst (store out m0 r0)) m = get (fst out) m /\
              get (snd (store out m0 r0)) m = get (snd out) m).
    { intros Hne. destruct r0 as [[a b]|]; simpl; [|auto].
      now rewrite !get_setitem_other. }
    split.
    + intros Hin. destruct (in_dec string_dec m ms) as [Hms|Hms].
      * destruct (IHin Hms) as [r [Hr Hget]]. exists r. split; [assumption|].
        destruct r as [[a b]|]; [assumption|].
        destruct (string_dec m m0) as [->|Hne].
        -- rewrite Er0 in Hr. injection Hr as ->. assumption.
        -- destruct (Hother Hne) as [H1 H2]. destruct Hget as [G1 G2].
           now rewrite G1, G2, H1, H2.
      * destruct Hin as [<-|Hin]; [|contradiction].
        exists r0. split; [assumption|].
        destruct (IHout Hms) as [G1 G2]. rewrite G1, G2.
        destruct r0 as [[a b]|]; simpl; [|auto].
        now rewrite !get_setitem_same.
    + intros Hnin. simpl in Hnin.
      assert (Hne : m <> m0) by (intros ->; tauto).
      assert (Hms : ~ In m ms) by tauto.
      destruct (IHout Hms) as [G1 G2]. destruct (Hother Hne) as [H1 H2].
      now rewrite G1, G2, H1, H2.
Qed.

Lemma models_loop_returns er totals ms out :
  (forall m, In m ms -> exists r, model_result er totals m = Ok r) ->
  exists out', for_each (model_step er totals) ms out = Ok out'.
Proof.
  revert out. induction ms as [|m0 ms IH]; intros out Hr; simpl.
  - now exists out.
  - rewrite model_step_result.
    destruct (Hr m0) as [r0 ->]; [now left|]. simpl.
    apply IH. intros m Hin. apply Hr. now right.
Qed.

Lemma compute_first er totals subset scores rest :
  items er = (subset, scores) :: rest ->
  compute_macro_micro_averages er totals =
  for_each (model_step er totals) (keys scores) (empty_dict, empty_dict).
Proof.
  intros Hit. unfold compute_macro_micro_averages, keys at 1. rewrite Hit. simpl.
  unfold subscript, getitem, get. rewrite Hit. simpl.
  now rewrite String.eqb_refl.
Qed.

(** The inner loop adds up the subsets in which the model has a score. *)
Lemma weight_loop totals m (l : list (string * pydict F)) ts tc ts' tc' :
  for_each (weight_step totals m) l (ts, tc) = Ok (ts', tc') ->
  ts' = fold_left fadd
          (map (fun kv => fmul (Spec.accuracy (snd kv) m)
                               (of_int (Spec.weight totals (fst kv))))
               (filter (fun kv => contains (snd kv) m) l)) ts /\
  tc' = fold_left Z.add
          (map (fun kv => Spec.weight totals (fst kv))
               (filter (fun kv => contains (snd kv) m) l)) tc.
Proof.
  revert ts tc. induction l as [|[s sc] l IH]; intros ts tc Hloop; simpl in *.
  - now injection Hloop as <- <-.
  - destruct (contains sc m) eqn:Ec; simpl in Hloop |- *.
    + apply contains_true_get in Ec as [v Hv].
      rewrite (subscript_get _ _ _ Hv) in Hloop. simpl in Hloop.
      destruct (subscript totals s) as [c|] eqn:Es; simpl in Hloop; [|discriminate].
      assert (Hw : Spec.weight totals s = c) by (unfold Spec.weight; now rewrite Es).
      assert (Ha : Spec.accuracy sc m = v) by (unfold Spec.accuracy; now rewrite Hv).
      rewrite Hw, Ha. now apply IH.
    + now apply IH.
Qed.

Lemma weight_loop_returns totals m (l : list (string * pydict F)) acc :
  (forall subset scores, In (subset, scores) l -> contains scores m = true ->
                         Spec.subscriptable totals subset) ->
  exists acc', for_each (weight_step totals m) l acc = Ok acc'.
Proof.
  revert acc. induction l as [|[s sc] l IH]; intros [ts tc] Hsub; simpl.
  - now eexists.
  - assert (Hl : forall subset scores, In (subset, scores) l ->
                  contains scores m = true -> Spec.subscriptable totals subset).
    { intros s' sc' Hin. apply Hsub. now right. }
    destruct (contains sc m) eqn:Ec; simpl; [|now apply IH].
    destruct (proj1 (contains_true_get _ _) Ec) as [v Hv].
    rewrite (subscript_get _ _ _ Hv). simpl.
    destruct (subscriptable_Ok totals s) as [c ->]; [apply (Hsub s sc); auto; now left|].
    simpl. now apply IH.
Qed.

Lemma weight_loop_no_division totals m (l : list (string * pydict F)) acc :
  for_each (weight_step totals m) l acc <> Raise ZeroDivisionError.
Proof.
  apply for_each_never. intros [ts tc] [s sc] _. unfold weight_step.
  destruct (contains sc m); [|discriminate].
  destruct (subscript sc m) eqn:E1; simpl;
    [|intros [= ->]; now apply subscript_not_ZeroDivisionError in E1].
  destruct (subscript totals s) eqn:E2; simpl;
    [discriminate|intros [= ->]; now apply subscript_not_ZeroDivisionError in E2].
Qed.

Lemma sum_loop m (l : list (pydict F)) s s' :
  for_each (fun s scores => v <- subscript scores m ;; Ok (fadd s v)) l s = Ok s' ->
  s' = fold_left fadd (map (fun scores => looked_up scores m) l) s.
Proof.
  revert s. induction l as [|sc l IH]; intros s Hloop; simpl in *.
  - congruence.
  - destruct (subscript sc m) as [v|] eqn:E; simpl in Hloop; [|discriminate].
    replace (looked_up sc m) with v by (unfold looked_up; now rewrite E).
    now apply IH.
Qed.

Lemma sum_loop_returns m (l : list (pydict F)) s :
  (forall scores, In scores l -> Spec.subscriptable scores m) ->
  exists s', for_each (fun s scores => v <- subscript scores m ;; Ok (fadd s v)) l s = Ok s'.
Proof.
  revert s. induction l as [|sc l IH]; intros s Hsub; simpl.
  - now eexists.
  - destruct (subscriptable_Ok sc m) as [v ->]; [apply Hsub; now left|]. simpl.
    apply IH. intros sc' Hin. apply Hsub. now right.
Qed.

Lemma sum_scores_no_division er m : sum_scores er m <> Raise ZeroDivisionError.
Proof.
  unfold sum_scores. apply for_each_never. intros s sc _.
  destruct (subscript sc m) eqn:E; simpl;
    [discriminate|intros [= ->]; now apply subscript_not_ZeroDivisionError in E].
Qed.

Lemma looked_up_scored (scores : pydict F) m :
  contains scores m = true -> looked_up scores m = Spec.accuracy scores m.
Proof.
  intros Hc. apply contains_true_get in Hc as [v Hv].
  unfold looked_up, Spec.accuracy. now rewrite (subscript_get _ _ _ Hv), Hv.
Qed.

Lemma looked_up_default (scores : pydict F) m :
  default_factory scores = Some (of_int 0) ->
  looked_up scores m = Spec.accuracy scores m.
Proof.
  intros Hd. unfold looked_up, Spec.accuracy.
  destruct (get scores m) as [v|] eqn:Hv.
  - now rewrite (subscript_get _ _ _ Hv).
  - now rewrite (subscript_default _ _ _ Hv Hd).
Qed.

End CombinerFacts.

Section CombinerSpec.

Import ProcessResults.

Context {F : Type} `{PyFloat F}.

Implicit Types (er : pydict (pydict F)) (totals : pydict Z) (m : string).

Lemma model_result_spec er totals m r :
  model_result er totals m = Ok r ->
  r = if 0 <? Spec.total_weight er totals m
      then Some (Spec.macro_average er totals m, micro_looked_up er m)
      else None.
Proof.
  unfold model_result.
  destruct (for_each _ _ _) as [[ts tc]|] eqn:Ew; simpl; [|discriminate].
  apply weight_loop in Ew as [-> ->].
  fold (Spec.scored er m). fold (Spec.sum_Z (map (fun kv => Spec.weight totals (fst kv)) (Spec.scored er m))).
  fold (Spec.total_weight er totals m).
  destruct (0 <? Spec.total_weight er totals m) eqn:Ep; [|congruence].
  apply Z.ltb_lt in Ep. rewrite (truediv_pos _ _ Ep). simpl.
  destruct (sum_scores er m) as [s|] eqn:Es; simpl; [|discriminate].
  apply sum_loop in Es. subst s.
  unfold truediv. destruct (len er =? 0); [discriminate|].
  intros [= <-]. reflexivity.
Qed.

Lemma model_result_returns er totals m :
  items er <> [] ->
  (forall subset scores, In (subset, scores) (items er) ->
     Spec.subscriptable totals subset /\ Spec.subscriptable scores m) ->
  exists r, model_result er totals m = Ok r.
Proof.
  intros Hne Hsub. unfold model_result.
  destruct (weight_loop_returns totals m (items er) (of_int 0, 0)) as [[ts tc] ->].
  { intros s sc Hin _. now apply (Hsub s sc). }
  simpl. destruct (0 <? tc) eqn:Ep; [|now eexists].
  apply Z.ltb_lt in Ep. rewrite (truediv_pos _ _ Ep). simpl.
  unfold sum_scores.
  destruct (sum_loop_returns m (values er) (of_int 0)) as [s ->].
  { intros sc Hin. unfold values in Hin. apply in_map_iff in Hin as [[s sc'] [<- Hin]].
    now apply (Hsub s sc'). }
  simpl. rewrite truediv_pos; [now eexists|].
  unfold len. destruct (items er); [contradiction|simpl; lia].
Qed.

Lemma model_result_no_division er totals m :
  items er <> [] -> model_result er totals m <> Raise ZeroDivisionError.
Proof.
  intros Hne. unfold model_result.
  destruct (for_each _ _ _) as [[ts tc]|e] eqn:Ew; simpl.
  - destruct (0 <? tc) eqn:Ep; [|discriminate].
    apply Z.ltb_lt in Ep. rewrite (truediv_pos _ _ Ep). simpl.
    destruct (sum_scores er m) as [s|e] eqn:Es; simpl.
    + rewrite truediv_pos; [discriminate|].
      unfold len. destruct (items er); [contradiction|simpl; lia].
    + intros [= ->]. now apply sum_scores_no_division in Es.
  - intros [= ->]. now apply weight_loop_no_division in Ew.
Qed.

Lemma scored_all er m : Spec.scored_everywhere er m -> Spec.scored er m = items er.
Proof.
  unfold Spec.scored_everywhere, Spec.scored.
  induction (items er) as [|[s sc] l IH]; intros Hall; simpl; [reflexivity|].
  rewrite (Hall s sc) by now left. f_equal. apply IH.
  intros s' sc' Hin. apply (Hall s' sc'). now right.
Qed.

Lemma micro_looked_up_spec er m :
  (forall subset scores, In (subset, scores) (items er) ->
     contains scores m = true \/ default_factory scores = Some (of_int 0)) ->
  micro_looked_up er m = Spec.micro_average er m.
Proof.
  intros Hall. unfold micro_looked_up, Spec.micro_average, values.
  rewrite map_map. f_equal. f_equal. apply map_ext_in.
  intros [s sc] Hin. simpl.
  destruct (Hall s sc Hin); [now apply looked_up_scored|now apply looked_up_default].
Qed.

(** The averages reported for a model, whenever the combination returns. *)
Lemma compute_get er totals macro micro m :
  compute_macro_micro_averages er totals = Ok (macro, micro) ->
  (get macro m, get micro m) =
  if contains (Spec.first_scores er) m && (0 <? Spec.total_weight er totals m)
  then (Some (Spec.macro_average er totals m), Some (micro_looked_up er m))
  else (None, None).
Proof.
  intros Hc. unfold Spec.first_scores.
  destruct (items er) as [|[s0 first] rest] eqn:Hit.
  { unfold compute_macro_micro_averages, keys in Hc. rewrite Hit in Hc. discriminate. }
  rewrite (compute_first _ _ _ _ _ Hit) in Hc.
  destruct (models_loop _ _ _ _ _ Hc m) as [Hin Hout]. simpl in Hin, Hout.
  destruct (contains first m) eqn:Ec; simpl.
  - apply contains_keys in Ec. destruct (Hin Ec) as [r [Hr Hg]].
    apply model_result_spec in Hr. subst r.
    destruct (0 <? Spec.total_weight er totals m).
    + destruct Hg as [-> ->]. reflexivity.
    + destruct Hg as [-> ->]. reflexivity.
  - assert (Hn : ~ In m (keys first)).
    { intros Hk. apply contains_keys in Hk. congruence. }
    destruct (Hout Hn) as [-> ->]. reflexivity.
Qed.

Lemma compute_returns er totals :
  items er <> [] ->
  (forall subset scores, In (subset, scores) (items er) ->
     Spec.subscriptable totals subset /\
     forall m, contains (Spec.first_scores er) m = true -> Spec.subscriptable scores m) ->
  exists macro micro, compute_macro_micro_averages er totals = Ok (macro, micro).
Proof.
  intros Hne Hsub. unfold Spec.first_scores in Hsub.
  destruct (items er) as [|[s0 first] rest] eqn:Hit; [contradiction|].
  rewrite (compute_first _ _ _ _ _ Hit).
  destruct (models_loop_returns er totals (keys first) (empty_dict, empty_dict))
    as [[macro micro] Hl].
  - intros m Hin. apply model_result_returns; [congruence|].
    rewrite Hit. intros s sc Hsc. destruct (Hsub s sc Hsc) as [Ht Hs].
    split; [assumption|]. apply Hs. now apply contains_keys.
  - now exists macro, micro.
Qed.

Lemma compute_no_division er totals :
  compute_macro_micro_averages er totals <> Raise ZeroDivisionError.
Proof.
  destruct (items er) as [|[s0 first] rest] eqn:Hit.
  - unfold compute_macro_micro_averages, keys. rewrite Hit. discriminate.
  - rewrite (compute_first _ _ _ _ _ Hit). apply for_each_never.
    intros out m _. rewrite model_step_result.
    destruct (model_result er totals m) eqn:E; simpl; [discriminate|].
    intros [= ->]. apply model_result_no_division in E; [assumption|congruence].
Qed.

End CombinerSpec.

(** * Facts about [groupby] and the per-group loops *)

Section GroupFacts.

Import ProcessResults.

Lemma In_insert_sorted k a l : In k (insert_sorted a l) <-> k = a \/ In k l.
Proof.
  induction l as [|b l IH]; simpl.
  - intuition congruence.
  - destruct (String.leb a b); simpl; [intuition congruence|].
    rewrite IH. intuition congruence.
Qed.

Lemma In_sorted_keys k l : In k (sorted_keys l) <-> In k l.
Proof.
  unfold sorted_keys. rewrite <- (nodup_In string_dec l k).
  induction (nodup string_dec l) as [|a l' IH]; simpl; [tauto|].
  rewrite In_insert_sorted, IH. intuition congruence.
Qed.

Context {V : Type}.

(** Storing [g k] under every key [k] of a list, in any order and with any
    repetition, leaves [g k] under each of them. *)
Lemma get_fold_setitem (g : string -> V) ks (d : pydict V) k :
  get (fold_left (fun d k => setitem d k (g k)) ks d) k =
  if in_dec string_dec k ks then Some (g k) else get d k.
Proof.
  revert d. induction ks as [|k0 ks IH]; intros d; simpl; [reflexivity|].
  rewrite IH. destruct (in_dec string_dec k ks) as [Hin|Hnin].
  - destruct (string_dec k0 k); reflexivity.
  - destruct (string_dec k0 k) as [->|Hne].
    + apply get_setitem_same.
    + apply get_setitem_other. congruence.
Qed.

Lemma default_factory_fold_setitem (g : string -> V) ks (d : pydict V) :
  default_factory (fold_left (fun d k => setitem d k (g k)) ks d) = default_factory d.
Proof.
  revert d. induction ks as [|k0 ks IH]; intros d; simpl; [reflexivity|].
  now rewrite IH.
Qed.

End GroupFacts.

Section QuestionFacts.

Import ProcessResults.

Context {F : Type} `{PyFloat F}.

Lemma question_step_pure ids ratios id group :
  question_step (ids, ratios) (id, group) =
  Ok (if universally_correct group then ids ++ [id] else ids,
      setitem ratios id (ratio group)).
Proof.
  unfold question_step, ratio, universally_correct, correct_count, total_count.
  destruct (0 <? Z.of_nat (List.length group)) eqn:Ep.
  - apply Z.ltb_lt in Ep. rewrite (truediv_pos _ _ Ep). simpl.
    now destruct (fleb _ _).
  - simpl. now destruct (fleb _ _).
Qed.

Lemma question_loop_groups (G : string -> list (record F)) ks ids ratios :
  for_each question_step (map (fun k => (k, G k)) ks) (ids, ratios) =
  Ok (ids ++ filter (fun k => universally_correct (G k)) ks,
      fold_left (fun d k => setitem d k (ratio (G k))) ks ratios).
Proof.
  revert ids ratios. induction ks as [|k ks IH]; intros ids ratios;
    cbn [for_each map filter].
  - now rewrite app_nil_r.
  - rewrite question_step_pure. cbn [bind]. rewrite IH.
    destruct (universally_correct (G k)); [|reflexivity].
    now rewrite <- app_assoc.
Qed.

(** [get_all_correct_ids] always returns, with these results. *)
Lemma get_all_correct_ids_eq (dataset : list (record F)) :
  let ks := sorted_keys (map specifics_id dataset) in
  get_all_correct_ids dataset =
  Ok (dataset,
      filter (fun k => universally_correct (question_group dataset k)) ks,
      fold_left (fun d k => setitem d k (ratio (question_group dataset k))) ks
                (empty_defaultdict (of_int 0))).
Proof.
  intros ks. unfold get_all_correct_ids, question_loop, groupby. fold ks.
  change (map (fun k => (k, filter (fun r => String.eqb (specifics_id r) k) dataset)) ks)
    with (map (fun k => (k, question_group dataset k)) ks).
  now rewrite question_loop_groups.
Qed.

(** The mapping that [calculate_models_accuracy] returns. *)
Lemma calculate_models_accuracy_eq (dataset : list (record F)) filtered_ids :
  let kept := retained dataset filtered_ids in
  calculate_models_accuracy dataset filtered_ids =
  fold_left (fun d k => setitem d k (series_mean (map metrics_acc_norm (model_group kept k))))
            (sorted_keys (map model_name kept))
            (empty_defaultdict (of_int 0)).
Proof.
  intros kept. unfold calculate_models_accuracy, groupby. fold kept.
  generalize (empty_defaultdict (V:=F) (of_int 0)).
  induction (sorted_keys (map model_name kept)) as [|k ks IH]; intros d; simpl;
    [reflexivity|].
  now rewrite IH.
Qed.

Lemma calculate_models_accuracy_get (dataset : list (record F)) filtered_ids m :
  let kept := retained dataset filtered_ids in
  get (calculate_models_accuracy dataset filtered_ids) m =
  if in_dec string_dec m (map model_name kept)
  then Some (series_mean (map metrics_acc_norm (model_group kept m)))
  else None.
Proof.
  intros kept. rewrite calculate_models_accuracy_eq. fold kept.
  rewrite get_fold_setitem.
  destruct (in_dec string_dec m (sorted_keys (map model_name kept))) as [Hin|Hnin];
    destruct (in_dec string_dec m (map model_name kept)) as [Hin'|Hnin'];
    try reflexivity.
  - elim Hnin'. exact (proj1 (In_sorted_keys _ _) Hin).
  - elim Hnin. exact (proj2 (In_sorted_keys _ _) Hin').
Qed.

Lemma calculate_models_accuracy_default (dataset : list (record F)) filtered_ids :
  default_factory (calculate_models_accuracy dataset filtered_ids) = Some (of_int 0).
Proof.
  rewrite calculate_models_accuracy_eq. now rewrite default_factory_fold_setitem.
Qed.

End QuestionFacts.

(** * Facts about [extract_results] *)

Section ExtractFacts.

Import ExtractResults.

Context {F : Type} `{PyFloat F}.

Lemma rsplit1_first sep s : exists k, PyStr.index (PyStr.rsplit1 sep s) 0 = Ok k.
Proof.
  unfold PyStr.rsplit1.
  destruct (rev (PyStr.split sep s)) as [|w [|w' ws]]; eexists; reflexivity.
Qed.

Lemma task_loop cfg tasks res twa td :
  exists res',
    for_each (task_step cfg) tasks (res, twa, td) =
    Ok (res',
        fold_left fadd (map (fun x => fmul (fst x) (of_int (snd x))) (counted cfg tasks)) twa,
        fold_left Z.add (map snd (counted cfg tasks)) td).
Proof.
  revert res twa td. induction tasks as [|[key acc] tasks IH]; intros res twa td.
  - eexists. reflexivity.
  - cbn [for_each counted counted_task task_step].
    destruct (PyStr.str_in "_average" key || String.eqb key "all"); cbn [bind].
    + apply IH.
    + destruct acc as [a|]; cbn [bind]; [|apply IH].
      destruct (rsplit1_first "|" key) as [k ->]. cbn [bind].
      destruct (num_docs_of cfg k) as [n|]; cbn [bind map fold_left fst snd]; apply IH.
Qed.

Lemma extract_results_eq (data : document F) :
  exists e,
    extract_results (Some data) = Ok (Extracted e) /\
    macro_accuracy e =
    if 0 <? total_docs data
    then fdiv (weighted_acc data) (of_int (total_docs data))
    else of_int 0.
Proof.
  unfold extract_results.
  destruct (task_loop (config_tasks data) (results data) empty_dict (of_int 0) 0)
    as [res ->].
  cbn [bind]. fold (weighted_acc data). fold (total_docs data).
  destruct (0 <? total_docs data) eqn:Ep.
  - apply Z.ltb_lt in Ep. rewrite (truediv_pos _ _ Ep). cbn [bind].
    eexists. split; reflexivity.
  - cbn [bind]. eexists. split; reflexivity.
Qed.

End ExtractFacts.

(** * The average combination *)

Section CombinerClaims.

Import ProcessResults.

(** C1, as the code has it.  The keys of the first subset's mapping drive
    the combination.  When every mapping is a [defaultdict(float)] (what
    [calculate_models_accuracy] returns) and every subset has a weight, the
    combination returns; a model that is not a key of the first mapping is
    in neither average; a model that is a key of the first mapping is in
    both averages as soon as the weights of the subsets that score it sum to
    a positive number, also when other subsets do not score it: its macro
    average is taken over the subsets that score it and its micro average
    counts 0 for the others. *)
Theorem first_subset_drives_inclusion :
  forall (F : Type) (num : PyFloat F)
         (er : pydict (pydict F)) (totals : pydict Z),
    items er <> [] ->
    (forall subset scores, In (subset, scores) (items er) ->
       default_factory scores = Some (of_int 0) /\
       Spec.subscriptable totals subset) ->
    exists macro micro,
      compute_macro_micro_averages er totals = Ok (macro, micro) /\
      (forall m, contains (Spec.first_scores er) m = false ->
                 contains macro m = false /\ contains micro m = false) /\
      (forall m, contains (Spec.first_scores er) m = true ->
                 0 < Spec.total_weight er totals m ->
                 get macro m = Some (Spec.macro_average er totals m) /\
                 get micro m = Some (Spec.micro_average er m)).
Proof.
  intros F num er totals Hne Hin.
  destruct (compute_returns er totals Hne) as [macro [micro Hc]].
  { intros s sc Hsc. destruct (Hin s sc Hsc) as [Hd Ht]. split; [assumption|].
    intros m _. right. congruence. }
  exists macro, micro. split; [assumption|].
  split; intros m Hm.
  - pose proof (compute_get er totals macro micro m Hc) as Hg.
    rewrite Hm in Hg. simpl in Hg. injection Hg as Hg1 Hg2.
    split; now apply contains_false_get.
  - intros Hw. pose proof (compute_get er totals macro micro m Hc) as Hg.
    rewrite Hm in Hg. apply Z.ltb_lt in Hw. rewrite Hw in Hg. simpl in Hg.
    injection Hg as -> ->. split; [reflexivity|].
    f_equal. apply micro_looked_up_spec.
    intros s sc Hsc. right. now apply (Hin s sc).
Qed.

Lemma first_subset_drives_inclusion_witness :
  exists macro micro,
    compute_macro_micro_averages Examples.partial_defaultdict Examples.unit_weights
      = Ok (macro, micro) /\
    (forall m, contains (Spec.first_scores Examples.partial_defaultdict) m = false ->
               contains macro m = false /\ contains micro m = false) /\
    (forall m, contains (Spec.first_scores Examples.partial_defaultdict) m = true ->
               0 < Spec.total_weight Examples.partial_defaultdict Examples.unit_weights m ->
               get macro m = Some (Spec.macro_average Examples.partial_defaultdict
                                                      Examples.unit_weights m) /\
               get micro m = Some (Spec.micro_average Examples.partial_defaultdict m)).
Proof.
  apply (first_subset_drives_inclusion float binary64_PyFloat
           Examples.partial_defaultdict Examples.unit_weights).
  - discriminate.
  - intros subset scores [E|[E|[]]]; injection E as <- <-;
      (split; [reflexivity|left; reflexivity]).
Defined.

(** C1 fails as stated: with plain dictionaries the combination raises
    [KeyError] for a model that the second subset does not score, and with
    [defaultdict(float)] mappings that model is reported in both averages. *)
Lemma partial_model_not_excluded :
  compute_macro_micro_averages Examples.partial_dict Examples.unit_weights
    = Raise (KeyError "m") /\
  exists macro micro,
    compute_macro_micro_averages Examples.partial_defaultdict Examples.unit_weights
      = Ok (macro, micro) /\
    contains (Spec.first_scores Examples.partial_defaultdict) "m" = true /\
    contains (mkdict [] (Some 0%float)) "m" = false /\
    get macro "m" = Some 1%float /\ get micro "m" = Some 0.5%float.
Proof.
  split; [vm_compute; reflexivity|].
  eexists; eexists. split; [vm_compute; reflexivity|].
  repeat split.
Qed.




(** C9 fails as stated: in binary64 arithmetic, with one subset of three
    items in which the model scores 0.1, the macro average is
    0.10000000000000002 and the micro average is 0.1. *)
Lemma single_subset_rounding :
  exists macro micro a b,
    compute_macro_micro_averages Examples.single_subset Examples.weight_3
      = Ok (macro, micro) /\
    keys macro = ["m"] /\ keys micro = ["m"] /\
    get macro "m" = Some a /\ get micro "m" = Some b /\
    a = 0x1.999999999999bp-4%float /\ b = 0x1.999999999999ap-4%float /\
    PrimFloat.eqb a b = false.
Proof.
  do 4 eexists. split; [vm_compute; reflexivity|].
  repeat split; vm_compute; reflexivity.
Qed.

(** C9, as the code has it.  With exactly one subset, a reported model has
    a score [acc] in it and the subset has a positive weight [w]; the micro
    average is [(0 + acc) / 1] and the macro average is
    [(0 + acc * w) / w].  In exact arithmetic both equal [acc], hence each
    other. *)
Theorem single_subset_averages :
  (forall (F : Type) (num : PyFloat F)
          (er : pydict (pydict F)) (totals : pydict Z)
          subset scores macro micro m a b,
      items er = [(subset, scores)] ->
      compute_macro_micro_averages er totals = Ok (macro, micro) ->
      get macro m = Some a -> get micro m = Some b ->
      exists acc w,
        get scores m = Some acc /\ subscript totals subset = Ok w /\ 0 < w /\
        a = fdiv (fadd (of_int 0) (fmul acc (of_int w))) (of_int w) /\
        b = fdiv (fadd (of_int 0) acc) (of_int 1)) /\
  (forall (er : pydict (pydict Q)) (totals : pydict Z)
          subset scores macro micro m a b,
      items er = [(subset, scores)] ->
      compute_macro_micro_averages er totals = Ok (macro, micro) ->
      get macro m = Some a -> get micro m = Some b ->
      exists acc,
        get scores m = Some acc /\ (a == acc)%Q /\ (b == acc)%Q /\ (a == b)%Q).
Proof.
  assert (Hgen : forall (F : Type) (num : PyFloat F)
          (er : pydict (pydict F)) (totals : pydict Z)
          subset scores macro micro m a b,
      items er = [(subset, scores)] ->
      compute_macro_micro_averages er totals = Ok (macro, micro) ->
      get macro m = Some a -> get micro m = Some b ->
      exists acc w,
        get scores m = Some acc /\ subscript totals subset = Ok w /\ 0 < w /\
        a = fdiv (fadd (of_int 0) (fmul acc (of_int w))) (of_int w) /\
        b = fdiv (fadd (of_int 0) acc) (of_int 1)).
  { intros F num er totals subset scores macro micro m a b Hit Hc Ha Hb.
    pose proof (compute_get er totals macro micro m Hc) as Hg.
    rewrite Ha, Hb in Hg.
    destruct (contains (Spec.first_scores er) m && (0 <? Spec.total_weight er totals m))
      eqn:Econd; [|discriminate].
    apply andb_prop in Econd as [Hfirst Hw]. apply Z.ltb_lt in Hw.
    unfold Spec.first_scores in Hfirst. rewrite Hit in Hfirst.
    injection Hg as -> ->.
    assert (Hs : Spec.scored er m = [(subset, scores)]).
    { unfold Spec.scored. rewrite Hit. simpl. now rewrite Hfirst. }
    destruct (proj1 (contains_true_get _ _) Hfirst) as [acc Hacc].
    unfold Spec.total_weight, Spec.sum_Z in Hw. rewrite Hs in Hw. simpl in Hw.
    destruct (subscript totals subset) as [w|e] eqn:Ew;
      [|unfold Spec.weight in Hw; rewrite Ew in Hw; lia].
    assert (Hweight : Spec.weight totals subset = w)
      by (unfold Spec.weight; now rewrite Ew).
    rewrite Hweight in Hw.
    exists acc, w. repeat split; try assumption.
    - unfold Spec.macro_average, Spec.total_weight, Spec.sum_F, Spec.sum_Z.
      rewrite Hs. simpl. rewrite Hweight.
      unfold Spec.accuracy. now rewrite Hacc.
    - unfold micro_looked_up, Spec.sum_F, values, len. rewrite Hit. simpl.
      rewrite (looked_up_scored _ _ Hfirst). unfold Spec.accuracy. now rewrite Hacc. }
  split; [exact Hgen|].
  intros er totals subset scores macro micro m a b Hit Hc Ha Hb.
  destruct (Hgen Q Q_PyFloat er totals subset scores macro micro m a b Hit Hc Ha Hb)
    as [acc [w [Hacc [_ [Hw [-> ->]]]]]].
  exists acc. split; [assumption|]. simpl.
  assert (Hnz : ~ (inject_Z w == 0)%Q).
  { unfold Qeq. simpl. lia. }
  assert (E1 : ((inject_Z 0 + acc * inject_Z w) / inject_Z w == acc)%Q) by (now field).
  assert (E2 : ((inject_Z 0 + acc) / inject_Z 1 == acc)%Q) by (now field).
  split; [exact E1|]. split; [exact E2|]. now rewrite E1, E2.
Qed.

Lemma single_subset_averages_witness :
  exists acc,
    get (mkdict [("m", 1 # 10)] (Some 0%Q)) "m" = Some acc /\
    ((3 # 30) == acc)%Q /\ ((1 # 10) == acc)%Q /\ ((3 # 30) == (1 # 10))%Q.
Proof.
  apply (proj2 single_subset_averages
               Examples.single_subset_exact Examples.weight_3
               "S" (mkdict [("m", 1 # 10)] (Some 0%Q))
               (mkdict [("m", 3 # 30)] None) (mkdict [("m", 1 # 10)] None) "m").
  - reflexivity.
  - vm_compute. reflexivity.
  - reflexivity.
  - reflexivity.
Defined.

End CombinerClaims.

(** * Guarded divisions *)

Section DivisionClaims.

Import ProcessResults ExtractResults.

(** C5 fails as stated: a model whose summed subset weight is 0 gets no
    entry in either average, where the claim has a defined 0. *)
Lemma zero_weight_model_omitted :
  exists macro micro,
    compute_macro_micro_averages Examples.single_subset Examples.weight_0
      = Ok (macro, micro) /\
    contains (Spec.first_scores Examples.single_subset) "m" = true /\
    Spec.total_weight Examples.single_subset Examples.weight_0 "m" = 0 /\
    get macro "m" = None /\ get micro "m" = None /\
    get macro "m" <> Some 0%float.
Proof.
  do 2 eexists. split; [vm_compute; reflexivity|].
  repeat split; discriminate.
Qed.

(** C5, as the code has it.  No aggregation raises a division by zero.  A
    question group with no record gets the ratio 0; a summed document count
    that is not positive gives the macro accuracy 0; a model whose summed
    subset weight is not positive gets no entry in either average. *)
Theorem divisions_are_guarded :
  forall (F : Type) (num : PyFloat F),
    (forall ids ratios id (group : list (record F)),
        total_count group = 0 ->
        exists ids',
          question_step (ids, ratios) (id, group) =
          Ok (ids', setitem ratios id (of_int 0))) /\
    (forall dataset : list (record F),
        exists ids ratios, get_all_correct_ids dataset = Ok (dataset, ids, ratios)) /\
    (forall (er : pydict (pydict F)) totals,
        compute_macro_micro_averages er totals <> Raise ZeroDivisionError) /\
    (forall (er : pydict (pydict F)) totals macro micro m,
        compute_macro_micro_averages er totals = Ok (macro, micro) ->
        Spec.total_weight er totals m <= 0 ->
        contains macro m = false /\ contains micro m = false) /\
    (forall data : document F,
        exists e,
          extract_results (Some data) = Ok (Extracted e) /\
          (total_docs data <= 0 -> macro_accuracy e = of_int 0)).
Proof.
  intros F num. repeat split.
  - intros ids ratios id group Hz. rewrite question_step_pure.
    unfold ratio. rewrite Hz. simpl. now eexists.
  - intros dataset. rewrite get_all_correct_ids_eq. now do 2 eexists.
  - intros er totals. apply compute_no_division.
  - pose proof (compute_get er totals macro micro m H) as Hg.
    destruct (Z.ltb_spec 0 (Spec.total_weight er totals m)); [lia|].
    rewrite andb_false_r in Hg. injection Hg as Hg _.
    now apply contains_false_get.
  - pose proof (compute_get er totals macro micro m H) as Hg.
    destruct (Z.ltb_spec 0 (Spec.total_weight er totals m)); [lia|].
    rewrite andb_false_r in Hg. injection Hg as _ Hg.
    now apply contains_false_get.
  - intros data. destruct (extract_results_eq data) as [e [He Hm]].
    exists e. split; [assumption|]. intros Hle. rewrite Hm.
    destruct (Z.ltb_spec 0 (total_docs data)); [lia|reflexivity].
Qed.

Lemma divisions_are_guarded_witness :
  (exists ids',
      question_step (F:=float) ([], empty_defaultdict 0%float) ("q", []) =
      Ok (ids', setitem (empty_defaultdict 0%float) "q" (of_int 0))) /\
  (contains (mkdict [] None : pydict float) "m" = false /\
   contains (mkdict [] None : pydict float) "m" = false) /\
  (exists e,
      extract_results (Some uncounted_document) = Ok (Extracted e) /\
      macro_accuracy e = 0%float).
Proof.
  pose proof (divisions_are_guarded float binary64_PyFloat) as [Hq [_ [_ [Hc He]]]].
  split; [|split].
  - apply Hq. reflexivity.
  - apply (Hc Examples.single_subset Examples.weight_0 _ _ "m").
    + vm_compute. reflexivity.
    + vm_compute. discriminate.
  - destruct (He uncounted_document) as [e [Hx Hz]].
    exists e. split; [exact Hx|]. apply Hz. vm_compute. discriminate.
Defined.

End DivisionClaims.

(** * Questions and models *)

Section SummationFacts.

Import ProcessResults.

(** The depth given by the length of the list is enough: a larger one
    changes nothing. *)
Lemma pairwise_sum_depth {F : Type} `{PyFloat F} (d1 : nat) :
  forall (d2 : nat) (a : list F),
    (List.length a <= d1)%nat -> (List.length a <= d2)%nat ->
    pairwise_sum d1 a = pairwise_sum d2 a.
Proof.
  induction d1 as [|d1 IH]; intros d2 a H1 H2.
  - destruct a; [|simpl in H1; lia]. destruct d2; reflexivity.
  - cbn [pairwise_sum]. destruct (128 <? List.length a)%nat eqn:E.
    + apply Nat.ltb_lt in E. destruct d2 as [|d2]; [lia|].
      cbn [pairwise_sum]. apply Nat.ltb_lt in E. rewrite E. apply Nat.ltb_lt in E.
      set (n2 := (List.length a / 2 - (List.length a / 2) mod 8)%nat).
      assert (Hn2 : (0 < n2 < List.length a)%nat).
      { unfold n2.
        pose proof (Nat.div_mod_eq (List.length a) 2).
        pose proof (Nat.mod_upper_bound (List.length a) 2).
        pose proof (Nat.div_mod_eq (List.length a / 2) 8).
        pose proof (Nat.mod_upper_bound (List.length a / 2) 8).
        lia. }
      f_equal; apply IH.
      * rewrite length_firstn. lia.
      * rewrite length_firstn. lia.
      * rewrite length_skipn. lia.
      * rewrite length_skipn. lia.
    + destruct d2 as [|d2]; [reflexivity|]. cbn [pairwise_sum]. now rewrite E.
Qed.

Open Scope Q_scope.

Lemma fold_sum_acc (l : list Q) (a : Q) :
  fold_left Qplus l a == a + fold_left Qplus l 0.
Proof.
  revert a. induction l as [|x l IH]; intros a; cbn [fold_left].
  - now rewrite Qplus_0_r.
  - rewrite IH, (IH (0 + x)). ring.
Qed.

Lemma fold_sum_app (l1 l2 : list Q) :
  fold_left Qplus (l1 ++ l2) 0 == fold_left Qplus l1 0 + fold_left Qplus l2 0.
Proof. rewrite fold_left_app. apply fold_sum_acc. Qed.

Lemma notna_exact (x : Q) : notna x = true.
Proof. unfold notna. cbn [fleb Q_PyFloat]. apply Qle_bool_iff, Qle_refl. Qed.

Lemma fillna_exact (l : list Q) : fillna l = l.
Proof.
  unfold fillna. induction l as [|x l IH]; [reflexivity|].
  cbn [map]. now rewrite notna_exact, IH.
Qed.

Lemma filter_notna_exact (l : list Q) : filter notna l = l.
Proof.
  induction l as [|x l IH]; [reflexivity|].
  cbn [filter]. now rewrite notna_exact, IH.
Qed.

Lemma add_lanes_exact (n : nat) :
  forall (a : list Q) r0 r1 r2 r3 r4 r5 r6 r7,
    (List.length a <= n)%nat ->
    let '((s0, s1, s2, s3, s4, s5, s6, s7), rest) :=
      add_lanes (r0, r1, r2, r3, r4, r5, r6, r7) a in
    fold_left Qplus rest (((s0 + s1) + (s2 + s3)) + ((s4 + s5) + (s6 + s7)))
    == (((r0 + r1) + (r2 + r3)) + ((r4 + r5) + (r6 + r7))) + fold_left Qplus a 0.
Proof.
  induction n as [|n IH]; intros a r0 r1 r2 r3 r4 r5 r6 r7 Hlen.
  - destruct a; [|simpl in Hlen; lia]. cbn. ring.
  - destruct a as [|x0 [|x1 [|x2 [|x3 [|x4 [|x5 [|x6 [|x7 a']]]]]]]];
      try (cbn [add_lanes]; apply fold_sum_acc).
    cbn [add_lanes fadd Q_PyFloat].
    specialize (IH a' (r0 + x0) (r1 + x1) (r2 + x2) (r3 + x3)
                      (r4 + x4) (r5 + x5) (r6 + x6) (r7 + x7)).
    destruct (add_lanes (r0 + x0, r1 + x1, r2 + x2, r3 + x3,
                         r4 + x4, r5 + x5, r6 + x6, r7 + x7) a')
      as [[[[[[[[s0 s1] s2] s3] s4] s5] s6] s7] rest].
    rewrite IH by (cbn [List.length] in Hlen; lia).
    cbn [fold_left].
    rewrite (fold_sum_acc a' (0 + x0 + x1 + x2 + x3 + x4 + x5 + x6 + x7)). ring.
Qed.

Lemma block_sum_exact (a : list Q) : block_sum a == fold_left Qplus a 0.
Proof.
  destruct a as [|x0 [|x1 [|x2 [|x3 [|x4 [|x5 [|x6 [|x7 a']]]]]]]];
    try reflexivity.
  cbn [block_sum].
  pose proof (add_lanes_exact (List.length a') a' x0 x1 x2 x3 x4 x5 x6 x7 (le_n _))
    as Hl.
  destruct (add_lanes (x0, x1, x2, x3, x4, x5, x6, x7) a')
    as [[[[[[[[s0 s1] s2] s3] s4] s5] s6] s7] rest].
  cbn [fadd Q_PyFloat]. rewrite Hl. cbn [fold_left].
  rewrite (fold_sum_acc a' (0 + x0 + x1 + x2 + x3 + x4 + x5 + x6 + x7)). ring.
Qed.

Lemma pairwise_sum_exact (d : nat) (a : list Q) :
  pairwise_sum d a == fold_left Qplus a 0.
Proof.
  revert a. induction d as [|d IH]; intros a; cbn [pairwise_sum];
    [apply block_sum_exact|].
  destruct (128 <? List.length a)%nat; [|apply block_sum_exact].
  cbn [fadd Q_PyFloat]. rewrite !IH, <- fold_sum_app. now rewrite firstn_skipn.
Qed.

(** In exact arithmetic [Series.sum()] is the sum and [Series.mean()] the
    sum over the number of values. *)
Lemma series_sum_exact (l : list Q) : series_sum l == fold_left Qplus l 0.
Proof. unfold series_sum. rewrite fillna_exact. apply pairwise_sum_exact. Qed.

Lemma series_mean_exact (l : list Q) :
  series_mean l == fold_left Qplus l 0 / inject_Z (Z.of_nat (List.length l)).
Proof.
  unfold series_mean. rewrite filter_notna_exact. cbn [fdiv of_int Q_PyFloat].
  now rewrite series_sum_exact.
Qed.

End SummationFacts.

Section ExactArithmetic.

Import ProcessResults.

Open Scope Q_scope.

Lemma sum_bounds (l : list Q) (a : Q) :
  (forall x, In x l -> 0 <= x <= 1) ->
  a <= fold_left Qplus l a <= a + inject_Z (Z.of_nat (List.length l)).
Proof.
  revert a. induction l as [|x l IH]; intros a Hl.
  - simpl. split; [apply Qle_refl|]. rewrite Qplus_0_r. apply Qle_refl.
  - destruct (Hl x (or_introl eq_refl)) as [H0 H1].
    destruct (IH (a + x) (fun y Hy => Hl y (or_intror Hy))) as [Hlo Hhi].
    cbn [fold_left List.length]. split.
    + apply Qle_trans with (a + x); [|assumption].
      rewrite <- (Qplus_0_r a) at 1. apply Qplus_le_r. assumption.
    + apply Qle_trans with (a + x + inject_Z (Z.of_nat (List.length l)));
        [assumption|].
      rewrite Nat2Z.inj_succ. unfold Z.succ. rewrite inject_Z_plus.
      rewrite <- Qplus_assoc. apply Qplus_le_r.
      rewrite (Qplus_comm (inject_Z _) (inject_Z 1)). apply Qplus_le_l. assumption.
Qed.

Lemma correct_count_bounds (group : list (record Q)) :
  (forall r, In r group -> 0 <= metrics_acc_norm r <= 1) ->
  0 <= correct_count group <= inject_Z (total_count group).
Proof.
  intros Hg. unfold correct_count, total_count. rewrite series_sum_exact.
  destruct (sum_bounds (map metrics_acc_norm group) 0) as [Hlo Hhi].
  - intros x Hx. apply in_map_iff in Hx as [r [<- Hr]]. now apply Hg.
  - rewrite length_map in Hhi. split; [exact Hlo|].
    rewrite Qplus_0_l in Hhi. exact Hhi.
Qed.

End ExactArithmetic.

Section QuestionClaims.

Import ProcessResults.

Lemma exact_sum_fold (l : list Q) : (fold_left Qplus l 0 == exact_sum l)%Q.
Proof.
  induction l as [|x l IH]; [reflexivity|].
  cbn [fold_left exact_sum fold_right]. rewrite fold_sum_acc.
  fold (exact_sum l). rewrite IH. ring.
Qed.






End QuestionClaims.

Section AccuracyClaims.

Import ProcessResults.

(** C6.  A model without a retained record is not a key of the mapping
    that [calculate_models_accuracy] returns; a model with a retained record
    is mapped to what [Series.mean()] gives on the scores of its retained
    records.  In exact arithmetic this value is their mean, the sum of the
    scores over their number; in binary64 ten scores of 0.1 are mapped to
    0.1, and the scores 1, 1, 0 to the binary64 number nearest to 2/3. *)
Theorem accuracy_of_retained :
  (forall (F : Type) (num : PyFloat F)
          (dataset : list (record F)) (filtered_ids : option (list string))
          (m : string),
      let kept := retained dataset filtered_ids in
      let scores := calculate_models_accuracy dataset filtered_ids in
      (forall r, In r kept <->
                 In r dataset /\
                 match filtered_ids with
                 | Some ids => ~ In (specifics_id r) ids
                 | None => True
                 end) /\
      ((forall r, In r kept -> model_name r <> m) ->
       contains scores m = false /\ ~ In m (keys scores)) /\
      ((exists r, In r kept /\ model_name r = m) ->
       model_group kept m <> [] /\
       get scores m = Some (series_mean (map metrics_acc_norm (model_group kept m))))) /\
  (forall (dataset : list (record Q)) (filtered_ids : option (list string))
          (m : string) (a : Q),
      get (calculate_models_accuracy dataset filtered_ids) m = Some a ->
      (a == exact_mean (map metrics_acc_norm
                            (model_group (retained dataset filtered_ids) m)))%Q) /\
  get (calculate_models_accuracy ten_tenths None) "x" = Some Examples.one_tenth /\
  get (calculate_models_accuracy
         [mkrecord "1" "x" 1%float; mkrecord "2" "x" 1%float;
          mkrecord "3" "x" 0%float; mkrecord "3" "y" 1%float] (Some ["3"])) "x"
    = Some 1%float /\
  calculate_models_accuracy
    [mkrecord "1" "x" 1%float; mkrecord "2" "x" 1%float; mkrecord "3" "x" 0%float] None
    = mkdict [("x", 0x1.5555555555555p-1%float)] (Some 0%float).
Proof.
  split; [|split; [|split; [|split]]]; try (vm_compute; reflexivity).
  - intros F num dataset filtered_ids m kept scores.
    pose proof (calculate_models_accuracy_get dataset filtered_ids m) as Hget.
    cbv zeta in Hget. fold kept scores in Hget.
    split; [|split].
    + intros r. unfold kept, retained. destruct filtered_ids as [ids|]; [|tauto].
      rewrite filter_In, negb_true_iff.
      assert (Hex : existsb (String.eqb (specifics_id r)) ids = false
                    <-> ~ In (specifics_id r) ids).
      { rewrite <- not_true_iff_false, existsb_exists. split.
        - intros Hn Hin. apply Hn. exists (specifics_id r). split; [assumption|].
          apply String.eqb_refl.
        - intros Hn [x [Hin He]]. apply String.eqb_eq in He. now subst x. }
      now rewrite Hex.
    + intros Hnone.
      destruct (in_dec string_dec m (map model_name kept)) as [Hin|Hnin].
      * apply in_map_iff in Hin as [r [Hr Hin]]. now elim (Hnone r Hin).
      * apply contains_false_get in Hget. split; [assumption|].
        intros Hk. apply contains_keys in Hk. congruence.
    + intros [r [Hin Hr]].
      assert (Hg : In r (model_group kept m)).
      { apply filter_In. split; [assumption|]. now apply String.eqb_eq. }
      split; [intros E; now rewrite E in Hg|].
      destruct (in_dec string_dec m (map model_name kept)) as [_|Hnin];
        [exact Hget|].
      elim Hnin. apply in_map_iff. now exists r.
  - intros dataset filtered_ids m a Ha.
    rewrite calculate_models_accuracy_get in Ha.
    destruct (in_dec string_dec m (map model_name (retained dataset filtered_ids)));
      [|discriminate].
    assert (E : a = series_mean (map metrics_acc_norm
                      (model_group (retained dataset filtered_ids) m)))
      by congruence.
    rewrite E. eapply Qeq_trans; [apply series_mean_exact|].
    unfold exact_mean. now rewrite exact_sum_fold.
Qed.

Lemma accuracy_of_retained_witness :
  (contains (calculate_models_accuracy
               [mkrecord "1" "x" 1%Q; mkrecord "2" "y" 0%Q] (Some ["1"])) "x" = false /\
   ~ In "x" (keys (calculate_models_accuracy
               [mkrecord "1" "x" 1%Q; mkrecord "2" "y" 0%Q] (Some ["1"])))) /\
  (model_group (retained [mkrecord "1" "x" 1%Q; mkrecord "2" "y" 0%Q] (Some ["1"])) "y"
     <> [] /\
   get (calculate_models_accuracy
          [mkrecord "1" "x" 1%Q; mkrecord "2" "y" 0%Q] (Some ["1"])) "y" =
   Some (series_mean (map metrics_acc_norm
           (model_group (retained [mkrecord "1" "x" 1%Q; mkrecord "2" "y" 0%Q]
                                  (Some ["1"])) "y")))) /\
  ((1 # 2) == exact_mean (map metrics_acc_norm
                (model_group (retained scenario None) "y")))%Q.
Proof.
  split; [|split].
  - apply (proj1 (proj2 (proj1 accuracy_of_retained Q Q_PyFloat
                    [mkrecord "1" "x" 1%Q; mkrecord "2" "y" 0%Q] (Some ["1"]) "x"))).
    intros r [<-|[]]. discriminate.
  - apply (proj2 (proj2 (proj1 accuracy_of_retained Q Q_PyFloat
                    [mkrecord "1" "x" 1%Q; mkrecord "2" "y" 0%Q] (Some ["1"]) "y"))).
    exists (mkrecord "2" "y" 0%Q). split; [now left|reflexivity].
  - apply (proj1 (proj2 accuracy_of_retained) scenario None "y").
    vm_compute. reflexivity.
Defined.

(** C10.  The mapping that [calculate_models_accuracy] returns is a
    [defaultdict] whose default is 0.0: indexing it at a model that is not a
    key returns 0.0 (and stores it) instead of raising [KeyError], which is
    also what indexing returns for a model whose score is 0.0. *)
Theorem absent_model_reads_zero :
  forall (F : Type) (num : PyFloat F)
         (dataset : list (record F)) (filtered_ids : option (list string))
         (m : string),
    let scores := calculate_models_accuracy dataset filtered_ids in
    contains scores m = false ->
    default_factory scores = Some (of_int 0) /\
    getitem scores m = Ok (of_int 0, setitem scores m (of_int 0)) /\
    subscript scores m = Ok (of_int 0) /\
    (forall m0, get scores m0 = Some (of_int 0) ->
                subscript scores m0 = subscript scores m).
Proof.
  intros F num dataset filtered_ids m scores Hc.
  pose proof (calculate_models_accuracy_default dataset filtered_ids) as Hd.
  fold scores in Hd. apply contains_false_get in Hc.
  split; [assumption|].
  assert (Hs : subscript scores m = Ok (of_int 0))
    by (now apply subscript_default).
  split; [|split; [assumption|]].
  - unfold getitem. now rewrite Hc, Hd.
  - intros m0 Hm0. rewrite Hs. now apply subscript_get.
Qed.

Lemma absent_model_reads_zero_witness :
  default_factory (calculate_models_accuracy
                     [mkrecord "1" "x" 1%float; mkrecord "2" "y" 0%float] (Some ["1"]))
    = Some 0%float /\
  getitem (calculate_models_accuracy
             [mkrecord "1" "x" 1%float; mkrecord "2" "y" 0%float] (Some ["1"])) "x"
    = Ok (0%float,
          setitem (calculate_models_accuracy
                     [mkrecord "1" "x" 1%float; mkrecord "2" "y" 0%float] (Some ["1"]))
                  "x" 0%float) /\
  subscript (calculate_models_accuracy
               [mkrecord "1" "x" 1%float; mkrecord "2" "y" 0%float] (Some ["1"])) "x"
    = Ok 0%float /\
  (forall m0,
      get (calculate_models_accuracy
             [mkrecord "1" "x" 1%float; mkrecord "2" "y" 0%float] (Some ["1"])) m0
        = Some 0%float ->
      subscript (calculate_models_accuracy
                   [mkrecord "1" "x" 1%float; mkrecord "2" "y" 0%float] (Some ["1"])) m0
      = subscript (calculate_models_accuracy
                     [mkrecord "1" "x" 1%float; mkrecord "2" "y" 0%float] (Some ["1"])) "x").
Proof.
  apply (absent_model_reads_zero float binary64_PyFloat
           [mkrecord "1" "x" 1%float; mkrecord "2" "y" 0%float] (Some ["1"]) "x").
  vm_compute. reflexivity.
Defined.

End AccuracyClaims.

(** * Facts about strings *)

Section StringFacts.

Lemma str_in_char c s : PyStr.str_in (String c EmptyString) s = occurs c s.
Proof.
  induction s as [|c' s IH]; [reflexivity|].
  cbn [PyStr.str_in occurs String.prefix]. rewrite IH.
  destruct (ascii_dec c c') as [->|Hne].
  - rewrite Ascii.eqb_refl. now destruct s.
  - assert (E : Ascii.eqb c' c = false) by (apply Ascii.eqb_neq; congruence).
    now rewrite E.
Qed.

Lemma split_nonempty sep s : PyStr.split sep s <> [].
Proof.
  destruct s as [|c s]; simpl; [discriminate|].
  destruct (Ascii.eqb c sep); [discriminate|].
  destruct (PyStr.split sep s); discriminate.
Qed.

Lemma split_nosep sep s : occurs sep s = false -> PyStr.split sep s = [s].
Proof.
  induction s as [|c s IH]; simpl; [reflexivity|].
  intros Ho. apply orb_false_elim in Ho as [Hc Hs].
  rewrite Hc, (IH Hs). reflexivity.
Qed.

Lemma split_app sep a b :
  occurs sep a = false ->
  PyStr.split sep (a ++ String sep b) = a :: PyStr.split sep b.
Proof.
  induction a as [|c a IH]; simpl.
  - intros _. now rewrite Ascii.eqb_refl.
  - intros Ho. apply orb_false_elim in Ho as [Hc Ha].
    rewrite Hc, (IH Ha). reflexivity.
Qed.

(** The first part of a split holds no separator. *)
Lemma split_head sep s :
  exists tok rest, PyStr.split sep s = tok :: rest /\ occurs sep tok = false.
Proof.
  induction s as [|c s [tok [rest [IH Ho]]]]; simpl.
  - now exists EmptyString, [].
  - destruct (Ascii.eqb c sep) eqn:Ec.
    + now exists EmptyString, (PyStr.split sep s).
    + rewrite IH. exists (String c tok), rest. split; [reflexivity|].
      simpl. now rewrite Ec.
Qed.

Lemma split_two sep a b :
  exists w w' ws, PyStr.split sep (a ++ String sep b) = w :: w' :: ws.
Proof.
  induction a as [|c a [w [w' [ws IH]]]]; simpl.
  - rewrite Ascii.eqb_refl.
    destruct (PyStr.split sep b) as [|w' ws] eqn:E; [now elim (split_nonempty sep b)|].
    now exists EmptyString, w', ws.
  - destruct (Ascii.eqb c sep).
    + rewrite IH. now exists EmptyString, w, (w' :: ws).
    + rewrite IH. now exists (String c w), w', ws.
Qed.

Lemma index_last_cons {A : Type} (x y : A) l :
  PyStr.index_last (x :: y :: l) = PyStr.index_last (y :: l).
Proof.
  unfold PyStr.index_last. cbn [rev].
  destruct (rev l ++ [y]) as [|z l'] eqn:E.
  - now destruct (rev l).
  - reflexivity.
Qed.

(** The last part of a split holds no separator, and the string is that
    part after a separator as soon as the string holds one. *)
Lemma split_last sep s :
  exists last,
    PyStr.index_last (PyStr.split sep s) = Ok last /\
    occurs sep last = false /\
    (if occurs sep s
     then exists pre, s = (pre ++ String sep last)%string
     else last = s).
Proof.
  induction s as [|c s [last [IH [Ho Hs]]]].
  - exists EmptyString. repeat split.
  - cbn [PyStr.split occurs]. destruct (Ascii.eqb c sep) eqn:Ec.
    + apply Ascii.eqb_eq in Ec. subst c. exists last. cbn [orb].
      destruct (PyStr.split sep s) as [|w ws] eqn:Es;
        [now elim (split_nonempty sep s)|].
      rewrite index_last_cons. split; [assumption|]. split; [assumption|].
      destruct (occurs sep s).
      * destruct Hs as [pre ->]. now exists (String sep pre).
      * subst last. now exists EmptyString.
    + cbn [orb].
      destruct (PyStr.split sep s) as [|w ws] eqn:Es;
        [now elim (split_nonempty sep s)|].
      destruct ws as [|w' ws].
      * (* no separator in [s] *)
        assert (last = w) by (cbv in IH; congruence). subst w.
        destruct (occurs sep s) eqn:Eo.
        -- exfalso. destruct Hs as [pre ->].
           destruct (split_two sep pre last) as [u [u' [us Hu]]]. congruence.
        -- subst last. exists (String c s). repeat split.
           simpl. now rewrite Ec, Eo.
      * rewrite index_last_cons in IH. exists last.
        rewrite index_last_cons. split; [assumption|]. split; [assumption|].
        destruct (occurs sep s) eqn:Eo.
        -- destruct Hs as [pre ->]. now exists (String c pre).
        -- rewrite (split_nosep _ _ Eo) in Es. discriminate.
Qed.

End StringFacts.

(** * Result-file names *)

Section FileNameClaims.

Import CombineDetails.

Lemma prefix_occurs c p s :
  String.prefix p s = true -> occurs c p = true -> occurs c s = true.
Proof.
  revert s. induction p as [|a p IH]; intros s Hp Ho; [discriminate|].
  destruct s as [|b s]; [discriminate|]. simpl in Hp.
  destruct (ascii_dec a b) as [->|]; [|discriminate].
  simpl in Ho |- *. destruct (Ascii.eqb b c); [reflexivity|].
  simpl in Ho |- *. now apply IH.
Qed.

(** C4 fails as stated: the fallback path maps
    [task_b_2025-01-01T00-00-00.parquet] to ["task"], not to ["task_b"]. *)
Lemma fallback_stops_at_first_underscore :
  PyStr.split "|" "task_b_2025-01-01T00-00-00.parquet"
    = ["task_b_2025-01-01T00-00-00.parquet"] /\
  PyStr.split "_" "task_b_2025-01-01T00-00-00.parquet"
    = ["task"; "b"; "2025-01-01T00-00-00.parquet"] /\
  eval_name_of_filename "task_b_2025-01-01T00-00-00.parquet" = Ok "task" /\
  eval_name_of_filename "task_b_2025-01-01T00-00-00.parquet" <> Ok "task_b".
Proof.
  repeat split; try (vm_compute; reflexivity).
  vm_compute. discriminate.
Qed.

(** C4, as the code has it.  A name with a ['|'] resolves to the text
    between its first ['|'] and the next one (or the end of the name); a
    name without ['|'] that does not begin with [details_] resolves to its
    first ['_']-delimited token, and to itself when it has no ['_'].  So
    [details_community|task_a:sub|0_2025-01-01T00-00-00.parquet] resolves to
    ["task_a:sub"] and [task_b_2025-01-01T00-00-00.parquet] to ["task"]. *)
Theorem eval_name_extraction :
  eval_name_of_filename "details_community|task_a:sub|0_2025-01-01T00-00-00.parquet"
    = Ok "task_a:sub" /\
  eval_name_of_filename "task_b_2025-01-01T00-00-00.parquet" = Ok "task" /\
  (forall pre mid rest : string,
      occurs "|" pre = false -> occurs "|" mid = false ->
      eval_name_of_filename (pre ++ "|" ++ mid ++ "|" ++ rest) = Ok mid /\
      eval_name_of_filename (pre ++ "|" ++ mid) = Ok mid) /\
  (forall tok rest : string,
      occurs "|" (tok ++ "_" ++ rest) = false -> occurs "_" tok = false ->
      PyStr.startswith (tok ++ "_" ++ rest) "details_" = false ->
      eval_name_of_filename (tok ++ "_" ++ rest) = Ok tok) /\
  (forall filename : string,
      occurs "|" filename = false -> occurs "_" filename = false ->
      eval_name_of_filename filename = Ok filename).
Proof.
  split; [vm_compute; reflexivity|]. split; [vm_compute; reflexivity|].
  assert (Hstrip : forall tok, occurs "_" tok = false ->
                               PyStr.startswith tok "details_" = false).
  { intros tok Ho. unfold PyStr.startswith.
    destruct (String.prefix "details_" tok) eqn:Ep; [|reflexivity].
    rewrite (prefix_occurs "_" _ _ Ep) in Ho; [discriminate|reflexivity]. }
  split; [|split].
  - intros pre mid rest Hpre Hmid. unfold eval_name_of_filename. split.
    + change (pre ++ "|" ++ mid ++ "|" ++ rest)%string
        with (pre ++ String "|" (mid ++ String "|" rest))%string.
      rewrite (split_app _ _ _ Hpre), (split_app _ _ _ Hmid).
      cbn [List.length Nat.leb PyStr.index nth_error bind].
      now rewrite (split_nosep _ _ Hmid).
    + change (pre ++ "|" ++ mid)%string with (pre ++ String "|" mid)%string.
      rewrite (split_app _ _ _ Hpre), (split_nosep _ _ Hmid).
      cbn [List.length Nat.leb PyStr.index nth_error bind].
      now rewrite (split_nosep _ _ Hmid).
  - intros tok rest Hbar Htok _. unfold eval_name_of_filename.
    rewrite (split_nosep _ _ Hbar). cbn [List.length Nat.leb].
    change (tok ++ "_" ++ rest)%string with (tok ++ String "_" rest)%string.
    rewrite (split_app _ _ _ Htok). cbn [PyStr.index nth_error bind].
    now rewrite (Hstrip tok Htok).
  - intros filename Hbar Hu. unfold eval_name_of_filename.
    rewrite (split_nosep _ _ Hbar), (split_nosep _ _ Hu).
    cbn [List.length Nat.leb PyStr.index nth_error bind].
    now rewrite (Hstrip filename Hu).
Qed.

Lemma eval_name_extraction_witness :
  (eval_name_of_filename ("details_community" ++ "|" ++ "task_a:sub" ++ "|" ++ "0.parquet")
     = Ok "task_a:sub" /\
   eval_name_of_filename ("details_community" ++ "|" ++ "task_a:sub") = Ok "task_a:sub") /\
  eval_name_of_filename ("task" ++ "_" ++ "b_2025.parquet") = Ok "task" /\
  eval_name_of_filename "results.parquet" = Ok "results.parquet".
Proof.
  destruct eval_name_extraction as [_ [_ [Hbar [Htok Hnone]]]].
  split; [|split].
  - apply Hbar; reflexivity.
  - apply Htok; reflexivity.
  - apply Hnone; reflexivity.
Defined.

End FileNameClaims.

(** * Facts about the [io] loops and the second pass *)

Section IOFacts.

Context {D : Type}.

Lemma io_for_each_app {A : Type} (body : A -> io D unit) l1 l2 (w : world D) :
  io_for_each body (l1 ++ l2) w =
  match io_for_each body l1 w with
  | (w', Ok _) => io_for_each body l2 w'
  | (w', Raise e) => (w', Raise e)
  end.
Proof.
  revert w. induction l1 as [|a l1 IH]; intros w; [reflexivity|].
  cbn [app io_for_each]. unfold io_bind.
  destruct (body a w) as [w' [[]|e]]; [apply IH|reflexivity].
Qed.

(** A loop whose body always returns runs to the end. *)
Lemma io_for_each_total {A : Type} (body : A -> io D unit) l (w : world D) :
  (forall a w, exists w', body a w = (w', Ok tt)) ->
  exists w', io_for_each body l w = (w', Ok tt).
Proof.
  intros Hb. revert w. induction l as [|a l IH]; intros w.
  - now exists w.
  - cbn [io_for_each]. unfold io_bind. destruct (Hb a w) as [w' ->]. apply IH.
Qed.

End IOFacts.

Section SecondPassFacts.

Import CombineDetails.

Context {C : Type}.

Variable fs : input_fs C.
Variable env : os_env.

Implicit Types (df : dataframe C) (w : world (dataframe C)) (info : file_info).

Lemma read_file_world p w : fst (read_file fs p w) = w.
Proof. unfold read_file. now destruct (assoc p (files w)). Qed.

Lemma timestamp_of_returns t :
  exists ts,
    timestamp_of t = Ok ts /\
    if PyStr.str_in "_" t
    then (exists pre, t = (pre ++ "_" ++ ts)%string) /\ PyStr.str_in "_" ts = false
    else ts = t.
Proof.
  unfold timestamp_of. rewrite (str_in_char "_" t).
  destruct (split_last "_" t) as [last [Hl [Ho Hs]]].
  destruct (occurs "_" t).
  - exists last. split; [assumption|]. split; [assumption|].
    now rewrite (str_in_char "_" last).
  - now exists t.
Qed.

Lemma nrows_set_column df name v : nrows (set_column df name v) = nrows df.
Proof. reflexivity. Qed.

Lemma cell_at_set_column df name v i :
  (i < nrows df)%nat -> cell_at (set_column df name v) name i = Some v.
Proof.
  intros Hi. unfold cell_at, set_column. cbn [columns].
  rewrite assoc_set_same. now apply nth_error_repeat.
Qed.

Lemma cell_at_set_column_other df name name' v i :
  name' <> name -> cell_at (set_column df name v) name' i = cell_at df name' i.
Proof.
  intros Hne. unfold cell_at, set_column. cbn [columns].
  now rewrite assoc_set_other.
Qed.

Lemma organize_file_success eval_name eval_dir info w df ts :
  snd (read_file fs (path info) w) = Ok df ->
  timestamp_of (evaluation_time info) = Ok ts ->
  open_ok env (output_path eval_dir info) = true ->
  organize_file fs env eval_name eval_dir info w =
  (mkworld (assoc_set (output_path eval_dir info)
                      (with_metadata eval_name info ts df) (files w))
           (stdout w),
   Ok tt).
Proof.
  intros Hr Ht Ho. unfold organize_file, try_except, io_bind.
  pose proof (read_file_world (path info) w) as Hw.
  destruct (read_file fs (path info) w) as [w0 r]. simpl in Hr, Hw. subst w0 r.
  rewrite Ht. unfold io_lift, write_file.
  fold (output_path eval_dir info). now rewrite Ho.
Qed.

Lemma organize_file_failure eval_name eval_dir info w e :
  processing_fails fs env eval_dir info w e ->
  organize_file fs env eval_name eval_dir info w =
  (mkworld (files w) (stdout w ++ [ErrorProcessingFile (path info) e]), Ok tt).
Proof.
  intros Hf. unfold organize_file, try_except, io_bind.
  unfold processing_fails in Hf.
  pose proof (read_file_world (path info) w) as Hw.
  destruct (read_file fs (path info) w) as [w0 r]. simpl in Hw. subst w0.
  destruct Hf as [Hr|[[df Hr] [Ho ->]]]; simpl in Hr; subst r.
  - reflexivity.
  - destruct (timestamp_of_returns (evaluation_time info)) as [ts [-> _]].
    unfold io_lift, write_file. fold (output_path eval_dir info).
    now rewrite Ho.
Qed.

Lemma organize_file_returns eval_name eval_dir info w :
  exists w', organize_file fs env eval_name eval_dir info w = (w', Ok tt).
Proof.
  destruct (snd (read_file fs (path info) w)) as [df|e] eqn:Hr.
  - destruct (timestamp_of_returns (evaluation_time info)) as [ts [Ht _]].
    destruct (open_ok env (output_path eval_dir info)) eqn:Ho.
    + eexists. apply (organize_file_success _ _ _ _ df ts); assumption.
    + eexists. apply (organize_file_failure _ _ _ _ (OSError (output_path eval_dir info))).
      right. split; [now exists df|]. split; [assumption|reflexivity].
  - eexists. apply (organize_file_failure _ _ _ _ e). left. exact Hr.
Qed.

End SecondPassFacts.

(** * Writing the results *)

Section WriterClaims.

Import ProcessResults CombineDetails.

Lemma save_loop {D : Type} env output_dir (sets rest : list (string * D)) w :
  (forall k d, In (k, d) sets -> open_ok env (artifact output_dir k) = true) ->
  io_for_each
    (fun '(filename, data) =>
       write_file env (PyStr.path_join output_dir (filename ++ ".json")%string) data)
    (sets ++ rest) w =
  io_for_each
    (fun '(filename, data) =>
       write_file env (PyStr.path_join output_dir (filename ++ ".json")%string) data)
    rest (mkworld (written output_dir sets (files w)) (stdout w)).
Proof.
  revert w. induction sets as [|[k d] sets IH]; intros w Hok.
  - now destruct w.
  - cbn [app io_for_each]. unfold io_bind at 1. unfold write_file at 1.
    fold (artifact output_dir k). rewrite (Hok k d) by now left.
    rewrite IH; [reflexivity|]. intros k' d' Hin. apply (Hok k' d'). now right.
Qed.

(** C7 fails as stated for [save_results]: when the first file cannot be
    opened, the second result-set is not written although its file could
    be. *)
Lemma later_artifacts_not_written :
  save_results first_write_fails "out" two_artifacts (mkworld [] [])
    = (mkworld [] [], Raise (OSError "out/a.json")) /\
  open_ok first_write_fails (artifact "out" "b") = true /\
  assoc (artifact "out" "b")
        (files (fst (save_results first_write_fails "out" two_artifacts
                                  (mkworld [] [])))) = None.
Proof. repeat split. Qed.

(** C7, as the code has it.  [save_results] writes the result-sets in the
    order of the mapping; when all files can be opened all are written; at
    the first file that cannot be opened the exception is raised, the
    result-sets before it are written and those after it are not.  In the
    second pass of [combine_results_memory_efficient] every file is
    processed in its own [try]: the loop always runs to the end, and a file
    that fails adds an error report and leaves the files as they are, after
    which the remaining files are processed. *)
Theorem write_failures :
  (forall (D : Type) env output_dir (results : pydict D) w,
      makedirs_ok env output_dir = true ->
      (forall k d, In (k, d) (items results) ->
                   open_ok env (artifact output_dir k) = true) ->
      save_results env output_dir results w =
      (mkworld (written output_dir (items results) (files w)) (stdout w), Ok tt)) /\
  (forall (D : Type) env output_dir (results : pydict D) w before k d after,
      makedirs_ok env output_dir = true ->
      items results = before ++ (k, d) :: after ->
      (forall k' d', In (k', d') before ->
                     open_ok env (artifact output_dir k') = true) ->
      open_ok env (artifact output_dir k) = false ->
      save_results env output_dir results w =
      (mkworld (written output_dir before (files w)) (stdout w),
       Raise (OSError (artifact output_dir k)))) /\
  (forall (C : Type) (fs : input_fs C) env eval_name eval_dir infos w,
      exists w',
        io_for_each (organize_file fs env eval_name eval_dir) infos w = (w', Ok tt)) /\
  (forall (C : Type) (fs : input_fs C) env eval_name eval_dir l1 bad l2 w w1 e,
      io_for_each (organize_file fs env eval_name eval_dir) l1 w = (w1, Ok tt) ->
      processing_fails fs env eval_dir bad w1 e ->
      io_for_each (organize_file fs env eval_name eval_dir) (l1 ++ bad :: l2) w =
      io_for_each (organize_file fs env eval_name eval_dir) l2
        (mkworld (files w1) (stdout w1 ++ [ErrorProcessingFile (path bad) e]))).
Proof.
  split; [|split; [|split]].
  - intros D env output_dir results w Hmk Hok.
    unfold save_results, io_bind, makedirs. rewrite Hmk.
    rewrite <- (app_nil_r (items results)) at 1.
    now rewrite save_loop.
  - intros D env output_dir results w before k d after Hmk Hit Hok Hfail.
    unfold save_results, io_bind, makedirs. rewrite Hmk, Hit.
    rewrite save_loop by assumption.
    cbn [io_for_each]. unfold io_bind, write_file.
    fold (artifact output_dir k). now rewrite Hfail.
  - intros C fs env eval_name eval_dir infos w.
    apply io_for_each_total. intros info w0. apply organize_file_returns.
  - intros C fs env eval_name eval_dir l1 bad l2 w w1 e Hl1 Hf.
    rewrite io_for_each_app, Hl1. cbn [io_for_each]. unfold io_bind at 1.
    now rewrite (organize_file_failure fs env eval_name eval_dir bad w1 e Hf).
Qed.

Lemma write_failures_witness :
  save_results permissive "out" two_artifacts (mkworld [] [])
    = (mkworld (written "out" (items two_artifacts) []) [], Ok tt) /\
  save_results first_write_fails "out" two_artifacts (mkworld [] [])
    = (mkworld (written "out" [] []) [], Raise (OSError (artifact "out" "a"))) /\
  io_for_each (organize_file sample_fs permissive "task" "out/task")
              ([] ++ bad_info :: [good_info]) (mkworld [] [])
    = io_for_each (organize_file sample_fs permissive "task" "out/task") [good_info]
        (mkworld [] ([] ++ [ErrorProcessingFile (path bad_info) (OSError "in/bad.parquet")])).
Proof.
  destruct write_failures as [Hall [Hfirst [_ Hloop]]].
  split; [|split].
  - apply (Hall Z permissive "out" two_artifacts (mkworld [] [])); reflexivity.
  - apply (Hfirst Z first_write_fails "out" two_artifacts (mkworld [] []) [] "a" 1 [("b", 2)]).
    + reflexivity.
    + reflexivity.
    + intros k' d' [].
    + reflexivity.
  - apply (Hloop Z sample_fs permissive "task" "out/task" [] bad_info [good_info]
                 (mkworld [] []) (mkworld [] []) (OSError "in/bad.parquet")).
    + reflexivity.
    + left. reflexivity.
Defined.

End WriterClaims.

(** * The metadata attached to the records *)

Section DiscoveryFacts.

Import CombineDetails.

Lemma In_assoc_set {V : Type} (l : list (string * V)) k v k' v' :
  In (k', v') (assoc_set k v l) -> (k', v') = (k, v) \/ In (k', v') l.
Proof.
  induction l as [|[k0 v0] l IH]; simpl.
  - intros [E|[]]. now left.
  - destruct (String.eqb k k0).
    + intros [E|Hin]; [now left|right; now right].
    + intros [E|Hin]; [right; now left|]. destruct (IH Hin) as [E|Hl]; [now left|].
      right. now right.
Qed.

Lemma eval_name_of_filename_returns filename :
  exists name, eval_name_of_filename filename = Ok name.
Proof.
  unfold eval_name_of_filename.
  destruct (PyStr.split "|" filename) as [|p0 [|p1 ps]] eqn:Es.
  - now elim (split_nonempty "|" filename).
  - cbn [List.length Nat.leb].
    destruct (split_head "_" filename) as [tok [rest [-> _]]]. cbn.
    destruct (PyStr.startswith tok "details_"); now eexists.
  - cbn [List.length Nat.leb PyStr.index nth_error bind].
    destruct (split_head "|" p1) as [tok [rest [-> _]]]. now eexists.
Qed.

Context {C : Type}.

Variable fs : input_fs C.
Variable env : os_env.

Implicit Types (w : world (dataframe C)) (files_by_eval : pydict (list file_info))
  (info : file_info).

(** A loop of the scan: it leaves the world alone and keeps what holds of
    the object it updates. *)
Lemma io_fold_scan {A B : Type} (body : B -> A -> io (dataframe C) B)
    (I : B -> Prop) l :
  (forall a b w, In a l -> I b ->
     fst (body b a w) = w /\ forall b', snd (body b a w) = Ok b' -> I b') ->
  forall b w, I b ->
    fst (io_fold body l b w) = w /\
    forall b', snd (io_fold body l b w) = Ok b' -> I b'.
Proof.
  induction l as [|a l IH]; intros Hb b w Hi.
  - split; [reflexivity|]. intros b' [= <-]. exact Hi.
  - cbn [io_fold]. unfold io_bind.
    destruct (Hb a b w (or_introl eq_refl) Hi) as [Hw Hok].
    destruct (body b a w) as [w1 [b1|e]]; cbn [fst snd] in Hw, Hok; subst w1.
    + apply IH; [|now apply Hok]. intros a' b' w' Hin. apply Hb. now right.
    + split; [reflexivity|]. discriminate.
Qed.

Lemma register_file_registered (P : string -> file_info -> Prop)
    dir model time files_by_eval filename w :
  every_registered P files_by_eval ->
  (forall name, PyStr.endswith filename ".parquet" = true ->
     eval_name_of_filename filename = Ok name ->
     P name (mkinfo (PyStr.path_join dir filename) model time)) ->
  fst (register_file dir model time files_by_eval filename w) = w /\
  forall fbe', snd (register_file dir model time files_by_eval filename w) = Ok fbe' ->
    every_registered P fbe'.
Proof.
  intros [Hd Hall] Hnew. unfold register_file.
  destruct (PyStr.endswith filename ".parquet") eqn:He.
  - destruct (eval_name_of_filename_returns filename) as [n Hn]. rewrite Hn.
    cbn [bind]. unfold append_info, getitem.
    destruct (get files_by_eval n) as [l|] eqn:Hg; [|rewrite Hd]; cbn [bind];
      unfold io_ret; cbn [fst snd]; (split; [reflexivity|]);
      intros fbe' [= <-]; (split; [exact Hd|]);
      intros name infos info Hin Hi; cbn [items setitem] in Hin;
      apply In_assoc_set in Hin as [[= -> ->]|Hin].
    + apply in_app_or in Hi as [Hi|[<-|[]]].
      * apply (Hall n l); [|assumption]. now apply assoc_In.
      * now apply Hnew.
    + now apply (Hall name infos).
    + destruct Hi as [<-|[]]. now apply Hnew.
    + apply In_assoc_set in Hin as [[= -> ->]|Hin]; [destruct Hi|].
      now apply (Hall name infos).
  - unfold io_ret. cbn [fst snd]. split; [reflexivity|].
    intros fbe' [= <-]. now split.
Qed.

Lemma process_evaluation_directory_registered (P : string -> file_info -> Prop)
    dir model time files_by_eval w :
  every_registered P files_by_eval ->
  (forall filenames filename name,
     listdir fs dir = Ok filenames -> In filename filenames ->
     PyStr.endswith filename ".parquet" = true ->
     eval_name_of_filename filename = Ok name ->
     P name (mkinfo (PyStr.path_join dir filename) model time)) ->
  fst (process_evaluation_directory fs dir model time files_by_eval w) = w /\
  forall fbe',
    snd (process_evaluation_directory fs dir model time files_by_eval w) = Ok fbe' ->
    every_registered P fbe'.
Proof.
  intros Hreg Hnew. unfold process_evaluation_directory, io_bind, io_lift.
  destruct (listdir fs dir) as [filenames|e] eqn:Hls.
  - apply io_fold_scan; [|assumption]. intros filename b w0 Hin Hb.
    apply register_file_registered; [assumption|].
    intros name He Hn. now apply (Hnew filenames).
  - split; [reflexivity|discriminate].
Qed.

Lemma scan_model_discovered folder_path model_path model files_by_eval w :
  (model_path = PyStr.path_join folder_path model \/
   exists model_org model_name_str,
     model = (model_org ++ "_" ++ model_name_str)%string /\
     model_path =
       PyStr.path_join (PyStr.path_join folder_path model_org) model_name_str) ->
  every_registered (discovered fs folder_path) files_by_eval ->
  fst (scan_model fs model_path model files_by_eval w) = w /\
  forall fbe', snd (scan_model fs model_path model files_by_eval w) = Ok fbe' ->
    every_registered (discovered fs folder_path) fbe'.
Proof.
  intros Hm Hreg. unfold scan_model, io_bind, io_lift.
  destruct (listdir fs model_path) as [eval_times|e];
    [|split; [reflexivity|discriminate]].
  apply io_fold_scan; [|assumption]. intros eval_time b w0 _ Hb.
  destruct (isdir fs (PyStr.path_join model_path eval_time)).
  - apply process_evaluation_directory_registered; [assumption|].
    intros filenames filename name Hls Hin He Hn.
    exists model_path, filenames, filename. cbn [model_name evaluation_time path].
    repeat split; assumption.
  - unfold io_ret. cbn [fst snd]. split; [reflexivity|]. now intros b' [= <-].
Qed.

Lemma scan_entry_discovered folder_path files_by_eval entry w :
  every_registered (discovered fs folder_path) files_by_eval ->
  fst (scan_entry fs folder_path files_by_eval entry w) = w /\
  forall fbe', snd (scan_entry fs folder_path files_by_eval entry w) = Ok fbe' ->
    every_registered (discovered fs folder_path) fbe'.
Proof.
  intros Hreg. unfold scan_entry.
  destruct (isdir fs (PyStr.path_join folder_path entry)); cbn [negb];
    [|unfold io_ret; cbn [fst snd]; split; [reflexivity|now intros b' [= <-]]].
  unfold io_bind, io_lift.
  destruct (is_model_org fs (PyStr.path_join folder_path entry)) as [[|]|e];
    [| |split; [reflexivity|discriminate]].
  - destruct (listdir fs (PyStr.path_join folder_path entry)) as [model_names|e];
      [|split; [reflexivity|discriminate]].
    apply io_fold_scan; [|assumption]. intros name b w0 _ Hb.
    destruct (isdir fs (PyStr.path_join (PyStr.path_join folder_path entry) name));
      cbn [negb];
      [|unfold io_ret; cbn [fst snd]; split; [reflexivity|now intros b' [= <-]]].
    apply scan_model_discovered; [|assumption]. right. now exists entry, name.
  - apply scan_model_discovered; [now left|assumption].
Qed.

(** The scan changes no file and prints nothing, and every entry it
    registers is a discovered result file. *)
Lemma scan_discovered folder_path entries w :
  fst (io_fold (scan_entry fs folder_path) entries (empty_defaultdict []) w) = w /\
  forall fbe,
    snd (io_fold (scan_entry fs folder_path) entries (empty_defaultdict []) w) = Ok fbe ->
    every_registered (discovered fs folder_path) fbe.
Proof.
  apply (io_fold_scan (scan_entry fs folder_path)
           (every_registered (discovered fs folder_path))).
  - intros entry b w0 _ Hb. now apply scan_entry_discovered.
  - split; [reflexivity|]. intros name infos info [].
Qed.

(** The frame that is written has the metadata in every row. *)
Lemma with_metadata_stamped eval_name info ts (df : dataframe C) :
  stamped (with_metadata eval_name info ts df) eval_name (model_name info) ts.
Proof.
  intros i Hi. unfold with_metadata in *. cbn [nrows set_column] in Hi.
  repeat split.
  - now apply cell_at_set_column.
  - rewrite !cell_at_set_column_other by discriminate.
    now apply cell_at_set_column.
  - rewrite cell_at_set_column_other by discriminate.
    now apply cell_at_set_column.
Qed.

(** One result file: an error report and no file, or its frame with the
    metadata at its output path. *)
Lemma organize_file_cases eval_name eval_dir info w :
  (exists e,
      organize_file fs env eval_name eval_dir info w =
      (mkworld (files w) (stdout w ++ [ErrorProcessingFile (path info) e]), Ok tt)) \/
  (exists df ts,
      snd (read_file fs (path info) w) = Ok df /\
      timestamp_of (evaluation_time info) = Ok ts /\
      open_ok env (output_path eval_dir info) = true /\
      organize_file fs env eval_name eval_dir info w =
      (mkworld (assoc_set (output_path eval_dir info)
                          (with_metadata eval_name info ts df) (files w))
               (stdout w),
       Ok tt)).
Proof.
  destruct (snd (read_file fs (path info) w)) as [df|e] eqn:Hr.
  - destruct (timestamp_of_returns (evaluation_time info)) as [ts [Ht _]].
    destruct (open_ok env (output_path eval_dir info)) eqn:Ho.
    + right. exists df, ts. split; [reflexivity|]. split; [assumption|].
      split; [reflexivity|]. now apply organize_file_success.
    + left. eexists.
      apply (organize_file_failure _ _ _ _ _ _ (OSError (output_path eval_dir info))).
      right. split; [now exists df|]. split; [assumption|reflexivity].
  - left. exists e. apply organize_file_failure. left. exact Hr.
Qed.

Lemma io_for_each_keeps {A : Type} (I : world (dataframe C) -> Prop)
    (body : A -> io (dataframe C) unit) l :
  (forall a w, In a l -> I w -> I (fst (body a w))) ->
  forall w, I w -> I (fst (io_for_each body l w)).
Proof.
  induction l as [|a l IH]; intros Hb w Hi; [exact Hi|].
  cbn [io_for_each]. unfold io_bind.
  pose proof (Hb a w (or_introl eq_refl) Hi) as Hi1.
  destruct (body a w) as [w1 [[]|e]]; cbn [fst] in Hi1 |- *; [|exact Hi1].
  apply IH; [|exact Hi1]. intros a' w' Hin. apply Hb. now right.
Qed.

Lemma io_for_each_returns {A : Type} (body : A -> io (dataframe C) unit) l :
  (forall x w, In x l -> exists w', body x w = (w', Ok tt)) ->
  forall w, snd (io_for_each body l w) = Ok tt.
Proof.
  induction l as [|x l IH]; intros Hret w; [reflexivity|].
  cbn [io_for_each]. unfold io_bind.
  destruct (Hret x w (or_introl eq_refl)) as [w1 ->].
  apply IH. intros y w' Hy. apply Hret. now right.
Qed.

(** A loop whose bodies all return reaches what one of them establishes
    and the others keep. *)
Lemma io_for_each_reaches {A : Type} (J : world (dataframe C) -> Prop)
    (body : A -> io (dataframe C) unit) l a :
  In a l ->
  (forall x w, In x l -> exists w', body x w = (w', Ok tt)) ->
  (forall x w, In x l -> J w -> J (fst (body x w))) ->
  (forall w, J (fst (body a w))) ->
  forall w, J (fst (io_for_each body l w)).
Proof.
  induction l as [|x l IH]; intros Hin Hret Hkeep Hest w; [destruct Hin|].
  cbn [io_for_each]. unfold io_bind.
  destruct (Hret x w (or_introl eq_refl)) as [w1 E1].
  destruct Hin as [->|Hin].
  - pose proof (Hest w) as Hj. rewrite E1 in Hj |- *. cbn [fst] in Hj.
    apply io_for_each_keeps; [|exact Hj].
    intros y w' Hy. apply Hkeep. now right.
  - rewrite E1. apply IH; [assumption| | |exact Hest].
    + intros y w' Hy. apply Hret. now right.
    + intros y w' Hy. apply Hkeep. now right.
Qed.

Section Organizing.

Variables folder_path output_dir : string.

Lemma organized_written eval_name info ts (df : dataframe C) :
  discovered fs folder_path eval_name info ->
  timestamp_of (evaluation_time info) = Ok ts ->
  organized fs folder_path output_dir
    (output_path (PyStr.path_join output_dir (safe_eval_name eval_name)) info)
    (with_metadata eval_name info ts df).
Proof.
  intros Hd Ht. exists eval_name, info, ts. split; [assumption|].
  split; [assumption|]. split; [reflexivity|]. apply with_metadata_stamped.
Qed.

Lemma organize_file_only_organized w0 eval_name info w :
  discovered fs folder_path eval_name info ->
  only_organized fs folder_path output_dir w0 w ->
  only_organized fs folder_path output_dir w0
    (fst (organize_file fs env eval_name
            (PyStr.path_join output_dir (safe_eval_name eval_name)) info w)).
Proof.
  intros Hd Hw.
  destruct (organize_file_cases eval_name
              (PyStr.path_join output_dir (safe_eval_name eval_name)) info w)
    as [[e ->]|[df [ts [_ [Ht [_ ->]]]]]]; cbn [fst].
  - exact Hw.
  - intros p frame. cbn [files].
    destruct (String.eqb_spec p
                (output_path (PyStr.path_join output_dir (safe_eval_name eval_name)) info))
      as [->|Hne].
    + rewrite assoc_set_same. intros [= <-]. right. now apply organized_written.
    + rewrite assoc_set_other by assumption. apply Hw.
Qed.

Lemma organize_eval_only_organized w0 eval_name file_infos w :
  (forall info, In info file_infos -> discovered fs folder_path eval_name info) ->
  only_organized fs folder_path output_dir w0 w ->
  only_organized fs folder_path output_dir w0
    (fst (organize_eval fs env output_dir (eval_name, file_infos) w)).
Proof.
  intros Hd Hw. unfold organize_eval.
  destruct file_infos as [|info0 infos]; [exact Hw|].
  fold (safe_eval_name eval_name). unfold io_bind, makedirs.
  destruct (makedirs_ok env (PyStr.path_join output_dir (safe_eval_name eval_name)));
    [|exact Hw].
  apply io_for_each_keeps; [|exact Hw].
  intros info w' Hin Hw'. apply organize_file_only_organized; [|assumption].
  now apply Hd.
Qed.

Lemma organize_file_holds p eval_name info w :
  discovered fs folder_path eval_name info ->
  holds_organized fs folder_path output_dir p w ->
  holds_organized fs folder_path output_dir p
    (fst (organize_file fs env eval_name
            (PyStr.path_join output_dir (safe_eval_name eval_name)) info w)).
Proof.
  intros Hd [frame [Hf Ho]].
  destruct (organize_file_cases eval_name
              (PyStr.path_join output_dir (safe_eval_name eval_name)) info w)
    as [[e ->]|[df [ts [_ [Ht [_ ->]]]]]]; cbn [fst].
  - now exists frame.
  - unfold holds_organized. cbn [files].
    destruct (String.eqb_spec p
                (output_path (PyStr.path_join output_dir (safe_eval_name eval_name)) info))
      as [->|Hne].
    + eexists. split; [apply assoc_set_same|]. now apply organized_written.
    + exists frame. split; [now rewrite assoc_set_other|assumption].
Qed.

Lemma organize_file_establishes eval_name info w df :
  discovered fs folder_path eval_name info ->
  read_parquet fs (path info) = Ok df ->
  open_ok env (output_path (PyStr.path_join output_dir (safe_eval_name eval_name)) info)
    = true ->
  holds_organized fs folder_path output_dir
    (output_path (PyStr.path_join output_dir (safe_eval_name eval_name)) info)
    (fst (organize_file fs env eval_name
            (PyStr.path_join output_dir (safe_eval_name eval_name)) info w)).
Proof.
  intros Hd Hr Ho.
  assert (Hread : exists df', snd (read_file fs (path info) w) = Ok df').
  { unfold read_file. destruct (assoc (path info) (files w)) as [df'|];
      [now exists df'|now exists df]. }
  destruct Hread as [df' Hread].
  destruct (timestamp_of_returns (evaluation_time info)) as [ts [Ht _]].
  rewrite (organize_file_success fs env eval_name _ info w df' ts Hread Ht Ho).
  cbn [fst]. eexists. cbn [files]. split; [apply assoc_set_same|].
  now apply organized_written.
Qed.

Lemma organize_eval_returns item w :
  makedirs_ok env (PyStr.path_join output_dir (safe_eval_name (fst item))) = true ->
  exists w', organize_eval fs env output_dir item w = (w', Ok tt).
Proof.
  destruct item as [eval_name file_infos]. cbn [fst]. intros Hm.
  unfold organize_eval. destruct file_infos as [|info0 infos]; [now eexists|].
  fold (safe_eval_name eval_name). unfold io_bind, makedirs. rewrite Hm.
  apply io_for_each_total. intros info w'. apply organize_file_returns.
Qed.

Lemma organize_eval_holds p eval_name file_infos w :
  (forall info, In info file_infos -> discovered fs folder_path eval_name info) ->
  holds_organized fs folder_path output_dir p w ->
  holds_organized fs folder_path output_dir p
    (fst (organize_eval fs env output_dir (eval_name, file_infos) w)).
Proof.
  intros Hd Hw. unfold organize_eval.
  destruct file_infos as [|info0 infos]; [exact Hw|].
  fold (safe_eval_name eval_name). unfold io_bind, makedirs.
  destruct (makedirs_ok env (PyStr.path_join output_dir (safe_eval_name eval_name)));
    [|exact Hw].
  apply io_for_each_keeps; [|exact Hw].
  intros info w' Hin Hw'. apply organize_file_holds; [|assumption]. now apply Hd.
Qed.

Lemma organize_eval_establishes eval_name file_infos info w df :
  (forall info', In info' file_infos -> discovered fs folder_path eval_name info') ->
  In info file_infos ->
  read_parquet fs (path info) = Ok df ->
  makedirs_ok env (PyStr.path_join output_dir (safe_eval_name eval_name)) = true ->
  open_ok env (output_path (PyStr.path_join output_dir (safe_eval_name eval_name)) info)
    = true ->
  holds_organized fs folder_path output_dir
    (output_path (PyStr.path_join output_dir (safe_eval_name eval_name)) info)
    (fst (organize_eval fs env output_dir (eval_name, file_infos) w)).
Proof.
  intros Hd Hin Hr Hm Ho. unfold organize_eval.
  destruct file_infos as [|info0 infos]; [destruct Hin|].
  fold (safe_eval_name eval_name). unfold io_bind, makedirs. rewrite Hm.
  apply (io_for_each_reaches _ _ _ info); [assumption| | |].
  - intros x w' _. apply organize_file_returns.
  - intros x w' Hx Hw'. apply organize_file_holds; [|assumption]. now apply Hd.
  - intros w'. apply (organize_file_establishes _ _ _ df); [|assumption|assumption].
    now apply Hd.
Qed.

End Organizing.

End DiscoveryFacts.

Section MetadataClaims.

Import CombineDetails.

(** C8.  The timestamp computed from a run-folder name is the part after
    its last ['_'] when it has one, and the name itself otherwise.  A result
    file that is read and written is written with as many rows as it was
    read with, and each row has this timestamp, the model name and the
    evaluation name in the columns [timestamp], [model_name] and
    [eval_name].  For a whole run of [combine_results_memory_efficient]:
    every file that the run leaves, and that was not there before with the
    same content, is the output file of a result file that the scan
    discovered, and each of its rows holds the model name under which that
    file was discovered (the name of its model folder, preceded by the name
    of the organisation folder and ['_'] in the nested layout), the
    evaluation name extracted from its file name, and the timestamp of its
    run-folder name.  And when folders can be created and files opened, the
    run returns, and the output file of every registered result file that
    can be read is there, with these values. *)
Theorem metadata_attached :
  (forall t : string,
      exists ts,
        timestamp_of t = Ok ts /\
        if PyStr.str_in "_" t
        then (exists pre, t = (pre ++ "_" ++ ts)%string) /\ PyStr.str_in "_" ts = false
        else ts = t) /\
  (forall (C : Type) (fs : input_fs C) env eval_name eval_dir info w df ts,
      snd (read_file fs (path info) w) = Ok df ->
      timestamp_of (evaluation_time info) = Ok ts ->
      open_ok env (output_path eval_dir info) = true ->
      exists out,
        organize_file fs env eval_name eval_dir info w =
        (mkworld (assoc_set (output_path eval_dir info) out (files w)) (stdout w),
         Ok tt) /\
        nrows out = nrows df /\
        forall i, (i < nrows df)%nat ->
          cell_at out "timestamp" i = Some (Str ts) /\
          cell_at out "model_name" i = Some (Str (model_name info)) /\
          cell_at out "eval_name" i = Some (Str eval_name)) /\
  (forall (C : Type) (fs : input_fs C) env folder_path output_dir
          (w w' : world (dataframe C)) r,
      combine_results_memory_efficient fs env folder_path output_dir w = (w', r) ->
      forall p frame,
        assoc p (files w') = Some frame ->
        assoc p (files w) = Some frame \/
        exists eval_name info timestamp,
          discovered fs folder_path eval_name info /\
          timestamp_of (evaluation_time info) = Ok timestamp /\
          p = output_path (PyStr.path_join output_dir (safe_eval_name eval_name)) info /\
          forall i, (i < nrows frame)%nat ->
            cell_at frame "timestamp" i = Some (Str timestamp) /\
            cell_at frame "model_name" i = Some (Str (model_name info)) /\
            cell_at frame "eval_name" i = Some (Str eval_name)) /\
  (forall (C : Type) (fs : input_fs C) env folder_path output_dir
          (w w1 : world (dataframe C)) entries files_by_eval eval_name info df,
      (forall p, makedirs_ok env p = true) ->
      (forall p, open_ok env p = true) ->
      listdir fs folder_path = Ok entries ->
      io_fold (scan_entry fs folder_path) entries (empty_defaultdict []) w
        = (w1, Ok files_by_eval) ->
      In info (registered files_by_eval eval_name) ->
      read_parquet fs (path info) = Ok df ->
      exists w' frame,
        combine_results_memory_efficient fs env folder_path output_dir w = (w', Ok tt) /\
        assoc (output_path (PyStr.path_join output_dir (safe_eval_name eval_name)) info)
              (files w') = Some frame /\
        exists eval_name' info' timestamp,
          discovered fs folder_path eval_name' info' /\
          timestamp_of (evaluation_time info') = Ok timestamp /\
          output_path (PyStr.path_join output_dir (safe_eval_name eval_name)) info
            = output_path (PyStr.path_join output_dir (safe_eval_name eval_name')) info' /\
          forall i, (i < nrows frame)%nat ->
            cell_at frame "timestamp" i = Some (Str timestamp) /\
            cell_at frame "model_name" i = Some (Str (model_name info')) /\
            cell_at frame "eval_name" i = Some (Str eval_name')).
Proof.
  split; [|split; [|split]].
  - intros t. apply timestamp_of_returns.
  - intros C fs env eval_name eval_dir info w df ts Hr Ht Ho.
    exists (with_metadata eval_name info ts df).
    split; [now apply organize_file_success|].
    split; [reflexivity|].
    intros i Hi. now apply with_metadata_stamped.
  - intros C fs env folder_path output_dir w w' r Hrun.
    assert (Hall : only_organized fs folder_path output_dir w w').
    { revert Hrun. unfold combine_results_memory_efficient, io_bind, makedirs, io_lift.
      assert (Hw : only_organized fs folder_path output_dir w w)
        by (intros p frame Hp; now left).
      destruct (makedirs_ok env output_dir); [|now intros [= <- _]].
      destruct (listdir fs folder_path) as [entries|e]; [|now intros [= <- _]].
      destruct (scan_discovered fs folder_path entries w) as [Hfst Hreg].
      destruct (io_fold (scan_entry fs folder_path) entries (empty_defaultdict []) w)
        as [w1 [fbe|e]]; cbn [fst snd] in Hfst, Hreg; subst w1;
        [|now intros [= <- _]].
      destruct (Hreg fbe eq_refl) as [_ Hdisc].
      destruct (items fbe) as [|item0 rest] eqn:Hit.
      - unfold print. intros [= <- _]. exact Hw.
      - intros Hrun.
        replace w' with (fst (io_for_each (organize_eval fs env output_dir)
                                          (item0 :: rest) w))
          by (now rewrite Hrun).
        apply io_for_each_keeps; [|exact Hw].
        intros [eval_name infos] w0 Hin Hw0.
        apply organize_eval_only_organized; [|assumption].
        intros info Hinfo. now apply (Hdisc eval_name infos). }
    intros p frame Hp. destruct (Hall p frame Hp) as [Hold|Hnew]; [now left|].
    right. exact Hnew.
  - intros C fs env folder_path output_dir w w1 entries fbe eval_name info df
           Hmk Hopen Hls Hscan Hin Hread.
    destruct (scan_discovered fs folder_path entries w) as [Hfst Hreg].
    rewrite Hscan in Hfst, Hreg. cbn [fst snd] in Hfst, Hreg. subst w1.
    destruct (Hreg fbe eq_refl) as [_ Hdisc].
    unfold registered in Hin.
    destruct (get fbe eval_name) as [infos|] eqn:Hg; [|destruct Hin].
    apply assoc_In in Hg.
    set (p := output_path (PyStr.path_join output_dir (safe_eval_name eval_name)) info).
    assert (Hrun : combine_results_memory_efficient fs env folder_path output_dir w
                   = io_for_each (organize_eval fs env output_dir) (items fbe) w).
    { unfold combine_results_memory_efficient, io_bind, makedirs, io_lift.
      rewrite Hmk, Hls, Hscan. destruct (items fbe); [destruct Hg|reflexivity]. }
    assert (Hret : forall x w0, In x (items fbe) ->
                     exists w'', organize_eval fs env output_dir x w0 = (w'', Ok tt)).
    { intros x w0 _. apply organize_eval_returns. apply Hmk. }
    pose proof (io_for_each_returns (organize_eval fs env output_dir) (items fbe) Hret w)
      as Hok.
    assert (Hj : holds_organized fs folder_path output_dir p
                   (fst (io_for_each (organize_eval fs env output_dir) (items fbe) w))).
    { apply (io_for_each_reaches _ _ _ (eval_name, infos)); [assumption|assumption| |].
      - intros [name infos'] w0 Hx Hw0. apply organize_eval_holds; [|assumption].
        intros info' Hinfo'. now apply (Hdisc name infos').
      - intros w0. apply (organize_eval_establishes _ _ _ _ _ _ _ _ df);
          try assumption; [|apply Hmk|apply Hopen].
        intros info' Hinfo'. now apply (Hdisc eval_name infos). }
    destruct Hj as [frame [Hf Horg]].
    exists (fst (io_for_each (organize_eval fs env output_dir) (items fbe) w)), frame.
    split; [|split; [exact Hf|exact Horg]].
    rewrite Hrun.
    destruct (io_for_each (organize_eval fs env output_dir) (items fbe) w) as [w'' r].
    cbn [fst snd] in Hok |- *. now rewrite Hok.
Qed.

Lemma metadata_attached_witness :
  (exists out,
      organize_file sample_fs permissive "task" "out/task" good_info (mkworld [] []) =
      (mkworld (assoc_set (output_path "out/task" good_info) out []) [], Ok tt) /\
      nrows out = nrows sample_frame /\
      forall i, (i < nrows sample_frame)%nat ->
        cell_at out "timestamp" i = Some (Str "2025-01-01T00-00-00") /\
        cell_at out "model_name" i = Some (Str (model_name good_info)) /\
        cell_at out "eval_name" i = Some (Str "task")) /\
  (forall p frame,
      assoc p [("out/task_a_sub/model_a.parquet", run_frame "model_a" "2025");
               ("out/task_a_sub/org_model_b.parquet", run_frame "org_model_b" "2026")]
        = Some frame ->
      assoc p [] = Some frame \/
      exists eval_name info timestamp,
        discovered sample_tree "root" eval_name info /\
        timestamp_of (evaluation_time info) = Ok timestamp /\
        p = output_path (PyStr.path_join "out" (safe_eval_name eval_name)) info /\
        forall i, (i < nrows frame)%nat ->
          cell_at frame "timestamp" i = Some (Str timestamp) /\
          cell_at frame "model_name" i = Some (Str (model_name info)) /\
          cell_at frame "eval_name" i = Some (Str eval_name)) /\
  (exists w' frame,
      combine_results_memory_efficient sample_tree permissive "root" "out" (mkworld [] [])
        = (w', Ok tt) /\
      assoc (output_path (PyStr.path_join "out" (safe_eval_name "task_a:sub")) run_info)
            (files w') = Some frame /\
      exists eval_name' info' timestamp,
        discovered sample_tree "root" eval_name' info' /\
        timestamp_of (evaluation_time info') = Ok timestamp /\
        output_path (PyStr.path_join "out" (safe_eval_name "task_a:sub")) run_info
          = output_path (PyStr.path_join "out" (safe_eval_name eval_name')) info' /\
        forall i, (i < nrows frame)%nat ->
          cell_at frame "timestamp" i = Some (Str timestamp) /\
          cell_at frame "model_name" i = Some (Str (model_name info')) /\
          cell_at frame "eval_name" i = Some (Str eval_name')).
Proof.
  destruct metadata_attached as [_ [Hattach [Hsafe Hlive]]].
  split; [|split].
  - apply (Hattach Z sample_fs permissive "task" "out/task" good_info (mkworld [] [])
                   sample_frame "2025-01-01T00-00-00"); reflexivity.
  - apply (Hsafe Z sample_tree permissive "root" "out" (mkworld [] [])
                 (mkworld
                    [("out/task_a_sub/model_a.parquet", run_frame "model_a" "2025");
                     ("out/task_a_sub/org_model_b.parquet",
                      run_frame "org_model_b" "2026")]
                    [ErrorProcessingFile "root/org/model_b/2026/task_b_2026.parquet"
                       (OSError "root/org/model_b/2026/task_b_2026.parquet")])
                 (Ok tt)).
    vm_compute. reflexivity.
  - apply (Hlive Z sample_tree permissive "root" "out" (mkworld [] []) (mkworld [] [])
                 ["model_a"; "org"; "readme.txt"] scanned_tree "task_a:sub" run_info
                 sample_frame); try reflexivity.
    vm_compute. now left.
Defined.

End MetadataClaims.

(** * The scripts on the example inputs *)

Section Scenarios.

Import ProcessResults CombineDetails.

(** The scenario of the specification: question 1 is universally correct
    with ratio 1.0, question 2 has ratio 0.5; the accuracies are 1.0 and 0.5,
    and 1.0 and 0.0 once question 1 is dropped. *)
Example scenario_questions :
  get_all_correct_ids scenario_binary64 =
  Ok (scenario_binary64, ["1"],
      mkdict [("1", 1%float); ("2", 0.5%float)] (Some 0%float)).
Proof. vm_compute. reflexivity. Qed.

Example scenario_accuracy :
  calculate_models_accuracy scenario_binary64 None =
  mkdict [("x", 1%float); ("y", 0.5%float)] (Some 0%float) /\
  calculate_models_accuracy scenario_binary64 (Some ["1"]) =
  mkdict [("x", 1%float); ("y", 0%float)] (Some 0%float).
Proof. split; vm_compute; reflexivity. Qed.

(** A whole run of [combine_results_memory_efficient]: both layouts are
    scanned, the two readable files are written with their metadata, and
    the unreadable one is reported. *)
Example combine_run :
  combine_results_memory_efficient sample_tree permissive "root" "out" (mkworld [] []) =
  (mkworld
     [("out/task_a_sub/model_a.parquet",
       mkframe 2 [("specifics.id", [Raw 1; Raw 2]);
                  ("model_name", [Str "model_a"; Str "model_a"]);
                  ("eval_name", [Str "task_a:sub"; Str "task_a:sub"]);
                  ("timestamp", [Str "2025"; Str "2025"])]);
      ("out/task_a_sub/org_model_b.parquet",
       mkframe 2 [("specifics.id", [Raw 1; Raw 2]);
                  ("model_name", [Str "org_model_b"; Str "org_model_b"]);
                  ("eval_name", [Str "task_a:sub"; Str "task_a:sub"]);
                  ("timestamp", [Str "2026"; Str "2026"])])]
     [ErrorProcessingFile "root/org/model_b/2026/task_b_2026.parquet"
                          (OSError "root/org/model_b/2026/task_b_2026.parquet")],
   Ok tt).
Proof. vm_compute. reflexivity. Qed.

End Scenarios.

(** * Further facts about [groupby] and the mappings built from it *)

Section KeyFacts.

Import ProcessResults.

Lemma NoDup_insert_sorted a l : ~ In a l -> NoDup l -> NoDup (insert_sorted a l).
Proof.
  induction l as [|b l IH]; intros Hnin Hnd; simpl.
  - constructor; [tauto|constructor].
  - destruct (String.leb a b).
    + constructor; assumption.
    + inversion Hnd as [|? ? Hb Hl]; subst. constructor.
      * rewrite In_insert_sorted. simpl in Hnin. intuition congruence.
      * apply IH; [simpl in Hnin; tauto|assumption].
Qed.

Lemma NoDup_sorted_keys l : NoDup (sorted_keys l).
Proof.
  unfold sorted_keys. pose proof (NoDup_nodup string_dec l) as Hnd.
  induction (nodup string_dec l) as [|a l' IH]; simpl; [constructor|].
  inversion Hnd as [|? ? Ha Hl]; subst.
  apply NoDup_insert_sorted; [|now apply IH].
  intros Hin. apply Ha. clear -Hin.
  induction l' as [|b l' IH]; simpl in *; [assumption|].
  apply In_insert_sorted in Hin as [->|Hin]; [now left|right; now apply IH].
Qed.

Lemma HdRel_insert_sorted a b l :
  string_le b a -> HdRel string_le b l -> HdRel string_le b (insert_sorted a l).
Proof.
  intros Hba Hl. destruct l as [|c l]; simpl; [now constructor|].
  destruct (String.leb a c); constructor; [assumption|].
  now inversion Hl.
Qed.

Lemma Sorted_insert_sorted a l :
  Sorted string_le l -> Sorted string_le (insert_sorted a l).
Proof.
  induction l as [|b l IH]; intros Hs; simpl.
  - repeat constructor.
  - destruct (String.leb a b) eqn:E.
    + constructor; [assumption|now constructor].
    + inversion Hs as [|? ? Hl Hb]; subst. constructor; [now apply IH|].
      apply HdRel_insert_sorted; [|assumption].
      destruct (String.leb_total a b) as [H|H]; [congruence|exact H].
Qed.

Lemma Sorted_sorted_keys l : Sorted string_le (sorted_keys l).
Proof.
  unfold sorted_keys. induction (nodup string_dec l) as [|a l' IH]; simpl.
  - constructor.
  - now apply Sorted_insert_sorted.
Qed.

Context {V : Type}.

Lemma keys_assoc_set_new (l : list (string * V)) k v :
  ~ In k (map fst l) -> map fst (assoc_set k v l) = map fst l ++ [k].
Proof.
  induction l as [|[k' v'] l IH]; simpl; intros Hnin; [reflexivity|].
  destruct (String.eqb_spec k k') as [->|Hne]; [tauto|].
  simpl. f_equal. apply IH. tauto.
Qed.

Lemma keys_assoc_set_old (l : list (string * V)) k v :
  In k (map fst l) -> map fst (assoc_set k v l) = map fst l.
Proof.
  induction l as [|[k' v'] l IH]; simpl; intros Hin; [contradiction|].
  destruct (String.eqb_spec k k') as [->|Hne]; [reflexivity|].
  simpl. f_equal. apply IH. destruct Hin; [congruence|assumption].
Qed.

Lemma keys_fold_setitem (g : string -> V) ks (d : pydict V) :
  NoDup ks -> (forall k, In k ks -> ~ In k (keys d)) ->
  keys (fold_left (fun d k => setitem d k (g k)) ks d) = keys d ++ ks.
Proof.
  revert d. induction ks as [|k ks IH]; intros d Hnd Hnew; simpl.
  - now rewrite app_nil_r.
  - inversion Hnd as [|? ? Hk Hks]; subst.
    assert (Hkeys : keys (setitem d k (g k)) = keys d ++ [k]).
    { unfold keys, setitem. simpl. apply keys_assoc_set_new. apply Hnew. now left. }
    rewrite IH; [|assumption|].
    + rewrite Hkeys, <- app_assoc. reflexivity.
    + intros k' Hin. rewrite Hkeys. intros Hc. apply in_app_or in Hc as [Hc|[<-|[]]].
      * apply (Hnew k'); [now right|assumption].
      * contradiction.
Qed.

End KeyFacts.

Section GroupProperties.

Import ProcessResults.

Lemma length_insert_sorted a l : List.length (insert_sorted a l) = S (List.length l).
Proof.
  induction l as [|b l IH]; simpl; [reflexivity|].
  destruct (String.leb a b); simpl; [reflexivity|now rewrite IH].
Qed.

Lemma length_sorted_keys l :
  List.length (sorted_keys l) = List.length (nodup string_dec l).
Proof.
  unfold sorted_keys. induction (nodup string_dec l) as [|a l' IH]; simpl;
    [reflexivity|].
  now rewrite length_insert_sorted, IH.
Qed.

Lemma filter_length_all {A : Type} (f : A -> bool) (l : list A) :
  (List.length (filter f l) <= List.length l)%nat /\
  (List.length (filter f l) = List.length l -> forall x, In x l -> f x = true).
Proof.
  induction l as [|a l [IHle IHall]]; simpl; [split; [lia|intros _ x []]|].
  destruct (f a) eqn:E; simpl.
  - split; [lia|]. intros Hlen x [<-|Hin]; [assumption|]. apply IHall; [lia|assumption].
  - split; [lia|]. intros Hlen. lia.
Qed.

(** X2.  [get_all_correct_ids] always returns.  The keys of the ratio
    mapping are the question ids of the dataset, each once, in increasing
    order, so the mapping has as many entries as there are distinct
    questions; the returned list of ids is the part of these keys whose
    group has [correct_count >= total_count], in the same order. *)
Theorem question_ids_sorted_once :
  forall (F : Type) (num : PyFloat F) (dataset : list (record F)),
    exists ids ratios,
      get_all_correct_ids dataset = Ok (dataset, ids, ratios) /\
      NoDup (keys ratios) /\
      Sorted string_le (keys ratios) /\
      (forall k, In k (keys ratios) <-> In k (map specifics_id dataset)) /\
      len ratios =
        Z.of_nat (List.length (nodup string_dec (map specifics_id dataset))) /\
      ids = filter (fun k => universally_correct (question_group dataset k))
                   (keys ratios) /\
      default_factory ratios = Some (of_int 0).
Proof.
  intros F num dataset.
  pose proof (get_all_correct_ids_eq dataset) as Heq. cbv zeta in Heq.
  do 2 eexists. split; [exact Heq|].
  assert (Hkeys : keys (fold_left
                    (fun d k => setitem d k (ratio (question_group dataset k)))
                    (sorted_keys (map specifics_id dataset))
                    (empty_defaultdict (of_int 0)))
                  = sorted_keys (map specifics_id dataset)).
  { rewrite keys_fold_setitem; [reflexivity|apply NoDup_sorted_keys|].
    intros k _ []. }
  rewrite Hkeys.
  split; [apply NoDup_sorted_keys|].
  split; [apply Sorted_sorted_keys|].
  split; [intros k; apply In_sorted_keys|].
  split; [|split; [reflexivity|apply default_factory_fold_setitem]].
  unfold len. f_equal.
  match goal with
  | |- List.length (items ?d) = _ => transitivity (List.length (keys d))
  end.
  - unfold keys. now rewrite length_map.
  - rewrite Hkeys. apply length_sorted_keys.
Qed.

(** X3.  The filtering law.  Dropping the questions that
    [get_all_correct_ids] returns never lengthens the dataset, and keeps its
    length exactly when no question was returned; without a list of ids
    nothing is dropped. *)
Theorem filtering_law :
  forall (F : Type) (num : PyFloat F) (dataset : list (record F)) ids ratios,
    get_all_correct_ids dataset = Ok (dataset, ids, ratios) ->
    (List.length (retained dataset (Some ids)) <= List.length dataset)%nat /\
    (List.length (retained dataset (Some ids)) = List.length dataset <-> ids = []) /\
    retained dataset None = dataset.
Proof.
  intros F num dataset ids ratios Hget.
  pose proof (get_all_correct_ids_eq dataset) as Heq. cbv zeta in Heq.
  rewrite Heq in Hget.
  assert (Hids : filter (fun k => universally_correct (question_group dataset k))
                        (sorted_keys (map specifics_id dataset)) = ids)
    by congruence.
  clear Hget Heq.
  unfold retained.
  destruct (filter_length_all
              (fun x => negb (existsb (String.eqb (specifics_id x)) ids)) dataset)
    as [Hle Hall].
  split; [exact Hle|]. split; [|reflexivity]. split.
  - intros Hlen. destruct ids as [|k ids'']; [reflexivity|exfalso].
    assert (Hk : In k (map specifics_id dataset)).
    { assert (Hk' : In k (k :: ids'')) by now left.
      rewrite <- Hids in Hk'. apply filter_In in Hk' as [Hk' _].
      exact (proj1 (In_sorted_keys _ _) Hk'). }
    apply in_map_iff in Hk as [r [Hr Hrin]].
    specialize (Hall Hlen r Hrin). simpl in Hall.
    rewrite Hr, String.eqb_refl in Hall. discriminate.
  - intros ->. simpl. clear.
    induction dataset as [|r l IH]; simpl; [reflexivity|]. f_equal.
    apply IH.
Qed.

Lemma filtering_law_witness :
  (List.length (retained scenario (Some ["1"])) <= List.length scenario)%nat /\
  (List.length (retained scenario (Some ["1"])) = List.length scenario <-> ["1"] = []) /\
  retained scenario None = scenario.
Proof.
  apply (filtering_law Q Q_PyFloat scenario ["1"]
           (mkdict [("1", 2 # 2); ("2", 1 # 2)] (Some 0%Q))).
  vm_compute. reflexivity.
Defined.

(** X4.  In exact arithmetic, when every score of the dataset lies between
    0 and 1, so does every accuracy that [calculate_models_accuracy]
    reports, with or without a list of ids to drop. *)
Theorem accuracy_bounds :
  forall (dataset : list (record Q)) (filtered_ids : option (list string))
         (m : string) (a : Q),
    (forall r, In r dataset -> (0 <= metrics_acc_norm r <= 1)%Q) ->
    get (calculate_models_accuracy dataset filtered_ids) m = Some a ->
    (0 <= a <= 1)%Q.
Proof.
  intros dataset filtered_ids m a Hrange Hget.
  rewrite calculate_models_accuracy_get in Hget.
  destruct (in_dec string_dec m (map model_name (retained dataset filtered_ids)))
    as [Hin|Hnin]; [|discriminate].
  injection Hget as <-.
  set (g := model_group (retained dataset filtered_ids) m).
  assert (Hg : forall r, In r g -> (0 <= metrics_acc_norm r <= 1)%Q).
  { intros r Hr. apply filter_In in Hr as [Hr _]. apply Hrange.
    destruct filtered_ids; [now apply filter_In in Hr|assumption]. }
  assert (Hpos : 0 < total_count g).
  { apply in_map_iff in Hin as [r [Hr Hrin]].
    assert (Hrg : In r g).
    { apply filter_In. split; [assumption|]. now apply String.eqb_eq. }
    unfold total_count. destruct g; [contradiction|simpl; lia]. }
  destruct (correct_count_bounds g Hg) as [Hlo Hhi].
  assert (Hq : (0 < inject_Z (total_count g))%Q) by (unfold Qlt; simpl; lia).
  unfold series_mean. rewrite filter_notna_exact, length_map.
  change (0 <= correct_count g / inject_Z (total_count g) <= 1)%Q. split.
  - apply Qle_shift_div_l; [assumption|]. now rewrite Qmult_0_l.
  - apply Qle_shift_div_r; [assumption|]. now rewrite Qmult_1_l.
Qed.

Lemma accuracy_bounds_witness : (0 <= 1 # 2 <= 1)%Q.
Proof.
  apply (accuracy_bounds scenario None "y" (1 # 2)).
  - intros r [<-|[<-|[<-|[<-|[]]]]]; simpl; split; discriminate.
  - reflexivity.
Defined.

End GroupProperties.

(** * Sums in exact arithmetic *)

Section ExactSums.

Open Scope Q_scope.

Lemma qsum_acc (l : list Q) (x : Q) :
  fold_left Qplus l x == x + fold_left Qplus l 0.
Proof.
  revert x. induction l as [|a l IH]; intros x; simpl.
  - now rewrite Qplus_0_r.
  - rewrite (IH (x + a)), (IH (0 + a)). ring.
Qed.

Lemma qsum_cons (a : Q) (l : list Q) :
  fold_left Qplus (a :: l) 0 == a + fold_left Qplus l 0.
Proof. simpl. rewrite qsum_acc. ring. Qed.

Lemma zsum_acc (l : list Z) (z : Z) :
  fold_left Z.add l z = (z + fold_left Z.add l 0)%Z.
Proof.
  revert z. induction l as [|a l IH]; intros z; simpl; [lia|].
  rewrite (IH (z + a)%Z), (IH a). lia.
Qed.

Lemma zsum_cons (a : Z) (l : list Z) :
  fold_left Z.add (a :: l) 0%Z = (a + fold_left Z.add l 0)%Z.
Proof. simpl. now rewrite zsum_acc. Qed.

(** A weighted sum of numbers between 0 and 1, with weights that are not
    negative, lies between 0 and the sum of the weights. *)
Lemma weighted_sum_bounds (l : list (Q * Z)) :
  (forall p, In p l -> 0 <= fst p <= 1 /\ (0 <= snd p)%Z) ->
  0 <= fold_left Qplus (map (fun p => fst p * inject_Z (snd p)) l) 0
    <= inject_Z (fold_left Z.add (map snd l) 0%Z).
Proof.
  induction l as [|[a w] l IH]; intros Hl.
  - simpl. split; apply Qle_refl.
  - destruct (Hl (a, w) (or_introl eq_refl)) as [[Ha0 Ha1] Hw]. simpl in Ha0, Ha1, Hw.
    destruct (IH (fun p Hp => Hl p (or_intror Hp))) as [Hlo Hhi].
    cbn [map fst snd]. rewrite qsum_cons, zsum_cons, inject_Z_plus.
    assert (Hw' : 0 <= inject_Z w) by (unfold Qle; simpl; lia).
    assert (H1 : 0 <= a * inject_Z w) by (now apply Qmult_le_0_compat).
    assert (H2 : a * inject_Z w <= inject_Z w).
    { rewrite <- (Qmult_1_l (inject_Z w)) at 2. now apply Qmult_le_compat_r. }
    split; lra.
Qed.

(** With one weight for all, the weighted sum is the weight times the
    sum. *)
Lemma weighted_sum_constant (l : list Q) (w : Q) :
  fold_left Qplus (map (fun a => a * w) l) 0 == fold_left Qplus l 0 * w.
Proof.
  induction l as [|a l IH].
  - simpl. ring.
  - cbn [map]. rewrite !qsum_cons, IH. ring.
Qed.

Lemma zsum_constant (l : list Z) (w : Z) :
  (forall x, In x l -> x = w) ->
  fold_left Z.add l 0%Z = (Z.of_nat (List.length l) * w)%Z.
Proof.
  induction l as [|a l IH]; intros Hl; [reflexivity|].
  rewrite zsum_cons, IH by (intros x Hx; apply Hl; now right).
  rewrite (Hl a) by now left. cbn [List.length]. lia.
Qed.

End ExactSums.

(** * Further properties of the average combination *)

Section CombinerProperties.

Import ProcessResults.

Lemma for_each_raise {A B : Type} (body : B -> A -> result B) l b e :
  for_each body l b = Raise e -> exists a b', In a l /\ body b' a = Raise e.
Proof.
  revert b. induction l as [|a l IH]; intros b Hl; simpl in Hl; [discriminate|].
  destruct (body b a) as [b1|e1] eqn:E; simpl in Hl.
  - destruct (IH b1 Hl) as [a' [b' [Hin Hb]]]. exists a', b'. split; [now right|assumption].
  - injection Hl as ->. exists a, b. split; [now left|assumption].
Qed.

Lemma subscript_raise {V : Type} (d : pydict V) k e :
  subscript d k = Raise e ->
  e = KeyError k /\ contains d k = false /\ default_factory d = None.
Proof.
  unfold subscript, getitem, contains.
  destruct (get d k); [discriminate|].
  destruct (default_factory d); [discriminate|].
  intros [= <-]. repeat split.
Qed.

Context {F : Type} `{PyFloat F}.

Implicit Types (er : pydict (pydict F)) (totals : pydict Z) (m : string).

Lemma store_default_factory (out : pydict F * pydict F) m r :
  default_factory (fst (store out m r)) = default_factory (fst out) /\
  default_factory (snd (store out m r)) = default_factory (snd out).
Proof. destruct r as [[a b]|]; split; reflexivity. Qed.

Lemma models_loop_keys er totals ms out out' :
  for_each (model_step er totals) ms out = Ok out' ->
  NoDup ms ->
  (forall m, In m ms -> ~ In m (keys (fst out)) /\ ~ In m (keys (snd out))) ->
  keys (fst out') =
    keys (fst out) ++ filter (fun m => 0 <? Spec.total_weight er totals m) ms /\
  keys (snd out') =
    keys (snd out) ++ filter (fun m => 0 <? Spec.total_weight er totals m) ms /\
  default_factory (fst out') = default_factory (fst out) /\
  default_factory (snd out') = default_factory (snd out).
Proof.
  revert out. induction ms as [|m0 ms IH]; intros out Hloop Hnd Hnew.
  - simpl in Hloop. injection Hloop as <-. simpl. now rewrite !app_nil_r.
  - simpl in Hloop. rewrite model_step_result in Hloop.
    destruct (model_result er totals m0) as [r0|] eqn:Er0; simpl in Hloop;
      [|discriminate].
    inversion Hnd as [|? ? Hm0 Hms]; subst.
    destruct (Hnew m0 (or_introl eq_refl)) as [Hn1 Hn2].
    apply model_result_spec in Er0.
    assert (Hk : keys (fst (store out m0 r0)) =
                   keys (fst out) ++
                   (if 0 <? Spec.total_weight er totals m0 then [m0] else []) /\
                 keys (snd (store out m0 r0)) =
                   keys (snd out) ++
                   (if 0 <? Spec.total_weight er totals m0 then [m0] else [])).
    { subst r0. destruct (0 <? Spec.total_weight er totals m0); simpl.
      - unfold keys, setitem. simpl. now rewrite !keys_assoc_set_new.
      - now rewrite !app_nil_r. }
    destruct Hk as [Hk1 Hk2].
    destruct (store_default_factory out m0 r0) as [Hd1 Hd2].
    destruct (IH _ Hloop Hms) as [K1 [K2 [D1 D2]]].
    { intros m Hin. rewrite Hk1, Hk2.
      destruct (Hnew m (or_intror Hin)) as [G1 G2].
      assert (Hne : m <> m0) by (intros ->; contradiction).
      split; intros Hc; apply in_app_or in Hc as [Hc|Hc]; try contradiction;
        destruct (0 <? Spec.total_weight er totals m0); simpl in Hc; intuition. }
    rewrite K1, K2, D1, D2, Hk1, Hk2, Hd1, Hd2. cbn [filter].
    destruct (0 <? Spec.total_weight er totals m0); simpl;
      rewrite <- ?app_assoc, ?app_nil_r; repeat split; reflexivity.
Qed.

(** X5.  The two mappings that the combination returns are plain
    dictionaries with the same keys in the same order: the models of the
    first subset's mapping, in its order, whose subsets' weights sum to a
    positive number. *)
Theorem averages_share_keys :
  forall er totals macro micro,
    compute_macro_micro_averages er totals = Ok (macro, micro) ->
    NoDup (keys (Spec.first_scores er)) ->
    keys macro = filter (fun m => 0 <? Spec.total_weight er totals m)
                        (keys (Spec.first_scores er)) /\
    keys micro = keys macro /\
    default_factory macro = None /\ default_factory micro = None.
Proof.
  intros er totals macro micro Hc Hnd. unfold Spec.first_scores in *.
  destruct (items er) as [|[s0 first] rest] eqn:Hit.
  { unfold compute_macro_micro_averages, keys in Hc. rewrite Hit in Hc. discriminate. }
  rewrite (compute_first _ _ _ _ _ Hit) in Hc.
  destruct (models_loop_keys _ _ _ _ _ Hc Hnd) as [K1 [K2 [D1 D2]]].
  { intros m _. split; intros []. }
  simpl in K1, K2, D1, D2. rewrite K1, K2. repeat split; assumption.
Qed.

(** X6.  The only exceptions of the combination: [StopIteration] when there
    is no subset; [KeyError] for a model of the first subset's mapping that
    a plain dictionary among the mappings lacks; [KeyError] for a subset
    that has no weight in a plain dictionary of weights. *)
Theorem combination_exceptions :
  forall er totals,
    (items er = [] ->
     compute_macro_micro_averages er totals = Raise StopIteration) /\
    (forall e,
        compute_macro_micro_averages er totals = Raise e ->
        (e = StopIteration /\ items er = []) \/
        (exists m scores,
            e = KeyError m /\ In m (keys (Spec.first_scores er)) /\
            In scores (values er) /\
            contains scores m = false /\ default_factory scores = None) \/
        (exists subset,
            e = KeyError subset /\ In subset (keys er) /\
            contains totals subset = false /\ default_factory totals = None)).
Proof.
  intros er totals. split.
  - intros Hit. unfold compute_macro_micro_averages, keys. now rewrite Hit.
  - intros e Hc. unfold Spec.first_scores.
    destruct (items er) as [|[s0 first] rest] eqn:Hit.
    { left. unfold compute_macro_micro_averages, keys in Hc. rewrite Hit in Hc.
      injection Hc as <-. now split. }
    right. rewrite (compute_first _ _ _ _ _ Hit) in Hc.
    apply for_each_raise in Hc as [m [out [Hm Hstep]]].
    rewrite model_step_result in Hstep.
    destruct (model_result er totals m) as [r|e'] eqn:Er; simpl in Hstep;
      [discriminate|]. injection Hstep as ->.
    unfold model_result in Er.
    destruct (for_each (weight_step totals m) (items er) (of_int 0, 0))
      as [[ts tc]|e'] eqn:Ew; simpl in Er.
    + destruct (0 <? tc) eqn:Ep; [|discriminate].
      apply Z.ltb_lt in Ep. rewrite (truediv_pos _ _ Ep) in Er. simpl in Er.
      destruct (sum_scores er m) as [s|e'] eqn:Es; simpl in Er.
      * rewrite truediv_pos in Er; [discriminate|].
        unfold len. rewrite Hit. simpl. lia.
      * injection Er as ->. unfold sum_scores in Es.
        apply for_each_raise in Es as [scores [s [Hin Hs]]].
        destruct (subscript scores m) as [v|e'] eqn:E; simpl in Hs; [discriminate|].
        injection Hs as ->. apply subscript_raise in E as [-> [Hcn Hd]].
        left. exists m, scores. repeat split; assumption.
    + injection Er as ->.
      apply for_each_raise in Ew as [[s sc] [[ts tc] [Hin Hs]]].
      unfold weight_step in Hs. destruct (contains sc m) eqn:Ec; [|discriminate].
      destruct (proj1 (contains_true_get _ _) Ec) as [v Hv].
      rewrite (subscript_get _ _ _ Hv) in Hs. simpl in Hs.
      destruct (subscript totals s) as [c|e'] eqn:E; simpl in Hs; [discriminate|].
      injection Hs as ->. apply subscript_raise in E as [-> [Hcn Hd]].
      right. exists s. split; [reflexivity|]. split; [|now split].
      unfold keys. now apply (in_map fst) in Hin.
Qed.

End CombinerProperties.

Lemma combination_exceptions_witness :
  (KeyError "m" = StopIteration /\ items Examples.partial_dict = []) \/
  (exists m scores,
      KeyError "m" = KeyError m /\
      In m (keys (Spec.first_scores Examples.partial_dict)) /\
      In scores (values Examples.partial_dict) /\
      contains scores m = false /\ default_factory scores = None) \/
  (exists subset,
      KeyError "m" = KeyError subset /\ In subset (keys Examples.partial_dict) /\
      contains Examples.unit_weights subset = false /\
      default_factory Examples.unit_weights = None).
Proof.
  apply (proj2 (combination_exceptions (F:=float)
                  Examples.partial_dict Examples.unit_weights)).
  vm_compute. reflexivity.
Defined.


Lemma averages_share_keys_witness :
  keys (mkdict [("m", 10 # 1010)] None : pydict Q) =
    filter (fun m => 0 <? Spec.total_weight Examples.small_large_exact
                                            Examples.weights_10_1000 m)
           (keys (Spec.first_scores Examples.small_large_exact)) /\
  keys (mkdict [("m", 1 # 2)] None : pydict Q) =
    keys (mkdict [("m", 10 # 1010)] None : pydict Q) /\
  default_factory (mkdict [("m", 10 # 1010)] None : pydict Q) = None /\
  default_factory (mkdict [("m", 1 # 2)] None : pydict Q) = None.
Proof.
  apply (averages_share_keys (F:=Q)
           Examples.small_large_exact Examples.weights_10_1000).
  - vm_compute. reflexivity.
  - repeat constructor. intros [].
Defined.

Section ExactCombination.

Import ProcessResults.

Open Scope Q_scope.

Implicit Types (er : pydict (pydict Q)) (totals : pydict Z) (m : string).

Lemma unit_accuracy scores m : unit_scores scores -> 0 <= Spec.accuracy scores m <= 1.
Proof.
  intros [Hi _]. unfold Spec.accuracy. destruct (get scores m) as [v|] eqn:E.
  - apply assoc_In in E. now apply (Hi m).
  - simpl. split; discriminate.
Qed.

Lemma unit_looked_up scores m : unit_scores scores -> 0 <= looked_up scores m <= 1.
Proof.
  intros [Hi Hd]. unfold looked_up, subscript, getitem.
  destruct (get scores m) as [v|] eqn:E; simpl.
  - apply assoc_In in E. now apply (Hi m).
  - destruct (default_factory scores) as [v|]; simpl.
    + now apply Hd.
    + split; discriminate.
Qed.

(** X7.  In exact arithmetic, when every score lies between 0 and 1 and no
    weight is negative, every macro average and every micro average that the
    combination reports lies between 0 and 1. *)
Theorem averages_bounds :
  forall er totals macro micro,
    compute_macro_micro_averages er totals = Ok (macro, micro) ->
    (forall subset scores, In (subset, scores) (items er) ->
       unit_scores scores /\ (0 <= Spec.weight totals subset)%Z) ->
    forall m,
      (forall a, get macro m = Some a -> 0 <= a <= 1) /\
      (forall b, get micro m = Some b -> 0 <= b <= 1).
Proof.
  intros er totals macro micro Hc Hunit m.
  pose proof (compute_get er totals macro micro m Hc) as Hg.
  destruct (contains (Spec.first_scores er) m && (0 <? Spec.total_weight er totals m)%Z)
    eqn:Econd; injection Hg as -> ->; [|split; intros ? [=]].
  apply andb_prop in Econd as [_ Hw]. apply Z.ltb_lt in Hw.
  split; intros x [= <-].
  - unfold Spec.macro_average, Spec.sum_F.
    set (l := map (fun kv => (Spec.accuracy (snd kv) m, Spec.weight totals (fst kv)))
                  (Spec.scored er m)).
    assert (Hl : forall p, In p l -> 0 <= fst p <= 1 /\ (0 <= snd p)%Z).
    { intros p Hp. apply in_map_iff in Hp as [[s sc] [<- Hin]]. simpl.
      apply filter_In in Hin as [Hin _]. destruct (Hunit s sc Hin) as [Hu Hwt].
      split; [now apply unit_accuracy|assumption]. }
    destruct (weighted_sum_bounds l Hl) as [Hlo Hhi].
    assert (E1 : map (fun p => fst p * inject_Z (snd p)) l =
                 map (fun kv => fmul (Spec.accuracy (snd kv) m)
                                     (of_int (Spec.weight totals (fst kv))))
                     (Spec.scored er m)).
    { unfold l. rewrite map_map. reflexivity. }
    assert (E2 : fold_left Z.add (map snd l) 0%Z = Spec.total_weight er totals m).
    { unfold l, Spec.total_weight, Spec.sum_Z. rewrite map_map. reflexivity. }
    rewrite E1 in Hlo, Hhi. rewrite E2 in Hhi.
    assert (Hq : 0 < inject_Z (Spec.total_weight er totals m))
      by (unfold Qlt; simpl; lia).
    simpl. split.
    + apply Qle_shift_div_l; [assumption|]. now rewrite Qmult_0_l.
    + apply Qle_shift_div_r; [assumption|]. now rewrite Qmult_1_l.
  - unfold micro_looked_up, Spec.sum_F.
    destruct (sum_bounds (map (fun scores => looked_up scores m) (values er)) 0)
      as [Hlo Hhi].
    { intros x Hx. apply in_map_iff in Hx as [sc [<- Hin]].
      unfold values in Hin. apply in_map_iff in Hin as [[s sc'] [<- Hin]].
      apply unit_looked_up. now apply (Hunit s sc'). }
    rewrite length_map in Hhi. unfold values in Hhi. rewrite length_map in Hhi.
    rewrite Qplus_0_l in Hhi. fold (len er) in Hhi.
    assert (Hn : (0 < len er)%Z).
    { unfold len. destruct (items er) eqn:Hit; [|simpl; lia].
      unfold Spec.total_weight, Spec.scored, Spec.sum_Z in Hw. rewrite Hit in Hw.
      simpl in Hw. lia. }
    assert (Hq : 0 < inject_Z (len er)) by (unfold Qlt; simpl; lia).
    simpl. split.
    + apply Qle_shift_div_l; [assumption|]. now rewrite Qmult_0_l.
    + apply Qle_shift_div_r; [assumption|]. now rewrite Qmult_1_l.
Qed.

End ExactCombination.

Lemma averages_bounds_witness :
  (forall a, get (mkdict [("m", 10 # 1010)] None : pydict Q) "m" = Some a ->
             (0 <= a <= 1)%Q) /\
  (forall b, get (mkdict [("m", 1 # 2)] None : pydict Q) "m" = Some b ->
             (0 <= b <= 1)%Q).
Proof.
  apply (averages_bounds Examples.small_large_exact Examples.weights_10_1000).
  - vm_compute. reflexivity.
  - intros subset scores [E|[E|[]]]; injection E as <- <-;
      (split; [split|vm_compute; discriminate]).
    + intros k v [[= <- <-]|[]]. split; discriminate.
    + intros v [= <-]. split; discriminate.
    + intros k v [[= <- <-]|[]]. split; discriminate.
    + intros v [= <-]. split; discriminate.
Defined.

Section EqualWeights.

Import ProcessResults.

Open Scope Q_scope.

(** X8.  In exact arithmetic, when all subsets have the same weight, the
    macro average and the micro average of a model that has a score in every
    subset are equal. *)
Theorem equal_weights_macro_is_micro :
  forall (er : pydict (pydict Q)) (totals : pydict Z) macro micro m w a b,
    compute_macro_micro_averages er totals = Ok (macro, micro) ->
    Spec.scored_everywhere er m ->
    (forall subset, In subset (keys er) -> Spec.weight totals subset = w) ->
    get macro m = Some a -> get micro m = Some b ->
    a == b.
Proof.
  intros er totals macro micro m w a b Hc Hall Hw Ha Hb.
  pose proof (compute_get er totals macro micro m Hc) as Hg.
  rewrite Ha, Hb in Hg.
  destruct (contains (Spec.first_scores er) m && (0 <? Spec.total_weight er totals m)%Z)
    eqn:Econd; [|discriminate].
  apply andb_prop in Econd as [_ Hpos]. apply Z.ltb_lt in Hpos.
  assert (Ea : a = Spec.macro_average er totals m) by congruence.
  assert (Eb : b = micro_looked_up er m) by congruence.
  clear Hg Ha Hb. subst a b.
  rewrite (micro_looked_up_spec er m)
    by (intros s sc Hin; left; now apply (Hall s sc)).
  unfold Spec.macro_average, Spec.micro_average, Spec.total_weight, Spec.sum_F,
    Spec.sum_Z in *.
  rewrite (scored_all er m Hall) in *.
  assert (E1 : map (fun kv => fmul (Spec.accuracy (snd kv) m)
                                   (of_int (Spec.weight totals (fst kv)))) (items er)
               = map (fun x => x * inject_Z w)
                     (map (fun kv => Spec.accuracy (snd kv) m) (items er))).
  { rewrite map_map. apply map_ext_in. intros [s sc] Hin. simpl.
    rewrite (Hw s); [reflexivity|]. unfold keys. now apply (in_map fst) in Hin. }
  assert (E2 : fold_left Z.add (map (fun kv => Spec.weight totals (fst kv)) (items er)) 0%Z
               = (len er * w)%Z).
  { rewrite (zsum_constant _ w).
    - now rewrite length_map.
    - intros x Hx. apply in_map_iff in Hx as [[s sc] [<- Hin]]. simpl.
      apply Hw. unfold keys. now apply (in_map fst) in Hin. }
  rewrite E2 in Hpos |- *. rewrite E1, weighted_sum_constant.
  simpl. rewrite inject_Z_mult.
  assert (Hlen : (0 <= len er)%Z) by (unfold len; lia).
  assert (Hwpos : (0 < w)%Z) by nia.
  assert (Hlpos : (0 < len er)%Z) by nia.
  assert (Hw0 : ~ inject_Z w == 0) by (unfold Qeq; simpl; lia).
  assert (Hl0 : ~ inject_Z (len er) == 0) by (unfold Qeq; simpl; lia).
  change (inject_Z 0) with 0.
  set (S := fold_left Qplus
              (map (fun kv : string * pydict Q => Spec.accuracy (snd kv) m) (items er)) 0).
  field. split; assumption.
Qed.

End EqualWeights.

Lemma equal_weights_macro_is_micro_witness : ((7 # 14) == (1 # 2))%Q.
Proof.
  apply (equal_weights_macro_is_micro
           Examples.small_large_exact (mkdict [("small", 7); ("large", 7)] None)
           (mkdict [("m", 7 # 14)] None) (mkdict [("m", 1 # 2)] None) "m" 7
           (7 # 14) (1 # 2)).
  - vm_compute. reflexivity.
  - intros subset scores [E|[E|[]]]; injection E as <- <-; reflexivity.
  - intros subset [<-|[<-|[]]]; reflexivity.
  - vm_compute. reflexivity.
  - reflexivity.
Defined.

(** * The subsets of the results repository *)

Section SubsetProperties.

Import ProcessResults.

Lemma subsets_loop listing acc :
  exists subsets,
    for_each
      (fun subsets data =>
         if String.eqb (entry_type data) "directory"
            && negb (String.eqb (entry_name data) "evaluation_results")
         then
           subset <- PyStr.index_last (PyStr.split "/" (entry_name data)) ;;
           Ok (subsets ++ [subset])
         else Ok subsets)
      listing acc = Ok (acc ++ subsets) /\
    forall s,
      In s subsets <->
      exists data,
        In data listing /\ entry_type data = "directory" /\
        entry_name data <> "evaluation_results" /\
        occurs "/" s = false /\
        (if occurs "/" (entry_name data)
         then exists pre, entry_name data = (pre ++ "/" ++ s)%string
         else s = entry_name data).
Proof.
  revert acc. induction listing as [|data listing IH]; intros acc.
  - exists []. split; [simpl; now rewrite app_nil_r|].
    intros s. split; [intros []|intros [data [[] _]]].
  - cbn [for_each].
    destruct (String.eqb (entry_type data) "directory"
              && negb (String.eqb (entry_name data) "evaluation_results")) eqn:Ek.
    + destruct (split_last "/" (entry_name data)) as [last [Hl [Ho Hs]]].
      rewrite Hl. cbn [bind].
      destruct (IH (acc ++ [last])) as [subsets [Hloop Hin]].
      exists (last :: subsets). split.
      { rewrite Hloop, <- app_assoc. reflexivity. }
      apply andb_prop in Ek as [Ht Hn].
      apply String.eqb_eq in Ht. apply negb_true_iff, String.eqb_neq in Hn.
      intros s. split.
      * intros [<-|Hs']; [exists data|].
        -- split; [now left|]. repeat split; assumption.
        -- apply Hin in Hs' as [d [Hd Hrest]]. exists d. split; [now right|assumption].
      * intros [d [[<-|Hd] [Ht' [Hn' [Ho' Hs']]]]].
        -- left. destruct (occurs "/" (entry_name data)) eqn:Eo.
           ++ destruct Hs as [pre Hpre]. destruct Hs' as [pre' Hpre'].
              rewrite Hpre in Hpre'. clear -Hpre' Ho Ho'.
              revert pre' Hpre'. induction pre as [|c pre IHp]; intros pre' Hpre'.
              ** destruct pre' as [|c' pre']; simpl in Hpre'.
                 --- now injection Hpre'.
                 --- injection Hpre' as <- ->. exfalso.
                     clear -Ho. induction pre' as [|c pre' IHq]; simpl in Ho.
                     +++ discriminate.
                     +++ apply orb_false_elim in Ho as [_ Ho]. auto.
              ** destruct pre' as [|c' pre']; simpl in Hpre'.
                 --- injection Hpre' as -> <-. exfalso.
                     clear -Ho'. induction pre as [|c pre IHq]; simpl in Ho'.
                     +++ discriminate.
                     +++ apply orb_false_elim in Ho' as [_ Ho']. auto.
                 --- injection Hpre' as -> Hpre'. now apply (IHp pre').
           ++ congruence.
        -- right. apply Hin. exists d. repeat split; assumption.
    + destruct (IH acc) as [subsets [Hloop Hin]]. exists subsets.
      split; [assumption|]. intros s. rewrite Hin. split.
      * intros [d [Hd Hrest]]. exists d. split; [now right|assumption].
      * intros [d [[<-|Hd] [Ht' [Hn' Hrest]]]].
        -- exfalso. apply String.eqb_eq in Ht'. apply String.eqb_neq in Hn'.
           rewrite Ht', Hn' in Ek. discriminate.
        -- exists d. repeat split; tauto.
Qed.

Lemma occurs_after c (a b : string) : occurs c (a ++ String c b) = true.
Proof.
  induction a as [|c' a IH]; simpl.
  - now rewrite Ascii.eqb_refl.
  - rewrite IH. apply orb_true_r.
Qed.

(** X1.  [get_dataset_subsets] always returns.  A name is returned exactly
    when the listing has an entry of type [directory], not named exactly
    [evaluation_results], of which it is the last ['/']-separated component;
    no returned name holds a ['/'].  In particular a folder listed by its
    full path is returned whatever its last component is. *)
Theorem subsets_are_last_components :
  forall listing,
    exists subsets,
      get_dataset_subsets listing = Ok subsets /\
      (forall s,
          In s subsets <->
          exists data,
            In data listing /\ entry_type data = "directory" /\
            entry_name data <> "evaluation_results" /\
            occurs "/" s = false /\
            (if occurs "/" (entry_name data)
             then exists pre, entry_name data = (pre ++ "/" ++ s)%string
             else s = entry_name data)) /\
      (forall data s pre,
          In data listing -> entry_type data = "directory" ->
          occurs "/" s = false -> entry_name data = (pre ++ "/" ++ s)%string ->
          In s subsets).
Proof.
  intros listing. destruct (subsets_loop listing []) as [subsets [Hloop Hin]].
  exists subsets. split; [exact Hloop|]. split; [exact Hin|].
  intros data s pre Hd Ht Ho Hn. apply Hin. exists data.
  split; [assumption|]. split; [assumption|].
  assert (Hocc : occurs "/" (entry_name data) = true).
  { rewrite Hn. apply occurs_after. }
  split.
  - intros E. rewrite E in Hocc. discriminate.
  - split; [assumption|]. rewrite Hocc. now exists pre.
Qed.

Lemma subsets_are_last_components_witness :
  exists subsets,
    get_dataset_subsets
      [mk_ls_entry "datasets/org/results/evaluation_results" "directory"] = Ok subsets /\
    In "evaluation_results" subsets.
Proof.
  destruct (subsets_are_last_components
              [mk_ls_entry "datasets/org/results/evaluation_results" "directory"])
    as [subsets [Hs [_ Hfull]]].
  exists subsets. split; [exact Hs|].
  apply (Hfull (mk_ls_entry "datasets/org/results/evaluation_results" "directory")
               "evaluation_results" "datasets/org/results").
  - now left.
  - reflexivity.
  - reflexivity.
  - reflexivity.
Defined.

End SubsetProperties.

(** * Further properties of [extract_results] *)

Section ExtractProperties.

Import ExtractResults.

Lemma split_prefix sep (a b : string) :
  occurs sep a = false ->
  exists w ws,
    PyStr.split sep b = w :: ws /\ PyStr.split sep (a ++ b) = (a ++ w)%string :: ws.
Proof.
  intros Ho. destruct (PyStr.split sep b) as [|w ws] eqn:Eb;
    [now elim (split_nonempty sep b)|].
  exists w, ws. split; [reflexivity|].
  induction a as [|c a IH]; simpl.
  - assumption.
  - simpl in Ho. apply orb_false_elim in Ho as [Hc Ha].
    now rewrite Hc, (IH Ha).
Qed.

(** X9.  The name under which a task is reported.  A key without [':'] is
    reported as it is.  A key [suite:name], [suite:name|rest] or
    [suite:name:rest], where [suite] and [name] hold no [':'] and [name] no
    ['|'], is reported as [name]; so the key [community|task:sub|0] is
    reported as [sub]. *)
Theorem clean_task_name_format :
  (forall key : string, occurs ":" key = false -> clean_task_name key = key) /\
  (forall suite name rest : string,
      occurs ":" suite = false -> occurs ":" name = false ->
      occurs "|" name = false ->
      clean_task_name (suite ++ ":" ++ name) = name /\
      clean_task_name (suite ++ ":" ++ name ++ "|" ++ rest) = name /\
      clean_task_name (suite ++ ":" ++ name ++ ":" ++ rest) = name).
Proof.
  split.
  - intros key Hk. unfold clean_task_name. now rewrite (split_nosep _ _ Hk).
  - intros suite name rest Hs Hn Hb. unfold clean_task_name. repeat split.
    + change (suite ++ ":" ++ name)%string with (suite ++ String ":" name)%string.
      rewrite (split_app _ _ _ Hs), (split_nosep _ _ Hn). cbn.
      now rewrite (split_nosep _ _ Hb).
    + change (suite ++ ":" ++ name ++ "|" ++ rest)%string
        with (suite ++ String ":" (name ++ String "|" rest))%string.
      rewrite (split_app _ _ _ Hs).
      destruct (split_prefix ":" name (String "|" rest) Hn) as [w [ws [Hw ->]]].
      cbn [PyStr.index nth_error bind].
      assert (Ew : exists w', w = String "|" w').
      { simpl in Hw. destruct (PyStr.split ":" rest) as [|u us];
          injection Hw as <- _; now eexists. }
      destruct Ew as [w' ->].
      now rewrite (split_app _ _ _ Hb).
    + change (suite ++ ":" ++ name ++ ":" ++ rest)%string
        with (suite ++ String ":" (name ++ String ":" rest))%string.
      rewrite (split_app _ _ _ Hs), (split_app _ _ _ Hn).
      cbn [PyStr.index nth_error bind].
      now rewrite (split_nosep _ _ Hb).
Qed.

Lemma clean_task_name_format_witness :
  clean_task_name "leaderboard" = "leaderboard" /\
  clean_task_name ("community|task" ++ ":" ++ "sub" ++ "|" ++ "0") = "sub".
Proof.
  destruct (@clean_task_name_format) as [Hplain Hcolon]. split.
  - apply Hplain. reflexivity.
  - apply (Hcolon "community|task" "sub" "0"); reflexivity.
Defined.

Context {F : Type} `{PyFloat F}.

Lemma task_step_passed_over cfg st (task : string * option F) :
  passed_over task = true -> task_step cfg st task = Ok st.
Proof.
  destruct st as [[res twa] td]. destruct task as [key acc].
  unfold passed_over, task_step. simpl.
  destruct (PyStr.str_in "_average" key || String.eqb key "all"); [reflexivity|].
  destruct acc; [discriminate|reflexivity].
Qed.

Lemma task_loop_filter cfg (tasks : list (string * option F)) st :
  for_each (task_step cfg) (filter (fun task => negb (passed_over task)) tasks) st =
  for_each (task_step cfg) tasks st.
Proof.
  revert st. induction tasks as [|task tasks IH]; intros st; [reflexivity|].
  cbn [filter for_each]. destruct (passed_over task) eqn:Ep; cbn [negb].
  - rewrite (task_step_passed_over _ _ _ Ep). cbn [bind]. apply IH.
  - cbn [for_each]. destruct (task_step cfg st task); cbn [bind]; [apply IH|reflexivity].
Qed.

(** X10.  For a results file that holds a document of the shape that the
    harness writes (what [document] holds), the tasks whose key holds
    [_average] or is [all], and the tasks without an [acc_norm], have no
    effect on what [extract_results] returns: the result is that of the
    document without these tasks. *)
Theorem extraction_ignores_passed_over :
  forall data : document F,
    extract_results (Some (without_passed_over data)) = extract_results (Some data).
Proof.
  intros data. unfold extract_results, without_passed_over.
  cbn [config_general_model_name results config_tasks]. now rewrite task_loop_filter.
Qed.

End ExtractProperties.

Section ExtractReport.

Import ExtractResults.

Context {F : Type} `{PyFloat F}.

Lemma task_loop_results cfg (tasks : list (string * option F)) res twa td :
  exists twa' td',
    for_each (task_step cfg) tasks (res, twa, td) =
    Ok (fold_left report_task tasks res, twa', td').
Proof.
  revert res twa td. induction tasks as [|[key acc] tasks IH]; intros res twa td.
  - now do 2 eexists.
  - cbn [for_each fold_left]. unfold report_task at 2, reported_task, task_step.
    cbn [fst snd].
    destruct (PyStr.str_in "_average" key || String.eqb key "all"); cbn [bind].
    + apply IH.
    + destruct acc as [a|]; cbn [bind]; [|apply IH].
      destruct (rsplit1_first "|" key) as [k ->]. cbn [bind].
      destruct (num_docs_of cfg k) as [n|]; cbn [bind]; apply IH.
Qed.

Lemma report_loop_get (tasks : list (string * option F)) res name a :
  get (fold_left report_task tasks res) name = Some a ->
  get res name = Some a \/
  exists task, In task tasks /\ reported_task task = Some (name, a).
Proof.
  revert res. induction tasks as [|task tasks IH]; intros res Hg; [now left|].
  cbn [fold_left] in Hg. apply IH in Hg as [Hg|[t [Hin Ht]]].
  - unfold report_task in Hg.
    destruct (reported_task task) as [[n x]|] eqn:Er; [|now left].
    rewrite get_setitem in Hg. destruct (String.eqb_spec name n) as [->|Hne].
    + injection Hg as ->. right. exists task. split; [now left|assumption].
    + now left.
  - right. exists t. split; [now right|assumption].
Qed.

Lemma report_loop_contains (tasks : list (string * option F)) res name :
  contains (fold_left report_task tasks res) name = true <->
  contains res name = true \/
  exists task a, In task tasks /\ reported_task task = Some (name, a).
Proof.
  revert res. induction tasks as [|task tasks IH]; intros res.
  - simpl. split; [now left|]. intros [Hc|[t [a [[] _]]]]. assumption.
  - cbn [fold_left]. rewrite IH. unfold report_task at 1.
    destruct (reported_task task) as [[n x]|] eqn:Er.
    + unfold contains at 1. rewrite get_setitem.
      destruct (String.eqb_spec name n) as [->|Hne].
      * split; [|now left]. intros _. right. exists task, x.
        split; [now left|assumption].
      * fold (contains res name). split.
        -- intros [Hc|[t [a [Hin Ht]]]]; [now left|].
           right. exists t, a. split; [now right|assumption].
        -- intros [Hc|[t [a [[<-|Hin] Ht]]]]; [now left| |].
           ++ rewrite Er in Ht. injection Ht as -> _. contradiction.
           ++ right. exists t, a. now split.
    + split.
      * intros [Hc|[t [a [Hin Ht]]]]; [now left|].
        right. exists t, a. split; [now right|assumption].
      * intros [Hc|[t [a [[<-|Hin] Ht]]]]; [now left|congruence|].
        right. exists t, a. now split.
Qed.

Lemma report_loop_default (tasks : list (string * option F)) res :
  default_factory (fold_left report_task tasks res) = default_factory res.
Proof.
  revert res. induction tasks as [|task tasks IH]; intros res; [reflexivity|].
  cbn [fold_left]. rewrite IH. unfold report_task.
  now destruct (reported_task task) as [[n x]|].
Qed.

(** X12.  The names that an extraction reports are the clean names of the
    tasks that have an [acc_norm] and are not passed over, and the value
    reported under a name is the [acc_norm] of such a task. *)
Theorem extraction_reports_tasks :
  forall (data : document F) e,
    extract_results (Some data) = Ok (Extracted e) ->
    default_factory (evaluation_results e) = None /\
    (forall name,
        contains (evaluation_results e) name = true <->
        exists key acc_norm,
          In (key, Some acc_norm) (results data) /\
          PyStr.str_in "_average" key = false /\ key <> "all" /\
          clean_task_name key = name) /\
    (forall name acc_norm,
        get (evaluation_results e) name = Some acc_norm ->
        exists key,
          In (key, Some acc_norm) (results data) /\
          PyStr.str_in "_average" key = false /\ key <> "all" /\
          clean_task_name key = name).
Proof.
  intros data e He. unfold extract_results in He.
  destruct (task_loop_results (config_tasks data) (results data) empty_dict (of_int 0) 0)
    as [twa [td Hloop]].
  rewrite Hloop in He. cbn [bind] in He.
  assert (Hres : evaluation_results e = fold_left report_task (results data) empty_dict).
  { destruct (0 <? td); [destruct (truediv twa td)|]; cbn [bind] in He;
      try discriminate; now injection He as <-. }
  rewrite Hres. clear He Hloop Hres.
  assert (Hrep : forall (task : string * option F) name a,
             reported_task task = Some (name, a) <->
             snd task = Some a /\ PyStr.str_in "_average" (fst task) = false /\
             fst task <> "all" /\ clean_task_name (fst task) = name).
  { intros [key acc] name a. unfold reported_task. cbn [fst snd].
    destruct (PyStr.str_in "_average" key) eqn:E1; cbn [orb].
    - split; [discriminate|]. intros [_ [E _]]. discriminate.
    - destruct (String.eqb_spec key "all") as [->|Hne].
      + split; [discriminate|]. intros [_ [_ [E _]]]. contradiction.
      + destruct acc as [x|].
        * split.
          -- intros [= <- <-]. repeat split. assumption.
          -- intros [[= ->] [_ [_ <-]]]. reflexivity.
        * split; [discriminate|]. intros [E _]. discriminate. }
  split; [|split].
  - now rewrite report_loop_default.
  - intros name. rewrite report_loop_contains. split.
    + intros [Hc|[[key acc] [a [Hin Hr]]]]; [discriminate|].
      apply Hrep in Hr as [Hs [H1 [H2 H3]]]. cbn [fst snd] in *. subst acc.
      now exists key, a.
    + intros [key [a [Hin [H1 [H2 H3]]]]]. right. exists (key, Some a), a.
      split; [assumption|]. apply Hrep. now repeat split.
  - intros name a Hg. apply report_loop_get in Hg as [Hg|[[key acc] [Hin Hr]]];
      [discriminate|].
    apply Hrep in Hr as [Hs [H1 [H2 H3]]]. cbn [fst snd] in *. subst acc.
    now exists key.
Qed.

End ExtractReport.

Lemma extraction_reports_tasks_witness :
  default_factory (mkdict [("a", (1 # 2)%Q); ("b", 1%Q)] None : pydict Q) = None /\
  (forall name,
      contains (mkdict [("a", (1 # 2)%Q); ("b", 1%Q)] None : pydict Q) name = true <->
      exists key acc_norm,
        In (key, Some acc_norm) (ExtractResults.results sample_document) /\
        PyStr.str_in "_average" key = false /\ key <> "all" /\
        ExtractResults.clean_task_name key = name) /\
  (forall name acc_norm,
      get (mkdict [("a", (1 # 2)%Q); ("b", 1%Q)] None : pydict Q) name = Some acc_norm ->
      exists key,
        In (key, Some acc_norm) (ExtractResults.results sample_document) /\
        PyStr.str_in "_average" key = false /\ key <> "all" /\
        ExtractResults.clean_task_name key = name).
Proof.
  apply (extraction_reports_tasks sample_document
           (ExtractResults.mkextraction "model"
              (mkdict [("a", (1 # 2)%Q); ("b", 1%Q)] None) (70 # 80))).
  vm_compute. reflexivity.
Defined.

Section ExtractExact.

Import ExtractResults.

Open Scope Q_scope.

Lemma counted_In cfg (tasks : list (string * option Q)) a n :
  In (a, n) (counted cfg tasks) ->
  (exists key, In (key, Some a) tasks) /\ (exists key, In (key, Some n) cfg).
Proof.
  induction tasks as [|[key acc] tasks IH]; [intros []|].
  cbn [counted]. intros Hin.
  assert (Hrest : In (a, n) (counted cfg tasks) ->
                  (exists key0, In (key0, Some a) ((key, acc) :: tasks)) /\
                  (exists key0, In (key0, Some n) cfg)).
  { intros Hc. destruct (IH Hc) as [[k Hk] Hn]. split; [|assumption].
    exists k. now right. }
  destruct (counted_task cfg (key, acc)) as [[a' n']|] eqn:Ec; [|now apply Hrest].
  destruct Hin as [[= -> ->]|Hin]; [|now apply Hrest].
  unfold counted_task in Ec.
  destruct (PyStr.str_in "_average" key || String.eqb key "all"); [discriminate|].
  destruct acc as [x|]; [|discriminate].
  destruct (PyStr.index (PyStr.rsplit1 "|" key) 0) as [k|]; [|discriminate].
  unfold num_docs_of in Ec.
  destruct (assoc k cfg) as [[m|]|] eqn:Ea; try discriminate.
  injection Ec as -> ->. split.
  - exists key. now left.
  - exists k. now apply assoc_In.
Qed.

(** X11.  In exact arithmetic, when every [acc_norm] of the document lies
    between 0 and 1 and no document count is negative, the macro accuracy
    of the extraction lies between 0 and 1; it is the sum of
    [acc_norm * num_docs] over the sum of [num_docs], taken over the tasks
    that are not passed over and have a document count, when that sum is
    positive. *)
Theorem macro_accuracy_bounds :
  forall (data : document Q) e,
    (forall key a, In (key, Some a) (results data) -> 0 <= a <= 1) ->
    (forall key n, In (key, Some n) (config_tasks data) -> (0 <= n)%Z) ->
    extract_results (Some data) = Ok (Extracted e) ->
    0 <= macro_accuracy e <= 1 /\
    ((0 < total_docs data)%Z ->
     macro_accuracy e = weighted_acc data / inject_Z (total_docs data)).
Proof.
  intros data e Hacc Hdocs He.
  destruct (extract_results_eq data) as [e' [He' Hm]].
  rewrite He in He'. injection He' as <-. rewrite Hm. clear He Hm.
  destruct (weighted_sum_bounds (counted (config_tasks data) (results data)))
    as [Hlo Hhi].
  { intros [a n] Hin. apply counted_In in Hin as [[k Hk] [k' Hk']]. simpl.
    split; [now apply (Hacc k)|now apply (Hdocs k')]. }
  fold (weighted_acc data) in Hlo, Hhi. fold (total_docs data) in Hhi.
  destruct (0 <? total_docs data)%Z eqn:Ep.
  - apply Z.ltb_lt in Ep. split; [|reflexivity].
    assert (Hq : 0 < inject_Z (total_docs data)) by (unfold Qlt; simpl; lia).
    simpl. split.
    + apply Qle_shift_div_l; [assumption|]. now rewrite Qmult_0_l.
    + apply Qle_shift_div_r; [assumption|]. now rewrite Qmult_1_l.
  - apply Z.ltb_ge in Ep. split; [simpl; split; discriminate|]. lia.
Qed.

End ExtractExact.

Lemma macro_accuracy_bounds_witness :
  (0 <= 70 # 80 <= 1)%Q /\
  ((0 < total_docs sample_document)%Z ->
   (70 # 80 = weighted_acc sample_document / inject_Z (total_docs sample_document))%Q).
Proof.
  apply (macro_accuracy_bounds sample_document
           (ExtractResults.mkextraction "model"
              (mkdict [("a", (1 # 2)%Q); ("b", 1%Q)] None) (70 # 80))).
  - intros key a [[= <- <-]|[[= <- <-]|[[= <- <-]|[]]]]; split; discriminate.
  - intros key n [[= <- <-]|[[= <- <-]|[]]]; discriminate.
  - vm_compute. reflexivity.
Defined.

(** * The CSV file of the extraction script *)

Section CsvProperties.

Import ExtractResults.

Context {F : Type} `{PyFloat F}.

Lemma In_keys_assoc_set {V : Type} (l : list (string * V)) k v k' :
  In k' (map fst (assoc_set k v l)) <-> k' = k \/ In k' (map fst l).
Proof.
  destruct (in_dec string_dec k (map fst l)) as [Hin|Hnin].
  - rewrite keys_assoc_set_old by assumption. split; [now right|].
    intros [->|Hk]; assumption.
  - rewrite keys_assoc_set_new by assumption. rewrite in_app_iff. simpl.
    intuition congruence.
Qed.

Lemma keys_fold_set {V A : Type} (f : A -> string) (g : A -> V) kvs (row : pydict V) k :
  In k (keys (fold_left (fun row kv => setitem row (f kv) (g kv)) kvs row)) <->
  In k (keys row) \/ In k (map f kvs).
Proof.
  revert row. induction kvs as [|kv kvs IH]; intros row; simpl; [tauto|].
  rewrite IH. unfold keys at 1, setitem. cbn [items].
  rewrite In_keys_assoc_set. unfold keys. intuition congruence.
Qed.

Lemma keys_csv_row file_name (e : extraction F) k :
  In k (keys (csv_row (file_name, e))) ->
  In k ["file_name"; "model_name"; "macro_accuracy"] \/
  In k (keys (evaluation_results e)).
Proof.
  unfold csv_row. rewrite keys_fold_set. intros [Hk|Hk]; [left|right]; assumption.
Qed.

Lemma collect_loop (files : list (string * option (document F))) res ks :
  exists res' ks',
    for_each collect_step files (res, ks) = Ok (res ++ res', ks ++ ks') /\
    List.length res' = List.length (existing files) /\
    (forall file_name e,
        In (file_name, e) res' ->
        forall k, In k (keys (evaluation_results e)) -> In k ks') /\
    (forall k, In k ks' ->
        exists file_path data e,
          In (file_path, Some data) files /\
          extract_results (Some data) = Ok (Extracted e) /\
          In k (keys (evaluation_results e))) /\
    (forall file_path data e,
        In (file_path, Some data) files ->
        extract_results (Some data) = Ok (Extracted e) ->
        forall k, In k (keys (evaluation_results e)) -> In k ks').
Proof.
  revert res ks. induction files as [|[file_path content] files IH]; intros res ks.
  - exists [], []. split; [simpl; now rewrite !app_nil_r|]. split; [reflexivity|].
    split; [intros ? ? []|]. split; [intros ? []|intros ? ? ? []].
  - cbn [for_each collect_step]. destruct content as [data|].
    + destruct (extract_results_eq data) as [e [He _]]. rewrite He. cbn [bind].
      unfold basename. destruct (split_last "/" file_path) as [last [-> _]].
      cbn [bind].
      destruct (IH (res ++ [(last, e)]) (ks ++ keys (evaluation_results e)))
        as [res' [ks' [Hloop [Hlen [Hkeys [Hfrom Hto]]]]]].
      exists ((last, e) :: res'), (keys (evaluation_results e) ++ ks').
      split; [rewrite Hloop, <- !app_assoc; reflexivity|].
      split; [simpl; now rewrite Hlen|].
      split; [|split].
      * intros fn e' [[= <- <-]|Hin] k Hk; apply in_or_app.
        -- now left.
        -- right. now apply (Hkeys fn e').
      * intros k Hk. apply in_app_or in Hk as [Hk|Hk].
        -- exists file_path, data, e. split; [now left|]. now split.
        -- destruct (Hfrom k Hk) as [fp [d [e' [Hin [He' Hk']]]]].
           exists fp, d, e'. split; [now right|]. now split.
      * intros fp d e' [[= <- <-]|Hin] He' k Hk; apply in_or_app.
        -- left. rewrite He in He'. now injection He' as <-.
        -- right. now apply (Hto fp d e').
    + cbn [extract_results bind].
      destruct (IH res ks) as [res' [ks' [Hloop [Hlen [Hkeys [Hfrom Hto]]]]]].
      exists res', ks'. split; [assumption|]. split; [assumption|].
      split; [assumption|]. split.
      * intros k Hk. destruct (Hfrom k Hk) as [fp [d [e' [Hin [He' Hk']]]]].
        exists fp, d, e'. split; [now right|]. now split.
      * intros fp d e' [[=]|Hin] He' k Hk. now apply (Hto fp d e').
Qed.

Lemma writerows_fit fieldnames (rows : list (pydict (csv_value F))) :
  (forall row k, In row rows -> In k (keys row) -> In k fieldnames) ->
  exists lines,
    writerows fieldnames rows = Some lines /\
    List.length lines = List.length rows /\
    forall line, In line lines -> List.length line = List.length fieldnames.
Proof.
  induction rows as [|row rows IH]; intros Hfit.
  - exists []. repeat split. intros ? [].
  - destruct IH as [lines [Hw [Hlen Hall]]].
    { intros r k Hr. apply Hfit. now right. }
    cbn [writerows]. unfold writerow.
    assert (Hcheck : forallb (fun k => existsb (String.eqb k) fieldnames) (keys row)
                     = true).
    { apply forallb_forall. intros k Hk. apply existsb_exists. exists k.
      split; [apply (Hfit row); [now left|assumption]|apply String.eqb_refl]. }
    rewrite Hcheck, Hw. eexists. split; [reflexivity|].
    split; [simpl; now rewrite Hlen|].
    intros line [<-|Hin]; [now rewrite length_map|now apply Hall].
Qed.

(** X13.  The CSV block, when every JSON file found has ceased to exist
    or holds a document of the shape that the harness writes.  Without a
    JSON file nothing is written.  Otherwise no row is refused by the
    writer: the header is [file_name], [model_name], [macro_accuracy]
    followed by the task names that the extractions of the existing files
    report, each once and in increasing order; there is one line per file
    that exists when it is read, and every line has one cell per column of
    the header. *)
Theorem csv_lines_fit_header :
  combine_to_csv (F:=F) [] = Ok None /\
  forall json_files : list (string * option (document F)),
    json_files <> [] ->
    exists names lines,
      combine_to_csv json_files =
      Ok (Some (["file_name"; "model_name"; "macro_accuracy"] ++ names, Some lines)) /\
      NoDup names /\ Sorted string_le names /\
      (forall k,
          In k names <->
          exists file_path data e,
            In (file_path, Some data) json_files /\
            extract_results (Some data) = Ok (Extracted e) /\
            In k (keys (evaluation_results e))) /\
      List.length lines = List.length (existing json_files) /\
      forall line, In line lines -> List.length line = (3 + List.length names)%nat.
Proof.
  split; [reflexivity|]. intros json_files Hne.
  destruct (collect_loop json_files [] [])
    as [res [ks [Hloop [Hlen [Hkeys [Hfrom Hto]]]]]].
  simpl in Hloop.
  destruct (writerows_fit
              (["file_name"; "model_name"; "macro_accuracy"]
                 ++ ProcessResults.sorted_keys ks)
              (map csv_row res)) as [lines [Hw [Hl Hall]]].
  { intros row k Hrow Hk. apply in_map_iff in Hrow as [[fn e] [<- Hin]].
    apply keys_csv_row in Hk as [Hk|Hk]; apply in_or_app; [now left|right].
    apply In_sorted_keys. now apply (Hkeys fn e). }
  exists (ProcessResults.sorted_keys ks), lines.
  split.
  - unfold combine_to_csv. destruct json_files; [contradiction|].
    rewrite Hloop. cbn [bind]. now rewrite Hw.
  - split; [apply NoDup_sorted_keys|]. split; [apply Sorted_sorted_keys|].
    split; [|split; [now rewrite Hl, length_map|]].
    + intros k. split.
      * intros Hk. apply Hfrom. exact (proj1 (In_sorted_keys _ _) Hk).
      * intros [fp [d [e [Hin [He Hk]]]]].
        apply (proj2 (In_sorted_keys _ _)). now apply (Hto fp d e).
    + intros line Hin. rewrite (Hall line Hin), length_app. reflexivity.
Qed.

End CsvProperties.

Lemma csv_lines_fit_header_witness :
  exists names lines,
    ExtractResults.combine_to_csv
      [("runs/r1.json", Some sample_document); ("gone.json", None)] =
    Ok (Some (["file_name"; "model_name"; "macro_accuracy"] ++ names, Some lines)) /\
    NoDup names /\ Sorted string_le names /\
    (forall k,
        In k names <->
        exists file_path data e,
          In (file_path, Some data)
             [("runs/r1.json", Some sample_document); ("gone.json", None)] /\
          ExtractResults.extract_results (Some data) = Ok (ExtractResults.Extracted e) /\
          In k (keys (ExtractResults.evaluation_results e))) /\
    List.length lines =
      List.length (existing [("runs/r1.json", Some sample_document); ("gone.json", None)]) /\
    forall line, In line lines -> List.length line = (3 + List.length names)%nat.
Proof.
  apply (proj2 (csv_lines_fit_header (F:=Q))). discriminate.
Defined.

(** * Further properties of [combine_results_memory_efficient] *)

Section ScanProperties.

Import CombineDetails.

Context {C : Type}.

Variable fs : input_fs C.

Implicit Types (w : world (dataframe C)) (files_by_eval : pydict (list file_info)).

Lemma register_file_grouped dir model time files_by_eval filename w :
  default_factory files_by_eval = Some [] ->
  exists files_by_eval',
    register_file dir model time files_by_eval filename w = (w, Ok files_by_eval') /\
    default_factory files_by_eval' = Some [] /\
    forall name,
      registered files_by_eval' name =
      registered files_by_eval name ++
      (if result_file_of name filename
       then [mkinfo (PyStr.path_join dir filename) model time]
       else []).
Proof.
  intros Hd. unfold register_file, result_file_of.
  destruct (PyStr.endswith filename ".parquet").
  - destruct (eval_name_of_filename_returns filename) as [n ->]. cbn [bind andb].
    unfold append_info, getitem.
    destruct (get files_by_eval n) as [l|] eqn:Hg; [|rewrite Hd]; cbn [bind];
      (eexists; split; [reflexivity|]; split; [assumption|]);
      intros name; unfold registered; rewrite !get_setitem;
      destruct (String.eqb_spec name n) as [->|Hne].
    + rewrite String.eqb_refl, Hg. reflexivity.
    + assert (E : String.eqb n name = false) by (apply String.eqb_neq; congruence).
      rewrite E, app_nil_r. reflexivity.
    + rewrite String.eqb_refl, Hg. reflexivity.
    + assert (E : String.eqb n name = false) by (apply String.eqb_neq; congruence).
      rewrite E, app_nil_r. reflexivity.
  - exists files_by_eval. split; [reflexivity|]. split; [assumption|].
    intros name. now rewrite app_nil_r.
Qed.

(** X14.  A run folder that can be listed: [process_evaluation_directory]
    returns without printing or writing anything, and under every evaluation
    name it appends, in the order of the listing, one entry for each
    [.parquet] file of the folder that has this evaluation name, with the
    path of the file, the model name and the run-folder name; other files
    are ignored. *)
Theorem run_folder_grouped :
  forall dir model time files_by_eval w filenames,
    listdir fs dir = Ok filenames ->
    default_factory files_by_eval = Some [] ->
    exists files_by_eval',
      process_evaluation_directory fs dir model time files_by_eval w
        = (w, Ok files_by_eval') /\
      default_factory files_by_eval' = Some [] /\
      forall name,
        registered files_by_eval' name =
        registered files_by_eval name ++
        map (fun filename => mkinfo (PyStr.path_join dir filename) model time)
            (filter (result_file_of name) filenames).
Proof.
  intros dir model time files_by_eval w filenames Hls Hd.
  unfold process_evaluation_directory, io_bind, io_lift. rewrite Hls.
  clear Hls. revert files_by_eval Hd.
  induction filenames as [|filename filenames IH]; intros files_by_eval Hd.
  - exists files_by_eval. split; [reflexivity|]. split; [assumption|].
    intros name. simpl. now rewrite app_nil_r.
  - cbn [io_fold]. unfold io_bind.
    destruct (register_file_grouped dir model time files_by_eval filename w Hd)
      as [fbe1 [-> [Hd1 Hreg1]]].
    destruct (IH fbe1 Hd1) as [fbe2 [Hloop [Hd2 Hreg2]]].
    exists fbe2. split; [exact Hloop|]. split; [assumption|].
    intros name. rewrite Hreg2, Hreg1, <- app_assoc. f_equal.
    cbn [filter]. now destruct (result_file_of name filename).
Qed.

End ScanProperties.

Lemma run_folder_grouped_witness :
  exists files_by_eval',
    CombineDetails.process_evaluation_directory sample_tree
      "root/org/model_b/2026" "org_model_b" "2026" (empty_defaultdict []) (mkworld [] [])
      = (mkworld [] [], Ok files_by_eval') /\
    default_factory files_by_eval' = Some [] /\
    forall name,
      registered files_by_eval' name =
      registered (empty_defaultdict []) name ++
      map (fun filename =>
             CombineDetails.mkinfo (PyStr.path_join "root/org/model_b/2026" filename)
                                   "org_model_b" "2026")
          (filter (result_file_of name)
                  ["details_community|task_a:sub|0_2026.parquet"; "task_b_2026.parquet"]).
Proof.
  apply (run_folder_grouped sample_tree); reflexivity.
Defined.

Section FolderProperties.

Import CombineDetails.

Lemma occurs_replace a b s : a <> b -> occurs a (PyStr.replace a b s) = false.
Proof.
  intros Hne. induction s as [|c s IH]; simpl; [reflexivity|].
  rewrite IH, orb_false_r. destruct (Ascii.eqb_spec c a) as [->|Hc].
  - apply Ascii.eqb_neq. congruence.
  - now apply Ascii.eqb_neq.
Qed.

Lemma occurs_replace_other a b c s :
  c <> b -> occurs c s = false -> occurs c (PyStr.replace a b s) = false.
Proof.
  intros Hne. induction s as [|x s IH]; simpl; [reflexivity|].
  intros Ho. apply orb_false_elim in Ho as [Hx Hs]. rewrite (IH Hs), orb_false_r.
  destruct (Ascii.eqb x a); [|assumption].
  apply Ascii.eqb_neq. congruence.
Qed.

Lemma length_replace a b s : String.length (PyStr.replace a b s) = String.length s.
Proof. induction s as [|c s IH]; simpl; [reflexivity|now rewrite IH]. Qed.

Lemma replace_absent a b s : occurs a s = false -> PyStr.replace a b s = s.
Proof.
  induction s as [|c s IH]; simpl; [reflexivity|].
  intros Ho. apply orb_false_elim in Ho as [Hc Hs]. now rewrite Hc, (IH Hs).
Qed.

(** X15.  The folder of an evaluation.  Nothing is created for an
    evaluation without files.  Otherwise the files of the evaluation go to
    the folder named after the evaluation with every ['|'] and [':']
    turned into ['_']: the folder name holds neither character, has the
    length of the evaluation name, is the evaluation name itself when that
    holds neither, and is not changed by a second conversion. *)
Theorem evaluation_folder :
  forall (C : Type) (fs : input_fs C) env output_dir eval_name,
    organize_eval fs env output_dir (eval_name, []) = io_ret tt /\
    (forall info infos,
        organize_eval fs env output_dir (eval_name, info :: infos) =
        (makedirs env (PyStr.path_join output_dir (safe_eval_name eval_name)) ;;;
         io_for_each
           (organize_file fs env eval_name
              (PyStr.path_join output_dir (safe_eval_name eval_name)))
           (info :: infos))) /\
    occurs "|" (safe_eval_name eval_name) = false /\
    occurs ":" (safe_eval_name eval_name) = false /\
    String.length (safe_eval_name eval_name) = String.length eval_name /\
    (occurs "|" eval_name = false -> occurs ":" eval_name = false ->
     safe_eval_name eval_name = eval_name) /\
    safe_eval_name (safe_eval_name eval_name) = safe_eval_name eval_name.
Proof.
  intros C fs env output_dir eval_name.
  assert (Hbar : occurs "|" (safe_eval_name eval_name) = false).
  { unfold safe_eval_name. apply occurs_replace_other; [discriminate|].
    apply occurs_replace. discriminate. }
  assert (Hcolon : occurs ":" (safe_eval_name eval_name) = false).
  { unfold safe_eval_name. apply occurs_replace. discriminate. }
  assert (Hsame : forall s, occurs "|" s = false -> occurs ":" s = false ->
                            safe_eval_name s = s).
  { intros s H1 H2. unfold safe_eval_name.
    rewrite (replace_absent "|" "_" s H1). now apply replace_absent. }
  split; [reflexivity|]. split; [reflexivity|].
  split; [assumption|]. split; [assumption|].
  split; [unfold safe_eval_name; now rewrite !length_replace|].
  split; [apply Hsame|now apply Hsame].
Qed.

Lemma evaluation_folder_witness :
  safe_eval_name "cybersec_eval" = "cybersec_eval".
Proof.
  apply (evaluation_folder Z sample_fs permissive "out" "cybersec_eval"); reflexivity.
Defined.

Context {C : Type}.

Variable fs : input_fs C.
Variable env : os_env.

(** X16.  The last run wins.  The output file of a result file depends on
    the evaluation and on the model name only; when a result file is
    processed after others and is read and written, the output file of its
    model holds its frame, whatever an earlier result file of the same model
    had put there. *)
Theorem last_run_wins :
  forall eval_name eval_dir earlier info w w1 df ts,
    io_for_each (organize_file fs env eval_name eval_dir) earlier w = (w1, Ok tt) ->
    snd (read_file fs (path info) w1) = Ok df ->
    timestamp_of (evaluation_time info) = Ok ts ->
    open_ok env (output_path eval_dir info) = true ->
    (forall info1, model_name info1 = model_name info ->
                   output_path eval_dir info1 = output_path eval_dir info) /\
    exists w2,
      io_for_each (organize_file fs env eval_name eval_dir) (earlier ++ [info]) w
        = (w2, Ok tt) /\
      assoc (output_path eval_dir info) (files w2)
        = Some (with_metadata eval_name info ts df) /\
      stdout w2 = stdout w1 /\
      forall p, p <> output_path eval_dir info ->
                assoc p (files w2) = assoc p (files w1).
Proof.
  intros eval_name eval_dir earlier info w w1 df ts Hl Hr Ht Ho. split.
  - intros info1 Hm. unfold output_path. now rewrite Hm.
  - rewrite io_for_each_app, Hl. cbn [io_for_each]. unfold io_bind.
    rewrite (organize_file_success fs env eval_name eval_dir info w1 df ts Hr Ht Ho).
    eexists. split; [reflexivity|]. cbn [files stdout].
    split; [apply assoc_set_same|]. split; [reflexivity|].
    intros p Hp. now apply assoc_set_other.
Qed.

Lemma io_fold_unchanged {A B : Type} (body : B -> A -> io (dataframe C) B) l b w :
  (forall a b w, In a l -> body b a w = (w, Ok b)) ->
  io_fold body l b w = (w, Ok b).
Proof.
  intros Hb. induction l as [|a l IH]; [reflexivity|].
  cbn [io_fold]. unfold io_bind. rewrite Hb by now left.
  apply IH. intros a' b' w' Hin. apply Hb. now right.
Qed.

(** X17.  A model folder taken for an organisation.  When the first run
    folder of a model folder holds no [.parquet] file, the model folder is
    scanned as an organisation folder: its run folders are taken for model
    folders, and since the entries of the run folders are files and not
    folders, no result file of the model is registered, whatever the other
    run folders hold. *)
Theorem empty_first_run_hides_model :
  forall folder_path entry files_by_eval w first rest first_entries,
    let path1 := PyStr.path_join folder_path entry in
    isdir fs path1 = true ->
    listdir fs path1 = Ok (first :: rest) ->
    isdir fs (PyStr.path_join path1 first) = true ->
    listdir fs (PyStr.path_join path1 first) = Ok first_entries ->
    (forall f, In f first_entries -> PyStr.endswith f ".parquet" = false) ->
    (forall run, In run (first :: rest) ->
       isdir fs (PyStr.path_join path1 run) = true ->
       exists entries,
         listdir fs (PyStr.path_join path1 run) = Ok entries /\
         forall f, In f entries ->
                   isdir fs (PyStr.path_join (PyStr.path_join path1 run) f) = false) ->
    scan_entry fs folder_path files_by_eval entry w = (w, Ok files_by_eval).
Proof.
  intros folder_path entry files_by_eval w first rest first_entries path1
         Hdir Hls Hfirst Hfls Hnone Hruns.
  unfold scan_entry. fold path1. rewrite Hdir. cbn [negb].
  assert (Horg : is_model_org fs path1 = Ok true).
  { unfold is_model_org. rewrite Hls. cbn [bind]. rewrite Hfirst, Hfls. f_equal.
    apply negb_true_iff. apply not_true_iff_false. intros Hex.
    apply existsb_exists in Hex as [f [Hin Hf]]. rewrite (Hnone f Hin) in Hf.
    discriminate. }
  unfold io_bind, io_lift. rewrite Horg, Hls.
  apply io_fold_unchanged. intros run fbe w' Hin.
  destruct (isdir fs (PyStr.path_join path1 run)) eqn:Hrun; [|reflexivity].
  cbn [negb]. destruct (Hruns run Hin Hrun) as [entries [Hentries Hfiles]].
  unfold scan_model, io_bind, io_lift. rewrite Hentries.
  apply io_fold_unchanged. intros f fbe' w'' Hf. now rewrite (Hfiles f Hf).
Qed.

End FolderProperties.

Lemma last_run_wins_witness :
  (forall info1,
      CombineDetails.model_name info1 = CombineDetails.model_name later_info ->
      output_path "out/task" info1 = output_path "out/task" later_info) /\
  exists w2,
    io_for_each (CombineDetails.organize_file sample_fs permissive "task" "out/task")
                ([good_info] ++ [later_info]) (mkworld [] [])
      = (w2, Ok tt) /\
    assoc (output_path "out/task" later_info) (files w2)
      = Some (with_metadata "task" later_info "2026" sample_frame) /\
    stdout w2 =
      stdout (fst (io_for_each
                     (CombineDetails.organize_file sample_fs permissive "task" "out/task")
                     [good_info] (mkworld [] []))) /\
    forall p, p <> output_path "out/task" later_info ->
              assoc p (files w2) =
              assoc p (files (fst (io_for_each
                     (CombineDetails.organize_file sample_fs permissive "task" "out/task")
                     [good_info] (mkworld [] [])))).
Proof.
  apply (last_run_wins sample_fs permissive "task" "out/task" [good_info] later_info
           (mkworld [] [])
           (fst (io_for_each
                   (CombineDetails.organize_file sample_fs permissive "task" "out/task")
                   [good_info] (mkworld [] [])))
           sample_frame "2026"); reflexivity.
Defined.

Lemma empty_first_run_hides_model_witness :
  CombineDetails.scan_entry hidden_tree "root" (empty_defaultdict []) "model"
                            (mkworld [] [])
  = (mkworld [] [], Ok (empty_defaultdict [])).
Proof.
  apply (empty_first_run_hides_model hidden_tree "root" "model" (empty_defaultdict [])
           (mkworld [] []) "run1" ["run2"] []).
  - reflexivity.
  - reflexivity.
  - reflexivity.
  - reflexivity.
  - intros f [].
  - intros run [<-|[<-|[]]] _.
    + exists []. split; [reflexivity|]. intros f [].
    + exists ["details_suite|task|0_2026.parquet"]. split; [reflexivity|].
      intros f [<-|[]]. reflexivity.
Defined.

(** * The mappings after the average combination *)

Section InPlaceFacts.

Import ProcessResults.

Lemma getitem_facts {V : Type} (d : pydict V) k v d' :
  getitem d k = Ok (v, d') ->
  subscript d k = Ok v /\
  default_factory d' = default_factory d /\
  get d' k = Some v /\
  (forall k', k' <> k -> get d' k' = get d k') /\
  (forall k', subscript d' k' = subscript d k').
Proof.
  unfold subscript, getitem. destruct (get d k) as [v0|] eqn:Hg.
  - intros [= <- <-]. rewrite Hg. repeat split; auto.
  - destruct (default_factory d) as [v0|] eqn:Hd; [|discriminate].
    intros [= <- <-]. split; [reflexivity|]. split; [exact Hd|].
    split; [apply get_setitem_same|]. split; [intros k' Hne; now apply get_setitem_other|].
    intros k'. rewrite get_setitem. cbn [default_factory setitem]. rewrite Hd.
    destruct (String.eqb_spec k' k) as [->|Hne]; [now rewrite Hg|].
    now destruct (get d k').
Qed.

Lemma subscript_getitem {V : Type} (d : pydict V) k :
  match subscript d k with
  | Ok v => exists d', getitem d k = Ok (v, d')
  | Raise e => getitem d k = Raise e
  end.
Proof.
  unfold subscript. destruct (getitem d k) as [[v d']|e]; simpl; [now exists d'|reflexivity].
Qed.

Lemma subscript_ext {V : Type} (d d' : pydict V) k :
  get d' k = get d k -> default_factory d' = default_factory d ->
  subscript d' k = subscript d k.
Proof.
  unfold subscript, getitem. intros -> ->.
  destruct (get d k); [reflexivity|]. now destruct (default_factory d).
Qed.

Context {F : Type} `{PyFloat F}.

Implicit Types (er erc : pydict (pydict F)) (totals totc : pydict Z) (m : string).

Lemma mappings_after_ext (f g : string -> bool) (l l' : list (string * pydict F)) :
  (forall x, f x = g x) -> mappings_after f l l' -> mappings_after g l l'.
Proof.
  intros Hfg Hm. induction Hm as [|kv kv' l l' [Hk [Hd Ha]] _ IH]; constructor;
    [|assumption].
  split; [assumption|]. split; [assumption|]. intros x. specialize (Ha x).
  now rewrite <- Hfg.
Qed.

Lemma same_weights_refl totals : same_weights totals totals.
Proof. now split. Qed.

Lemma weight_loop_in_place totals m looked (l l' : list (string * pydict F)) :
  mappings_after looked l l' -> looked m = false ->
  forall ts tc totc,
    same_weights totals totc ->
    match for_each (weight_step totals m) l (ts, tc) with
    | Ok (ts', tc') =>
        exists totc',
          for_each (weight_step_in_place m) l' (ts, tc, totc) = Ok (ts', tc', totc') /\
          same_weights totals totc'
    | Raise e => for_each (weight_step_in_place m) l' (ts, tc, totc) = Raise e
    end.
Proof.
  intros Hm Hlook.
  induction Hm as [|[s sc] [s' sc'] l l' [Hk [Hd Ha]] _ IH]; intros ts tc totc Hw.
  - simpl. now exists totc.
  - cbn [fst snd] in Hk, Hd, Ha. subst s'. specialize (Ha m). rewrite Hlook in Ha.
    cbn [for_each]. unfold weight_step at 1, weight_step_in_place at 1 3.
    assert (Hc : contains sc' m = contains sc m) by (unfold contains; now rewrite Ha).
    rewrite Hc. destruct (contains sc m) eqn:Ec; cbn [bind]; [|apply IH; assumption].
    destruct (proj1 (contains_true_get _ _) Ec) as [v Hv].
    rewrite (subscript_get _ _ _ Hv). unfold getitem at 1 3. rewrite Ha, Hv.
    cbn [bind]. destruct Hw as [Hwd Hws].
    pose proof (subscript_getitem totc s) as Hg. rewrite Hws in Hg.
    destruct (subscript totals s) as [c|e]; cbn [bind].
    + destruct Hg as [totc1 Hg]. rewrite Hg. cbn [bind].
      apply IH. destruct (getitem_facts _ _ _ _ Hg) as [_ [Hd1 [_ [_ Hs1]]]].
      split; [congruence|]. intros s0. now rewrite Hs1.
    + now rewrite Hg.
Qed.

Lemma sum_loop_in_place m looked (l l' : list (string * pydict F)) :
  mappings_after looked l l' -> looked m = false ->
  forall s done,
    match for_each (fun s scores => v <- subscript scores m ;; Ok (fadd s v))
                   (map snd l) s with
    | Ok s' =>
        exists l'',
          for_each (sum_step_in_place m) l' (s, done) = Ok (s', done ++ l'') /\
          mappings_after (fun x => String.eqb x m || looked x) l l''
    | Raise e => for_each (sum_step_in_place m) l' (s, done) = Raise e
    end.
Proof.
  intros Hm Hlook.
  induction Hm as [|[k sc] [k' sc'] l l' [Hk [Hd Ha]] _ IH]; intros s done.
  - simpl. exists []. split; [now rewrite app_nil_r|constructor].
  - cbn [fst snd] in Hk, Hd, Ha. subst k'.
    cbn [map snd for_each]. unfold sum_step_in_place at 1 3.
    assert (Hs : subscript sc' m = subscript sc m).
    { apply subscript_ext; [|assumption]. specialize (Ha m). now rewrite Hlook in Ha. }
    pose proof (subscript_getitem sc' m) as Hg. rewrite Hs in Hg.
    destruct (subscript sc m) as [v|e] eqn:Ev; cbn [bind].
    + destruct Hg as [sc'' Hg]. rewrite Hg. cbn [bind].
      specialize (IH (fadd s v) (done ++ [(k, sc'')])).
      destruct (for_each _ (map snd l) (fadd s v)) as [s'|e]; [|assumption].
      destruct IH as [l'' [Hloop Hafter]].
      exists ((k, sc'') :: l''). split.
      { rewrite Hloop, <- app_assoc. reflexivity. }
      constructor; [|assumption].
      destruct (getitem_facts _ _ _ _ Hg) as [_ [Hd1 [Hm1 [Ho1 _]]]].
      split; [reflexivity|]. split; [cbn [snd]; congruence|].
      intros x. cbn [snd]. destruct (String.eqb_spec x m) as [->|Hne]; cbn [orb].
      * now exists v.
      * specialize (Ha x). destruct (looked x).
        -- destruct Ha as [u [Hu Hgu]]. exists u. split; [assumption|].
           now rewrite Ho1.
        -- now rewrite Ho1.
    + now rewrite Hg.
Qed.

Lemma stored_by_skip er totals P m x :
  (0 <? Spec.total_weight er totals m) = false ->
  stored_by er totals (m :: P) x = stored_by er totals P x.
Proof.
  intros Hw. unfold stored_by. cbn [existsb].
  destruct (String.eqb_spec x m) as [->|Hne]; [|reflexivity].
  rewrite Hw. now rewrite !andb_false_r.
Qed.

Lemma stored_by_store er totals P m x :
  (0 <? Spec.total_weight er totals m) = true ->
  stored_by er totals (m :: P) x = (String.eqb x m || stored_by er totals P x).
Proof.
  intros Hw. unfold stored_by. cbn [existsb].
  destruct (String.eqb_spec x m) as [->|Hne]; [|reflexivity].
  now rewrite Hw.
Qed.

Lemma stored_by_fresh er totals P m : ~ In m P -> stored_by er totals P m = false.
Proof.
  intros Hn. unfold stored_by.
  destruct (existsb (String.eqb m) P) eqn:E; [|reflexivity].
  apply existsb_exists in E as [x [Hin Hx]]. apply String.eqb_eq in Hx. now subst.
Qed.

Lemma model_step_in_place_sim er totals P m erc totc ma mi :
  mappings_after (stored_by er totals P) (items er) (items erc) ->
  default_factory erc = default_factory er ->
  same_weights totals totc ->
  ~ In m P ->
  match model_step er totals (ma, mi) m with
  | Ok (ma', mi') =>
      exists erc' totc',
        model_step_in_place (erc, totc, ma, mi) m = Ok (erc', totc', ma', mi') /\
        mappings_after (stored_by er totals (m :: P)) (items er) (items erc') /\
        default_factory erc' = default_factory er /\
        same_weights totals totc'
  | Raise e => model_step_in_place (erc, totc, ma, mi) m = Raise e
  end.
Proof.
  intros Hm Hd Hw Hfresh.
  pose proof (stored_by_fresh er totals P m Hfresh) as Hlook.
  unfold model_step, model_step_in_place.
  pose proof (weight_loop_in_place totals m _ _ _ Hm Hlook (of_int 0) 0 totc Hw) as Hwl.
  destruct (for_each (weight_step totals m) (items er) (of_int 0, 0))
    as [[ts tc]|e] eqn:Ew; cbn [bind]; [|now rewrite Hwl].
  destruct Hwl as [totc' [-> Hw']]. cbn [bind].
  apply weight_loop in Ew as [_ Etc].
  assert (Htc : tc = Spec.total_weight er totals m) by exact Etc.
  destruct (0 <? tc) eqn:Ep.
  - destruct (truediv ts tc) as [macro|e]; cbn [bind]; [|reflexivity].
    pose proof (sum_loop_in_place m _ _ _ Hm Hlook (of_int 0) []) as Hsl.
    unfold sum_scores, values.
    destruct (for_each _ (map snd (items er)) (of_int 0)) as [s|e]; cbn [bind];
      [|now rewrite Hsl].
    destruct Hsl as [l'' [-> Hafter]]. cbn [bind app].
    assert (Hlen : len (mkdict l'' (default_factory erc)) = len er).
    { unfold len. cbn [items]. f_equal. symmetry. eapply Forall2_length. exact Hafter. }
    rewrite Hlen. destruct (truediv s (len er)) as [micro|e]; cbn [bind]; [|reflexivity].
    exists (mkdict l'' (default_factory erc)), totc'.
    split; [reflexivity|]. split; [|split; assumption].
    cbn [items]. apply (mappings_after_ext (fun x => String.eqb x m || stored_by er totals P x)).
    + intros x. symmetry. apply stored_by_store. now rewrite <- Htc.
    + assumption.
  - exists erc, totc'. split; [reflexivity|]. split; [|split; assumption].
    apply (mappings_after_ext (stored_by er totals P)); [|assumption].
    intros x. symmetry. apply stored_by_skip. now rewrite <- Htc.
Qed.

Lemma models_loop_in_place er totals ms :
  forall P erc totc ma mi,
    mappings_after (stored_by er totals P) (items er) (items erc) ->
    default_factory erc = default_factory er ->
    same_weights totals totc ->
    NoDup ms -> (forall m, In m ms -> ~ In m P) ->
    match for_each (model_step er totals) ms (ma, mi) with
    | Ok (ma', mi') =>
        exists erc' totc',
          for_each model_step_in_place ms (erc, totc, ma, mi)
            = Ok (erc', totc', ma', mi') /\
          mappings_after (stored_by er totals (rev ms ++ P)) (items er) (items erc') /\
          default_factory erc' = default_factory er /\
          same_weights totals totc'
    | Raise e => for_each model_step_in_place ms (erc, totc, ma, mi) = Raise e
    end.
Proof.
  induction ms as [|m ms IH]; intros P erc totc ma mi Hm Hd Hw Hnd Hfresh.
  - simpl. now exists erc, totc.
  - inversion Hnd as [|? ? Hm0 Hms]; subst. cbn [for_each].
    pose proof (model_step_in_place_sim er totals P m erc totc ma mi Hm Hd Hw
                  (Hfresh m (or_introl eq_refl))) as Hstep.
    destruct (model_step er totals (ma, mi) m) as [[ma1 mi1]|e]; cbn [bind];
      [|now rewrite Hstep].
    destruct Hstep as [erc1 [totc1 [-> [Hm1 [Hd1 Hw1]]]]]. cbn [bind].
    specialize (IH (m :: P) erc1 totc1 ma1 mi1 Hm1 Hd1 Hw1 Hms).
    assert (Hfresh' : forall x, In x ms -> ~ In x (m :: P)).
    { intros x Hx [<-|Hp]; [contradiction|]. apply (Hfresh x); [now right|assumption]. }
    specialize (IH Hfresh').
    destruct (for_each (model_step er totals) ms (ma1, mi1)) as [[ma2 mi2]|e];
      [|assumption].
    destruct IH as [erc2 [totc2 [Hloop [Hm2 [Hd2 Hw2]]]]].
    exists erc2, totc2. split; [assumption|]. split; [|split; assumption].
    cbn [rev]. now rewrite <- app_assoc.
Qed.

End InPlaceFacts.

Section InPlaceProperties.

Import ProcessResults.

Context {F : Type} `{PyFloat F}.

Lemma stored_by_all (er : pydict (pydict F)) (totals : pydict Z)
    (macro micro : pydict F) m :
  compute_macro_micro_averages er totals = Ok (macro, micro) ->
  stored_by er totals (rev (keys (Spec.first_scores er)) ++ []) m = contains macro m.
Proof.
  intros Hc. pose proof (compute_get er totals macro micro m Hc) as Hg.
  unfold stored_by. rewrite app_nil_r.
  assert (He : existsb (String.eqb m) (rev (keys (Spec.first_scores er)))
               = contains (Spec.first_scores er) m).
  { destruct (contains (Spec.first_scores er) m) eqn:Ec.
    - apply existsb_exists. exists m. split; [|apply String.eqb_refl].
      apply in_rev. rewrite rev_involutive. now apply contains_keys.
    - destruct (existsb _ _) eqn:Ee; [|reflexivity].
      apply existsb_exists in Ee as [x [Hin Hx]]. apply String.eqb_eq in Hx. subst x.
      apply in_rev in Hin. apply contains_keys in Hin. congruence. }
  rewrite He. unfold contains at 2.
  destruct (contains (Spec.first_scores er) m && (0 <? Spec.total_weight er totals m));
    injection Hg as Hma _; now rewrite Hma.
Qed.

Lemma mappings_after_start (er : pydict (pydict F)) (totals : pydict Z) :
  mappings_after (stored_by er totals []) (items er) (items er).
Proof.
  induction (items er) as [|[k sc] l IH]; constructor; [|exact IH].
  split; [reflexivity|]. split; [reflexivity|]. intros m. reflexivity.
Qed.

Lemma compute_in_place_sim (er : pydict (pydict F)) (totals : pydict Z) :
  NoDup (keys (Spec.first_scores er)) ->
  match compute_macro_micro_averages er totals with
  | Ok (macro, micro) =>
      exists er' totals',
        compute_macro_micro_averages_in_place er totals
          = Ok (macro, micro, er', totals') /\
        mappings_after (fun m => contains macro m) (items er) (items er') /\
        default_factory er' = default_factory er /\
        same_weights totals totals'
  | Raise e => compute_macro_micro_averages_in_place er totals = Raise e
  end.
Proof.
  intros Hnd.
  assert (Hl : forall ms, NoDup ms ->
    match for_each (model_step er totals) ms (empty_dict, empty_dict) with
    | Ok (ma', mi') =>
        exists erc' totc',
          for_each model_step_in_place ms (er, totals, empty_dict, empty_dict)
            = Ok (erc', totc', ma', mi') /\
          mappings_after (stored_by er totals (rev ms ++ [])) (items er) (items erc') /\
          default_factory erc' = default_factory er /\
          same_weights totals totc'
    | Raise e =>
        for_each model_step_in_place ms (er, totals, empty_dict, empty_dict) = Raise e
    end).
  { intros ms Hms. apply models_loop_in_place.
    - apply mappings_after_start.
    - reflexivity.
    - apply same_weights_refl.
    - assumption.
    - intros m _ []. }
  destruct (compute_macro_micro_averages er totals) as [[macro micro]|e] eqn:Hc.
  - pose proof (stored_by_all er totals macro micro) as Hall.
    revert Hc Hnd Hall. unfold Spec.first_scores.
    destruct (items er) as [|[s0 first] rest] eqn:Hit.
    { unfold compute_macro_micro_averages, keys. rewrite Hit. discriminate. }
    intros Hc Hnd Hall. pose proof Hc as Hc0.
    rewrite (compute_first _ _ _ _ _ Hit) in Hc.
    unfold compute_macro_micro_averages_in_place, keys at 1. rewrite Hit.
    cbn [map fst].
    assert (Hs : subscript er s0 = Ok first).
    { apply subscript_get. unfold get. rewrite Hit. simpl. now rewrite String.eqb_refl. }
    rewrite Hs. cbn [bind].
    specialize (Hl (keys first) Hnd). rewrite Hc in Hl.
    destruct Hl as [er' [totals' [-> [Hm [Hd Hw]]]]].
    exists er', totals'. split; [reflexivity|]. split; [|split; assumption].
    apply (mappings_after_ext _ _ _ _ (fun m => Hall m Hc0)). exact Hm.
  - revert Hc Hnd. unfold Spec.first_scores.
    destruct (items er) as [|[s0 first] rest] eqn:Hit.
    { unfold compute_macro_micro_averages, compute_macro_micro_averages_in_place, keys.
      rewrite Hit. now intros [= <-]. }
    intros Hc Hnd. rewrite (compute_first _ _ _ _ _ Hit) in Hc.
    unfold compute_macro_micro_averages_in_place, keys at 1. rewrite Hit.
    cbn [map fst].
    assert (Hs : subscript er s0 = Ok first).
    { apply subscript_get. unfold get. rewrite Hit. simpl. now rewrite String.eqb_refl. }
    rewrite Hs. cbn [bind].
    specialize (Hl (keys first) Hnd). rewrite Hc in Hl. now rewrite Hl.
Qed.

(** X18.  [compute_macro_micro_averages] returns the same averages, or
    raises the same exception, whether or not the lookups through
    [defaultdict]s store their defaults: the mappings can be read as values
    as far as the result goes (the keys of a dictionary are distinct). *)
Theorem stored_defaults_do_not_change_averages
    (er : pydict (pydict F)) (totals : pydict Z) :
  NoDup (keys (Spec.first_scores er)) ->
  (forall macro micro,
      compute_macro_micro_averages er totals = Ok (macro, micro) ->
      exists er' totals',
        compute_macro_micro_averages_in_place er totals
          = Ok (macro, micro, er', totals')) /\
  (forall e,
      compute_macro_micro_averages er totals = Raise e ->
      compute_macro_micro_averages_in_place er totals = Raise e).
Proof.
  intros Hnd. pose proof (compute_in_place_sim er totals Hnd) as Hsim.
  split.
  - intros macro micro Hc. rewrite Hc in Hsim.
    destruct Hsim as [er' [totals' [Hi _]]]. now exists er', totals'.
  - intros e Hc. now rewrite Hc in Hsim.
Qed.

(** X19.  After a call of [compute_macro_micro_averages] that returns, the
    first argument has the same subsets in the same order; the mapping of
    every subset holds, under each model that has an average, the value its
    lookup gave (so a [defaultdict] has gained its default there), and is
    unchanged at every other key; the weights read as before. *)
Theorem reported_models_are_stored
    (er er' : pydict (pydict F)) (totals totals' : pydict Z)
    (macro micro : pydict F) :
  NoDup (keys (Spec.first_scores er)) ->
  compute_macro_micro_averages_in_place er totals = Ok (macro, micro, er', totals') ->
  keys er' = keys er /\
  mappings_after (fun m => contains macro m) (items er) (items er') /\
  (forall subset scores' m,
      In (subset, scores') (items er') -> contains macro m = true ->
      contains scores' m = true) /\
  default_factory er' = default_factory er /\
  same_weights totals totals'.
Proof.
  intros Hnd Hi. pose proof (compute_in_place_sim er totals Hnd) as Hsim.
  destruct (compute_macro_micro_averages er totals) as [[ma mi]|e];
    [|congruence].
  destruct Hsim as [er1 [totals1 [Hi1 [Hm [Hd Hw]]]]].
  rewrite Hi in Hi1. injection Hi1 as <- <- <- <-.
  split; [|split; [assumption|split; [|split; assumption]]].
  - unfold keys. clear - Hm. induction Hm as [|kv kv' l l' [Hk _] _ IH]; [reflexivity|].
    simpl. now rewrite Hk, IH.
  - intros subset scores' m Hin Hma. clear - Hm Hin Hma.
    induction Hm as [|kv kv' l l' [_ [_ Ha]] _ IH]; [contradiction|].
    destruct Hin as [->|Hin]; [|now apply IH].
    specialize (Ha m). cbn [snd] in Ha. rewrite Hma in Ha.
    destruct Ha as [v [_ Hv]]. apply contains_true_get. now exists v.
Qed.

End InPlaceProperties.

Lemma stored_defaults_do_not_change_averages_witness :
  exists er' totals',
    ProcessResults.compute_macro_micro_averages_in_place
      Examples.partial_defaultdict Examples.unit_weights
    = Ok (mkdict [("m", 1%float)] None, mkdict [("m", 0.5%float)] None, er', totals').
Proof.
  apply (proj1 (stored_defaults_do_not_change_averages (F:=float)
                  Examples.partial_defaultdict Examples.unit_weights
                  ltac:(repeat constructor; intros []))).
  vm_compute. reflexivity.
Defined.

Lemma reported_models_are_stored_witness :
  keys stored_defaultdict = keys Examples.partial_defaultdict /\
  mappings_after (fun m => contains (mkdict [("m", 1%float)] None) m)
    (items Examples.partial_defaultdict) (items stored_defaultdict) /\
  (forall subset scores' m,
      In (subset, scores') (items stored_defaultdict) ->
      contains (mkdict [("m", 1%float)] None) m = true ->
      contains scores' m = true) /\
  default_factory stored_defaultdict = default_factory Examples.partial_defaultdict /\
  same_weights Examples.unit_weights Examples.unit_weights.
Proof.
  apply (reported_models_are_stored (F:=float)
           Examples.partial_defaultdict stored_defaultdict
           Examples.unit_weights Examples.unit_weights
           (mkdict [("m", 1%float)] None) (mkdict [("m", 0.5%float)] None)).
  - repeat constructor. intros [].
  - vm_compute. reflexivity.
Defined.

(** * The whole run of [process_evaluation_results.py] *)

Section MainFacts.

Import ProcessResults.

Context {F : Type} `{PyFloat F}.

Implicit Types (h : hub F) (s : session F) (c : containers F) (a : args.t).

Lemma assoc_set_nonempty {V : Type} (l : list (string * V)) k v : assoc_set k v l <> [].
Proof. destruct l as [|[k0 v0] l]; simpl; [discriminate|]. now destruct (String.eqb k k0). Qed.

Lemma defaultdicts_setitem (er : pydict (pydict F)) subset scores :
  defaultdicts er ->
  default_factory scores = Some (of_int 0) -> NoDup (keys scores) ->
  defaultdicts (setitem er subset scores).
Proof.
  intros Her Hd Hnd k sc Hin. apply In_assoc_set in Hin as [[= -> ->]|Hin];
    [now split|now apply (Her k)].
Qed.

Lemma calculate_models_accuracy_NoDup (dataset : list (record F)) filtered_ids :
  NoDup (keys (calculate_models_accuracy dataset filtered_ids)).
Proof.
  rewrite calculate_models_accuracy_eq. rewrite keys_fold_setitem.
  - apply NoDup_sorted_keys.
  - apply NoDup_sorted_keys.
  - intros k _ [].
Qed.

Lemma setup_environment_session hf_home s :
  exists s',
    setup_environment hf_home s = (s', Ok tt) /\
    disk s' = disk s /\ printed s' = printed s /\ uploaded s' = uploaded s.
Proof.
  unfold setup_environment. destruct hf_home as [[|c0 hf]|];
    eexists; (split; [reflexivity|]); now repeat split.
Qed.

Lemma subset_step_returns h a c subset s dataset :
  hub_load_dataset h (args.dataset_path a) (subset ++ "/*.parquet")%string = Ok dataset ->
  exists s' c',
    subset_step h a c subset s = (s', Ok c') /\
    disk s' = disk s /\ uploaded s' = uploaded s /\
    started c' /\ (well_formed c -> well_formed c').
Proof.
  intros Hload. unfold subset_step, get_all_correct_ids_of, run_bind, run_lift,
    print_line, calculate_models_accuracy_printing, run_ret.
  cbn [environ disk printed uploaded]. rewrite Hload.
  rewrite get_all_correct_ids_eq. cbn zeta.
  eexists. eexists. split; [reflexivity|]. cbn [disk uploaded].
  split; [reflexivity|]. split; [reflexivity|]. split.
  - split; cbn [all_evaluation_results all_evaluation_results_filtered items setitem];
      apply assoc_set_nonempty.
  - intros [He [Hf [Ht Htf]]].
    split; [|split; [|split]];
      cbn [all_evaluation_results all_evaluation_results_filtered
           dataset_total dataset_total_filtered].
    + apply defaultdicts_setitem; [assumption| |].
      * apply calculate_models_accuracy_default.
      * apply calculate_models_accuracy_NoDup.
    + apply defaultdicts_setitem; [assumption| |].
      * apply calculate_models_accuracy_default.
      * apply calculate_models_accuracy_NoDup.
    + assumption.
    + assumption.
Qed.

Lemma subsets_loop_returns h a subsets :
  (forall subset, In subset subsets ->
     exists dataset,
       hub_load_dataset h (args.dataset_path a) (subset ++ "/*.parquet")%string
         = Ok dataset) ->
  forall c s,
  exists s' c',
    run_fold (subset_step h a) subsets c s = (s', Ok c') /\
    disk s' = disk s /\ uploaded s' = uploaded s /\
    (started c \/ subsets <> [] -> started c') /\
    (well_formed c -> well_formed c').
Proof.
  induction subsets as [|subset subsets IH]; intros Hload c s.
  - exists s, c. split; [reflexivity|]. split; [reflexivity|]. split; [reflexivity|].
    split; [|trivial]. intros [Hs|Hne]; [assumption|contradiction].
  - destruct (Hload subset (or_introl eq_refl)) as [dataset Hd].
    destruct (subset_step_returns h a c subset s dataset Hd)
      as [s1 [c1 [E1 [Hdisk1 [Hup1 [Hst1 Hwf1]]]]]].
    destruct (IH (fun x Hx => Hload x (or_intror Hx)) c1 s1)
      as [s2 [c2 [E2 [Hdisk2 [Hup2 [Hst2 Hwf2]]]]]].
    exists s2, c2. cbn [run_fold]. unfold run_bind at 1. rewrite E1.
    split; [exact E2|]. split; [congruence|]. split; [congruence|].
    split; [intros _; apply Hst2; now left|]. intros Hwf. apply Hwf2, Hwf1, Hwf.
Qed.

Lemma defaultdicts_first (er : pydict (pydict F)) :
  defaultdicts er -> NoDup (keys (Spec.first_scores er)).
Proof.
  intros Her. unfold Spec.first_scores.
  destruct (items er) as [|[k sc] l] eqn:Hit; [constructor|].
  apply (Her k sc). rewrite Hit. now left.
Qed.

(** On [defaultdict]s, with at least one subset, the combination returns. *)
Lemma combination_returns (er : pydict (pydict F)) (totals : pydict Z) :
  defaultdicts er -> items er <> [] -> default_factory totals = Some 0 ->
  exists macro micro er' totals',
    compute_macro_micro_averages_in_place er totals
      = Ok (macro, micro, er', totals') /\
    default_factory er' = default_factory er /\
    keys er' = keys er.
Proof.
  intros Her Hne Ht.
  destruct (compute_returns er totals Hne) as [macro [micro Hc]].
  { intros subset scores Hin. split.
    - right. rewrite Ht. discriminate.
    - intros m _. right. rewrite (proj1 (Her subset scores Hin)). discriminate. }
  pose proof (compute_in_place_sim er totals (defaultdicts_first er Her)) as Hsim.
  rewrite Hc in Hsim. destruct Hsim as [er' [totals' [Hi [Hm [Hd _]]]]].
  exists macro, micro, er', totals'. split; [assumption|]. split; [assumption|].
  unfold keys. clear - Hm. induction Hm as [|kv kv' l l' [Hk _] _ IH]; [reflexivity|].
  simpl. now rewrite Hk, IH.
Qed.

Lemma results_of_returns c :
  well_formed c -> started c ->
  exists results,
    results_of c = Ok results /\ keys results = result_sets /\
    default_factory results = None.
Proof.
  intros [He [Hf [Ht Htf]]] [Hse Hsf]. unfold results_of.
  destruct (combination_returns _ _ He Hse Ht) as [ma [mi [er' [t' [-> _]]]]].
  destruct (combination_returns _ _ Hf Hsf Htf) as [maf [mif [erf' [tf' [-> _]]]]].
  cbn [bind]. eexists. split; [reflexivity|]. now split.
Qed.

Lemma written_keeps {D : Type} output_dir (sets : list (string * D)) fs p :
  assoc p fs <> None -> assoc p (written output_dir sets fs) <> None.
Proof.
  revert fs. induction sets as [|[k d] sets IH]; intros fs Hp; [assumption|].
  unfold written. cbn [fold_left fst snd]. apply IH.
  destruct (String.eqb_spec p (artifact output_dir k)) as [->|Hne].
  - now rewrite assoc_set_same.
  - now rewrite assoc_set_other.
Qed.

Lemma written_has {D : Type} output_dir (sets : list (string * D)) fs k :
  In k (map fst sets) ->
  assoc (artifact output_dir k) (written output_dir sets fs) <> None.
Proof.
  revert fs. induction sets as [|[k0 d] sets IH]; intros fs Hin; [destruct Hin|].
  unfold written. cbn [fold_left fst snd]. destruct Hin as [<-|Hin].
  - apply written_keeps. now rewrite assoc_set_same.
  - now apply IH.
Qed.

Lemma save_results_returns {D : Type} env output_dir (results : pydict D) w :
  makedirs_ok env output_dir = true ->
  (forall k, In k (keys results) -> open_ok env (artifact output_dir k) = true) ->
  save_results env output_dir results w
    = (mkworld (written output_dir (items results) (files w)) (stdout w), Ok tt).
Proof.
  intros Hm Ho. unfold save_results, io_bind, makedirs. rewrite Hm.
  rewrite <- (app_nil_r (items results)) at 1.
  rewrite save_loop; [reflexivity|].
  intros k d Hin. apply Ho. unfold keys. now apply (in_map fst) in Hin.
Qed.

Lemma no_subsets listing acc :
  (forall data, In data listing -> entry_type data = "directory" ->
     entry_name data = "evaluation_results") ->
  for_each
    (fun subsets data =>
       if String.eqb (entry_type data) "directory"
          && negb (String.eqb (entry_name data) "evaluation_results")
       then
         subset <- PyStr.index_last (PyStr.split "/" (entry_name data)) ;;
         Ok (subsets ++ [subset])
       else Ok subsets)
    listing acc = Ok acc.
Proof.
  induction listing as [|data listing IH]; intros Hno; [reflexivity|].
  cbn [for_each].
  assert (Hskip : String.eqb (entry_type data) "directory"
                  && negb (String.eqb (entry_name data) "evaluation_results") = false).
  { destruct (String.eqb_spec (entry_type data) "directory") as [Ht|]; [|reflexivity].
    rewrite (Hno data (or_introl eq_refl) Ht). reflexivity. }
  rewrite Hskip. cbn [bind]. apply IH. intros d Hd. apply Hno. now right.
Qed.

(** X20.  When the repository folder lists no subset (no directory other
    than [evaluation_results]), [main] raises [StopIteration]: it has
    printed that it found 0 subsets, and it has written and uploaded
    nothing. *)
Theorem main_without_subsets h env a s listing :
  hub_ls h (args.repo_path a) = Ok listing ->
  (forall data, In data listing -> entry_type data = "directory" ->
     entry_name data = "evaluation_results") ->
  snd (main h env a s) = Raise StopIteration /\
  printed (fst (main h env a s)) = printed s ++ [FoundSubsets 0 []] /\
  disk (fst (main h env a s)) = disk s /\
  uploaded (fst (main h env a s)) = uploaded s.
Proof.
  intros Hls Hno.
  destruct (setup_environment_session (args.hf_home a) s) as [s1 [E1 [Hd [Hp Hu]]]].
  assert (Hmain : main h env a s
                  = (mk_session (environ s1) (disk s1)
                                (printed s1 ++ [FoundSubsets 0 []]) (uploaded s1),
                     Raise StopIteration)).
  { unfold main. unfold run_bind at 1. rewrite E1.
    unfold run_bind at 1. unfold get_dataset_subsets_of, run_bind at 1, run_lift.
    rewrite Hls. unfold get_dataset_subsets. rewrite (no_subsets listing [] Hno).
    reflexivity. }
  rewrite Hmain. cbn [fst snd printed disk uploaded]. rewrite Hp, Hd, Hu. now repeat split.
Qed.

(** X21.  When the hub lists at least one subset and loads each of them,
    the folder can be created and the six files opened, and the upload (if
    asked for) goes through, [main] returns: none of its own computations
    raises.  The six result-sets are then on the disk, and the upload has
    been made exactly if it was asked for. *)
Theorem main_returns h env a s listing subsets :
  hub_ls h (args.repo_path a) = Ok listing ->
  get_dataset_subsets listing = Ok subsets ->
  subsets <> [] ->
  (forall subset, In subset subsets ->
     exists dataset,
       hub_load_dataset h (args.dataset_path a) (subset ++ "/*.parquet")%string
         = Ok dataset) ->
  makedirs_ok env (args.output_dir a) = true ->
  (forall k, In k result_sets ->
     open_ok env (artifact (args.output_dir a) k) = true) ->
  (args.upload_to_hub a = true -> hub_upload_folder h (upload_of a) = Ok tt) ->
  exists s',
    main h env a s = (s', Ok tt) /\
    (forall k, In k result_sets ->
       assoc (artifact (args.output_dir a) k) (files (disk s')) <> None) /\
    uploaded s' = (if args.upload_to_hub a
                   then uploaded s ++ [upload_of a] else uploaded s).
Proof.
  intros Hls Hsub Hne Hload Hmk Hopen Hup.
  destruct (setup_environment_session (args.hf_home a) s) as [s1 [E1 [Hd1 [_ Hu1]]]].
  set (s2 := mk_session (environ s1) (disk s1)
               (printed s1 ++ [FoundSubsets (Z.of_nat (List.length subsets)) subsets])
               (uploaded s1)).
  destruct (subsets_loop_returns h a subsets Hload empty_containers s2)
    as [s3 [c [E3 [Hd3 [Hu3 [Hst Hwf]]]]]].
  unfold s2 in Hd3, Hu3. cbn [disk uploaded] in Hd3, Hu3.
  assert (Hwf0 : well_formed (F:=F) empty_containers).
  { split; [intros k sc []|]. split; [intros k sc []|]. now split. }
  destruct (results_of_returns c (Hwf Hwf0) (Hst (or_intror Hne)))
    as [results [Er [Hk Hdf]]].
  pose proof (save_results_returns env (args.output_dir a) results (disk s3) Hmk) as Es.
  rewrite Hk in Es. specialize (Es Hopen).
  set (w := mkworld (written (args.output_dir a) (items results) (files (disk s3)))
                    (stdout (disk s3))) in Es.
  assert (Hfiles : forall k, In k result_sets ->
            assoc (artifact (args.output_dir a) k) (files w) <> None).
  { intros k Hin. apply written_has. fold (keys results). now rewrite Hk. }
  assert (Hstart :
    main h env a s =
    (if args.upload_to_hub a then
       run_bind (upload_to_hub h (args.output_dir a) (args.repo_id a)
                               "evaluation_results")
                (fun _ => print_line (ResultsUploadedTo (args.repo_id a)))
     else run_ret tt)
      (mk_session (environ s3) w
                  (printed s3 ++ [ResultsSavedTo (args.output_dir a)]) (uploaded s3))).
  { unfold main. unfold run_bind at 1. rewrite E1.
    unfold run_bind at 1. unfold get_dataset_subsets_of, run_bind at 1, run_lift.
    rewrite Hls, Hsub.
    unfold run_bind at 1. unfold print_line at 1. fold s2.
    unfold run_bind at 1. rewrite E3.
    unfold run_bind at 1. rewrite Er.
    unfold run_bind at 1. unfold on_disk. rewrite Es.
    unfold run_bind at 1. unfold print_line at 1. reflexivity. }
  rewrite Hstart. destruct (args.upload_to_hub a) eqn:Eflag.
  - unfold run_bind, upload_to_hub. fold (upload_of a). rewrite (Hup eq_refl).
    cbn [environ disk printed uploaded]. unfold print_line.
    cbn [environ disk printed uploaded].
    eexists. split; [reflexivity|]. cbn [disk uploaded]. split; [exact Hfiles|].
    congruence.
  - eexists. split; [reflexivity|]. cbn [disk uploaded]. split; [exact Hfiles|].
    congruence.
Qed.

End MainFacts.

Lemma main_without_subsets_witness :
  snd (ProcessResults.main no_subset_hub permissive sample_args fresh_session)
    = Raise StopIteration /\
  ProcessResults.printed
    (fst (ProcessResults.main no_subset_hub permissive sample_args fresh_session))
    = ProcessResults.printed fresh_session ++ [ProcessResults.FoundSubsets 0 []] /\
  ProcessResults.disk
    (fst (ProcessResults.main no_subset_hub permissive sample_args fresh_session))
    = ProcessResults.disk fresh_session /\
  ProcessResults.uploaded
    (fst (ProcessResults.main no_subset_hub permissive sample_args fresh_session))
    = ProcessResults.uploaded fresh_session.
Proof.
  apply (main_without_subsets no_subset_hub permissive sample_args fresh_session
           [ProcessResults.mk_ls_entry "datasets/r/README.md" "file"]).
  - reflexivity.
  - intros data [<-|[]]. simpl. discriminate.
Defined.

Lemma main_returns_witness :
  exists s',
    ProcessResults.main one_subset_hub permissive sample_args fresh_session
      = (s', Ok tt) /\
    (forall k, In k result_sets ->
       assoc (artifact "out" k) (files (ProcessResults.disk s')) <> None) /\
    ProcessResults.uploaded s' = [upload_of sample_args].
Proof.
  apply (main_returns one_subset_hub permissive sample_args fresh_session
           [ProcessResults.mk_ls_entry "datasets/r/web" "directory";
            ProcessResults.mk_ls_entry "datasets/r/README.md" "file"]
           ["web"]).
  - reflexivity.
  - vm_compute. reflexivity.
  - discriminate.
  - intros subset _. now exists scenario_binary64.
  - reflexivity.
  - reflexivity.
  - reflexivity.
Defined.

Section SubsetWeights.

Import ProcessResults.

Context {F : Type} `{PyFloat F}.

Lemma map_filter_key {A : Type} (key : A -> string) (p : string -> bool) (l : list A) :
  map key (filter (fun r => p (key r)) l) = filter p (map key l).
Proof.
  induction l as [|r l IH]; simpl; [reflexivity|].
  destruct (p (key r)); simpl; now rewrite IH.
Qed.

Lemma nodup_filter (p : string -> bool) (l : list string) :
  nodup string_dec (filter p l) = filter p (nodup string_dec l).
Proof.
  induction l as [|k l IH]; simpl; [reflexivity|].
  destruct (p k) eqn:Ep; simpl.
  - destruct (in_dec string_dec k (filter p l)) as [Hin|Hnin];
      destruct (in_dec string_dec k l) as [Hin'|Hnin']; simpl.
    + exact IH.
    + apply filter_In in Hin as [Hin _]. contradiction.
    + elim Hnin. apply filter_In. now split.
    + now rewrite Ep, IH.
  - destruct (in_dec string_dec k l); simpl; [exact IH|]. now rewrite Ep.
Qed.

Lemma length_filter_insert_sorted (p : string -> bool) k l :
  List.length (filter p (insert_sorted k l)) = List.length (filter p (k :: l)).
Proof.
  induction l as [|k' l IH]; [reflexivity|]. cbn [insert_sorted].
  destruct (String.leb k k'); [reflexivity|].
  cbn [filter] in IH |- *. destruct (p k'), (p k); cbn [List.length] in IH |- *; lia.
Qed.

Lemma length_filter_sorted_keys (p : string -> bool) l :
  List.length (filter p (sorted_keys l))
  = List.length (filter p (nodup string_dec l)).
Proof.
  unfold sorted_keys. induction (nodup string_dec l) as [|k ks IH]; [reflexivity|].
  cbn [fold_right]. rewrite length_filter_insert_sorted. cbn [filter].
  destruct (p k); cbn [List.length]; now rewrite IH.
Qed.

Lemma length_filter_split {A : Type} (p : A -> bool) (l : list A) :
  (List.length (filter p l) + List.length (filter (fun x => negb (p x)) l)
   = List.length l)%nat.
Proof.
  induction l as [|x l IH]; [reflexivity|]. cbn [filter].
  destruct (p x); cbn [negb List.length]; lia.
Qed.

(** The questions that the filter drops are those of the returned list. *)
Lemma questions_retained (dataset : list (record F)) :
  let ids := filter (fun k => universally_correct (question_group dataset k))
                    (sorted_keys (map specifics_id dataset)) in
  Z.of_nat (List.length ids)
  = questions dataset - questions (retained dataset (Some ids)).
Proof.
  intros ids. unfold questions, retained.
  rewrite (map_filter_key specifics_id (fun k => negb (existsb (String.eqb k) ids))).
  rewrite nodup_filter.
  set (L := nodup string_dec (map specifics_id dataset)).
  set (uc := fun k => universally_correct (question_group dataset k)).
  assert (Hq : filter (fun k => negb (existsb (String.eqb k) ids)) L
               = filter (fun k => negb (uc k)) L).
  { apply filter_ext_in. intros k Hk. f_equal.
    apply nodup_In in Hk.
    destruct (uc k) eqn:Eu.
    - apply existsb_exists. exists k. split; [|apply String.eqb_refl].
      apply filter_In. split; [|exact Eu]. exact (proj2 (In_sorted_keys _ _) Hk).
    - destruct (existsb (String.eqb k) ids) eqn:Ee; [|reflexivity].
      apply existsb_exists in Ee as [x [Hx Hkx]]. apply String.eqb_eq in Hkx. subst x.
      apply filter_In in Hx as [_ Hx]. fold (uc k) in Hx. congruence. }
  rewrite Hq.
  assert (Hids : List.length ids = List.length (filter uc L)).
  { unfold ids. fold uc. apply length_filter_sorted_keys. }
  pose proof (length_filter_split uc L). lia.
Qed.

(** X22.  One pass of the loop of [main] over a subset whose dataset loads
    returns.  It weights the subset by its number of distinct questions in
    the plain run, and in the filtered run by the number of questions that
    the filter drops: the filtered accuracy is computed on the questions
    that remain, the filtered weight counts those that do not. *)
Theorem filtered_weight_counts_dropped
    (h : hub F) (a : args.t) (c : containers F) (subset : string) (s : session F)
    (dataset : list (record F)) :
  hub_load_dataset h (args.dataset_path a) (subset ++ "/*.parquet")%string
    = Ok dataset ->
  exists s' c' ids,
    subset_step h a c subset s = (s', Ok c') /\
    get (all_correct_ids c') subset = Some ids /\
    get (all_evaluation_results c') subset
      = Some (calculate_models_accuracy dataset None) /\
    get (all_evaluation_results_filtered c') subset
      = Some (calculate_models_accuracy dataset (Some ids)) /\
    get (dataset_total c') subset = Some (questions dataset) /\
    get (dataset_total_filtered c') subset
      = Some (questions dataset - questions (retained dataset (Some ids))).
Proof.
  intros Hload. unfold subset_step, get_all_correct_ids_of, run_bind, run_lift,
    print_line, calculate_models_accuracy_printing, run_ret.
  cbn [environ disk printed uploaded]. rewrite Hload.
  rewrite get_all_correct_ids_eq. cbn zeta.
  eexists. eexists. eexists. split; [reflexivity|].
  cbn [all_correct_ids all_evaluation_results all_evaluation_results_filtered
       dataset_total dataset_total_filtered].
  rewrite !get_setitem_same.
  split; [reflexivity|]. split; [reflexivity|]. split; [reflexivity|]. split.
  - f_equal. unfold len, questions. f_equal.
    match goal with
    | |- List.length (items ?d) = _ => transitivity (List.length (keys d))
    end.
    + unfold keys. now rewrite length_map.
    + rewrite keys_fold_setitem; [|apply NoDup_sorted_keys|intros k _ []].
      cbn [keys items empty_defaultdict map app]. apply length_sorted_keys.
  - f_equal. apply questions_retained.
Qed.

End SubsetWeights.

Lemma filtered_weight_counts_dropped_witness :
  exists s' c' ids,
    ProcessResults.subset_step one_subset_hub sample_args
      ProcessResults.empty_containers "web" fresh_session = (s', Ok c') /\
    get (ProcessResults.all_correct_ids c') "web" = Some ids /\
    get (ProcessResults.all_evaluation_results c') "web"
      = Some (ProcessResults.calculate_models_accuracy scenario_binary64 None) /\
    get (ProcessResults.all_evaluation_results_filtered c') "web"
      = Some (ProcessResults.calculate_models_accuracy scenario_binary64 (Some ids)) /\
    get (ProcessResults.dataset_total c') "web" = Some (questions scenario_binary64) /\
    get (ProcessResults.dataset_total_filtered c') "web"
      = Some (questions scenario_binary64
              - questions (ProcessResults.retained scenario_binary64 (Some ids))).
Proof.
  apply (filtered_weight_counts_dropped one_subset_hub sample_args
           ProcessResults.empty_containers "web" fresh_session scenario_binary64).
  reflexivity.
Defined.
